(** * EfiSocketLib, IPv4 raw sockets (StdLib/EfiSocketLib/Ip4.c)

    A shallow embedding of the receive engine, the transmit engine and the
    address operations of the SOCK_RAW / IPv4 socket layer, followed by the
    properties of the specification that were checked against it.  The
    options, the configuration, the close and cancel routines and the list
    of IPv4 services of Ip4.c follow, and the Firmware Volume Block
    routines of NorFlashFvbDxe.c, with further properties of both files.

    Conventions.
    - In Ip4.c [size_t] and [UINTN] are 64 bits wide (X64 build); every
      addition and subtraction on a counter is written with its wrap-around.
    - The machine is little endian, as UEFI requires.
    - The singly linked lists of the source (ports linked by [pLinkSocket],
      packets linked by [pNext] between a head and a tail pointer) are Rocq
      lists: the head pointer is the first element, the tail pointer the
      last one, [NULL] is the empty list.
    - A pointer that may be [NULL] is an [option].
    - A function returns [None] when the C code would dereference [NULL] or
      would not return. *)

From Stdlib Require Import ZArith List Bool Lia Permutation.
Import ListNotations.
Local Open Scope Z_scope.

(** ** Integer types *)

Definition to_UINT8 (x : Z) : Z := x mod 2 ^ 8.
Definition to_UINT32 (x : Z) : Z := x mod 2 ^ 32.
Definition to_size_t (x : Z) : Z := x mod 2 ^ 64.

(** ** Status codes

    [EFI_STATUS] and the [errno] values are declared in headers that are not
    part of the sources at hand.  Only the names appear in Ip4.c, so both
    are enumerations here: the named codes the file uses, the warnings
    (high bit clear, not zero) and any other error code (high bit set). *)

Inductive EFI_STATUS : Type :=
| EFI_SUCCESS
| EFI_WARNING (code : positive)
| EFI_INVALID_PARAMETER
| EFI_UNSUPPORTED
| EFI_NOT_READY
| EFI_DEVICE_ERROR
| EFI_OUT_OF_RESOURCES
| EFI_NOT_FOUND
| EFI_ACCESS_DENIED
| EFI_NO_MAPPING
| EFI_NOT_STARTED
| EFI_NETWORK_UNREACHABLE
| EFI_HOST_UNREACHABLE
| EFI_PROTOCOL_UNREACHABLE
| EFI_PORT_UNREACHABLE
| EFI_OTHER_ERROR (code : positive).

(** The macro [EFI_ERROR]: true exactly on the codes with the high bit set. *)
Definition EFI_ERROR (Status : EFI_STATUS) : bool :=
  match Status with
  | EFI_SUCCESS | EFI_WARNING _ => false
  | _ => true
  end.

Inductive errno_t : Type :=
| errno_0            (* the value 0: no error *)
| EADDRNOTAVAIL
| EAGAIN
| EEXIST
| EHOSTUNREACH
| EINVAL
| EIO
| ENETUNREACH
| ENOMEM
| ENOPROTOOPT
| ENOTCONN
| EPROTONOSUPPORT
| errno_other (code : positive).

(** ** Constants of Socket.h and of the C library headers

    Socket.h, sys/socket.h and netinet/in.h are not among the sources.  The
    constants Ip4.c takes from them are parameters of the development. *)

Class Socket_h : Type := {
  MAX_RX_DATA : Z;
  MSG_PEEK : Z;
  AF_INET : Z;
  SOCKET_STATE_CONNECTED : Z;
  PORT_STATE_RX_ERROR : Z;
  PORT_STATE_CLOSE_STARTED : Z;
  sizeof_sockaddr_in : Z;    (* sizeof ( struct sockaddr_in ) *)
  sizeof_sin_zero : Z        (* sizeof ( sin_zero ) *)
}.

(** ** Data model *)

(** [EFI_IPv4_ADDRESS]: the four bytes [Addr[0]] .. [Addr[3]]. *)
Record EFI_IPv4_ADDRESS : Type := {
  Addr0 : Z;
  Addr1 : Z;
  Addr2 : Z;
  Addr3 : Z
}.

Definition Ip4_zero : EFI_IPv4_ADDRESS :=
  {| Addr0 := 0; Addr1 := 0; Addr2 := 0; Addr3 := 0 |}.

(** [struct sockaddr_in]; [sin_zero] is not represented, it is only ever
    zeroed. *)
Record sockaddr_in : Type := {
  sin_len : Z;
  sin_family : Z;
  sin_port : Z;
  sin_addr : Z               (* sin_addr.s_addr, 32 bits *)
}.

(** [EFI_IP4_RECEIVE_DATA], the buffer descriptor the IPv4 driver returns
    with a completed receive.  [Header_bytes] is the memory [Header] points
    to; a fragment is the content of its [FragmentBuffer], its
    [FragmentLength] is the length of that list. *)
Record EFI_IP4_RECEIVE_DATA : Type := {
  RecycleSignal : nat;
  HeaderLength : Z;
  Header_SourceAddress : EFI_IPv4_ADDRESS;
  Header_bytes : list Z;
  DataLength : Z;
  FragmentTable : list (list Z)
}.

Record EFI_IP4_OVERRIDE_DATA : Type := {
  Override_SourceAddress : EFI_IPv4_ADDRESS;
  Override_GatewayAddress : EFI_IPv4_ADDRESS;
  Override_Protocol : Z;
  Override_TypeOfService : Z;
  Override_TimeToLive : Z;
  Override_DoNotFragment : bool
}.

(** [ESL_IP4_TX_DATA]: the transmit descriptor with the packet's own
    buffer. *)
Record ESL_IP4_TX_DATA : Type := {
  TxData_DestinationAddress : EFI_IPv4_ADDRESS;
  TxData_OverrideData : option EFI_IP4_OVERRIDE_DATA;
  TxData_OptionsLength : Z;
  TxData_TotalDataLength : Z;
  TxData_FragmentCount : Z;
  TxData_FragmentLength0 : Z;
  Tx_Buffer : list Z
}.

(** [ESL_PACKET]: the union [Op], either a receive packet holding the
    driver's buffer descriptor ([pRxData], possibly [NULL]) or a transmit
    packet. *)
Inductive ESL_PACKET : Type :=
| Ip4Rx (pRxData : option EFI_IP4_RECEIVE_DATA)
| Ip4Tx (TxData : ESL_IP4_TX_DATA).

(** [ESL_IO_MGMT]: a transmit slot. *)
Record ESL_IO_MGMT : Type := {
  pPacket : option ESL_PACKET;
  Token_Ip4Tx_Status : EFI_STATUS
}.

Record EFI_IP4_CONFIG_DATA : Type := {
  DefaultProtocol : Z;
  AcceptAnyProtocol : bool;
  AcceptIcmpErrors : bool;
  AcceptBroadcast : bool;
  AcceptPromiscuous : bool;
  UseDefaultAddress : bool;
  StationAddress : EFI_IPv4_ADDRESS;
  SubnetMask : EFI_IPv4_ADDRESS;
  TypeOfService : Z;
  TimeToLive : Z;
  DoNotFragment : bool;
  RawData : bool;
  ReceiveTimeout : Z;
  TransmitTimeout : Z
}.

(** [ESL_PORT] with its [Context.Ip4].  [Ip4_RxTokens] is not a field of the
    C structure: it counts the receive tokens the IPv4 driver currently
    holds for this port (accepted by [Receive], not yet completed). *)
Record ESL_PORT : Type := {
  Port_State : Z;
  pReceivePending : option ESL_PACKET;
  pTxFree : list ESL_IO_MGMT;
  pTxActive : list ESL_IO_MGMT;
  DestinationAddress : EFI_IPv4_ADDRESS;
  ConfigData : EFI_IP4_CONFIG_DATA;
  RxToken_Status : EFI_STATUS;
  RxToken_RxData : option EFI_IP4_RECEIVE_DATA;
  Ip4_RxTokens : nat
}.

(** Calls into the generic socket layer and the boot services, in the order
    they are made. *)
Inductive ESL_CALL : Type :=
| Call_PacketAllocate_Rx (Status : EFI_STATUS)
| Call_PacketAllocate_Tx (BufferLength : Z) (Status : EFI_STATUS)
| Call_PacketFree (pPacket : ESL_PACKET)
| Call_SignalEvent (Event : nat)
| Call_PortCloseRxDone
| Call_Ip4_Transmit (pPacket : ESL_PACKET) (Status : EFI_STATUS)
| Call_CreateChild (Status : EFI_STATUS)
| Call_DestroyChild
| Call_PortClose.

(** [ESL_SOCKET].  [pRxPacketList] is the queue between
    [pRxPacketListHead] and [pRxPacketListTail], [pTxPacketList] the one
    between [pTxPacketListHead] and [pTxPacketListTail].  [Calls] is not a
    field of the C structure: it records the calls made on behalf of the
    socket, most recent last. *)
Record ESL_SOCKET : Type := {
  State : Z;
  errno : errno_t;
  Protocol : Z;
  pPortList : list ESL_PORT;
  pRxPacketList : list ESL_PACKET;
  pRxFree : list ESL_PACKET;
  RxBytes : Z;
  MaxRxBuf : Z;
  RxError : EFI_STATUS;
  bRxDisable : bool;
  pTxPacketList : list ESL_PACKET;
  TxBytes : Z;
  MaxTxBuf : Z;
  TxError : EFI_STATUS;
  Calls : list ESL_CALL
}.

(** *** Field updates *)

Definition set_errno (v : errno_t) (s : ESL_SOCKET) : ESL_SOCKET :=
  {| State := State s; errno := v; Protocol := Protocol s;
     pPortList := pPortList s; pRxPacketList := pRxPacketList s;
     pRxFree := pRxFree s; RxBytes := RxBytes s; MaxRxBuf := MaxRxBuf s;
     RxError := RxError s; bRxDisable := bRxDisable s;
     pTxPacketList := pTxPacketList s; TxBytes := TxBytes s;
     MaxTxBuf := MaxTxBuf s; TxError := TxError s; Calls := Calls s |}.

Definition set_pPortList (v : list ESL_PORT) (s : ESL_SOCKET) : ESL_SOCKET :=
  {| State := State s; errno := errno s; Protocol := Protocol s;
     pPortList := v; pRxPacketList := pRxPacketList s;
     pRxFree := pRxFree s; RxBytes := RxBytes s; MaxRxBuf := MaxRxBuf s;
     RxError := RxError s; bRxDisable := bRxDisable s;
     pTxPacketList := pTxPacketList s; TxBytes := TxBytes s;
     MaxTxBuf := MaxTxBuf s; TxError := TxError s; Calls := Calls s |}.

Definition set_pRxPacketList (v : list ESL_PACKET) (s : ESL_SOCKET) : ESL_SOCKET :=
  {| State := State s; errno := errno s; Protocol := Protocol s;
     pPortList := pPortList s; pRxPacketList := v;
     pRxFree := pRxFree s; RxBytes := RxBytes s; MaxRxBuf := MaxRxBuf s;
     RxError := RxError s; bRxDisable := bRxDisable s;
     pTxPacketList := pTxPacketList s; TxBytes := TxBytes s;
     MaxTxBuf := MaxTxBuf s; TxError := TxError s; Calls := Calls s |}.

Definition set_pRxFree (v : list ESL_PACKET) (s : ESL_SOCKET) : ESL_SOCKET :=
  {| State := State s; errno := errno s; Protocol := Protocol s;
     pPortList := pPortList s; pRxPacketList := pRxPacketList s;
     pRxFree := v; RxBytes := RxBytes s; MaxRxBuf := MaxRxBuf s;
     RxError := RxError s; bRxDisable := bRxDisable s;
     pTxPacketList := pTxPacketList s; TxBytes := TxBytes s;
     MaxTxBuf := MaxTxBuf s; TxError := TxError s; Calls := Calls s |}.

Definition set_RxBytes (v : Z) (s : ESL_SOCKET) : ESL_SOCKET :=
  {| State := State s; errno := errno s; Protocol := Protocol s;
     pPortList := pPortList s; pRxPacketList := pRxPacketList s;
     pRxFree := pRxFree s; RxBytes := v; MaxRxBuf := MaxRxBuf s;
     RxError := RxError s; bRxDisable := bRxDisable s;
     pTxPacketList := pTxPacketList s; TxBytes := TxBytes s;
     MaxTxBuf := MaxTxBuf s; TxError := TxError s; Calls := Calls s |}.

Definition set_RxError (v : EFI_STATUS) (s : ESL_SOCKET) : ESL_SOCKET :=
  {| State := State s; errno := errno s; Protocol := Protocol s;
     pPortList := pPortList s; pRxPacketList := pRxPacketList s;
     pRxFree := pRxFree s; RxBytes := RxBytes s; MaxRxBuf := MaxRxBuf s;
     RxError := v; bRxDisable := bRxDisable s;
     pTxPacketList := pTxPacketList s; TxBytes := TxBytes s;
     MaxTxBuf := MaxTxBuf s; TxError := TxError s; Calls := Calls s |}.

Definition set_pTxPacketList (v : list ESL_PACKET) (s : ESL_SOCKET) : ESL_SOCKET :=
  {| State := State s; errno := errno s; Protocol := Protocol s;
     pPortList := pPortList s; pRxPacketList := pRxPacketList s;
     pRxFree := pRxFree s; RxBytes := RxBytes s; MaxRxBuf := MaxRxBuf s;
     RxError := RxError s; bRxDisable := bRxDisable s;
     pTxPacketList := v; TxBytes := TxBytes s;
     MaxTxBuf := MaxTxBuf s; TxError := TxError s; Calls := Calls s |}.

Definition set_TxBytes (v : Z) (s : ESL_SOCKET) : ESL_SOCKET :=
  {| State := State s; errno := errno s; Protocol := Protocol s;
     pPortList := pPortList s; pRxPacketList := pRxPacketList s;
     pRxFree := pRxFree s; RxBytes := RxBytes s; MaxRxBuf := MaxRxBuf s;
     RxError := RxError s; bRxDisable := bRxDisable s;
     pTxPacketList := pTxPacketList s; TxBytes := v;
     MaxTxBuf := MaxTxBuf s; TxError := TxError s; Calls := Calls s |}.

Definition set_TxError (v : EFI_STATUS) (s : ESL_SOCKET) : ESL_SOCKET :=
  {| State := State s; errno := errno s; Protocol := Protocol s;
     pPortList := pPortList s; pRxPacketList := pRxPacketList s;
     pRxFree := pRxFree s; RxBytes := RxBytes s; MaxRxBuf := MaxRxBuf s;
     RxError := RxError s; bRxDisable := bRxDisable s;
     pTxPacketList := pTxPacketList s; TxBytes := TxBytes s;
     MaxTxBuf := MaxTxBuf s; TxError := v; Calls := Calls s |}.

(** Record one more call. *)
Definition call (c : ESL_CALL) (s : ESL_SOCKET) : ESL_SOCKET :=
  {| State := State s; errno := errno s; Protocol := Protocol s;
     pPortList := pPortList s; pRxPacketList := pRxPacketList s;
     pRxFree := pRxFree s; RxBytes := RxBytes s; MaxRxBuf := MaxRxBuf s;
     RxError := RxError s; bRxDisable := bRxDisable s;
     pTxPacketList := pTxPacketList s; TxBytes := TxBytes s;
     MaxTxBuf := MaxTxBuf s; TxError := TxError s;
     Calls := Calls s ++ [c] |}.

Definition set_Port_State (v : Z) (p : ESL_PORT) : ESL_PORT :=
  {| Port_State := v; pReceivePending := pReceivePending p;
     pTxFree := pTxFree p; pTxActive := pTxActive p;
     DestinationAddress := DestinationAddress p; ConfigData := ConfigData p;
     RxToken_Status := RxToken_Status p; RxToken_RxData := RxToken_RxData p;
     Ip4_RxTokens := Ip4_RxTokens p |}.

Definition set_pReceivePending (v : option ESL_PACKET) (p : ESL_PORT) : ESL_PORT :=
  {| Port_State := Port_State p; pReceivePending := v;
     pTxFree := pTxFree p; pTxActive := pTxActive p;
     DestinationAddress := DestinationAddress p; ConfigData := ConfigData p;
     RxToken_Status := RxToken_Status p; RxToken_RxData := RxToken_RxData p;
     Ip4_RxTokens := Ip4_RxTokens p |}.

Definition set_pTxFree (v : list ESL_IO_MGMT) (p : ESL_PORT) : ESL_PORT :=
  {| Port_State := Port_State p; pReceivePending := pReceivePending p;
     pTxFree := v; pTxActive := pTxActive p;
     DestinationAddress := DestinationAddress p; ConfigData := ConfigData p;
     RxToken_Status := RxToken_Status p; RxToken_RxData := RxToken_RxData p;
     Ip4_RxTokens := Ip4_RxTokens p |}.

Definition set_pTxActive (v : list ESL_IO_MGMT) (p : ESL_PORT) : ESL_PORT :=
  {| Port_State := Port_State p; pReceivePending := pReceivePending p;
     pTxFree := pTxFree p; pTxActive := v;
     DestinationAddress := DestinationAddress p; ConfigData := ConfigData p;
     RxToken_Status := RxToken_Status p; RxToken_RxData := RxToken_RxData p;
     Ip4_RxTokens := Ip4_RxTokens p |}.

Definition set_DestinationAddress (v : EFI_IPv4_ADDRESS) (p : ESL_PORT) : ESL_PORT :=
  {| Port_State := Port_State p; pReceivePending := pReceivePending p;
     pTxFree := pTxFree p; pTxActive := pTxActive p;
     DestinationAddress := v; ConfigData := ConfigData p;
     RxToken_Status := RxToken_Status p; RxToken_RxData := RxToken_RxData p;
     Ip4_RxTokens := Ip4_RxTokens p |}.

Definition set_RxToken (st : EFI_STATUS) (d : option EFI_IP4_RECEIVE_DATA)
    (p : ESL_PORT) : ESL_PORT :=
  {| Port_State := Port_State p; pReceivePending := pReceivePending p;
     pTxFree := pTxFree p; pTxActive := pTxActive p;
     DestinationAddress := DestinationAddress p; ConfigData := ConfigData p;
     RxToken_Status := st; RxToken_RxData := d;
     Ip4_RxTokens := Ip4_RxTokens p |}.

Definition set_Ip4_RxTokens (v : nat) (p : ESL_PORT) : ESL_PORT :=
  {| Port_State := Port_State p; pReceivePending := pReceivePending p;
     pTxFree := pTxFree p; pTxActive := pTxActive p;
     DestinationAddress := DestinationAddress p; ConfigData := ConfigData p;
     RxToken_Status := RxToken_Status p; RxToken_RxData := RxToken_RxData p;
     Ip4_RxTokens := v |}.

(** [NULL == p] for a pointer [p]. *)
Definition is_NULL {A : Type} (p : option A) : bool :=
  match p with None => true | Some _ => false end.

(** The sum [pRxData->HeaderLength + pRxData->DataLength] of two [UINT32]
    fields, as both [EslIp4RxComplete] and [EslIp4Receive] compute it. *)
Definition RxData_bytes (pRxData : EFI_IP4_RECEIVE_DATA) : Z :=
  to_UINT32 (HeaderLength pRxData + DataLength pRxData).

(** Replace the [n]-th port of a port list; nothing happens out of range. *)
Fixpoint replace_port (n : nat) (p : ESL_PORT) (l : list ESL_PORT) : list ESL_PORT :=
  match l, n with
  | [], _ => []
  | _ :: l', O => p :: l'
  | q :: l', S n' => q :: replace_port n' p l'
  end.

(** ** Collaborators outside Ip4.c *)

(** Modelled from the spec: the Packet Pool of the generic layer
    ([EslSocketPacketFree], not in the sources) takes the packet back; the
    call is recorded. *)
Definition EslSocketPacketFree (pPacket : ESL_PACKET) (pSocket : ESL_SOCKET)
    : ESL_SOCKET :=
  call (Call_PacketFree pPacket) pSocket.

(** Modelled from the spec: [EslSocketPortCloseRxDone] of the generic
    port-close state machine (not in the sources) is told that the receive
    side of a closing port is done; the call is recorded. *)
Definition EslSocketPortCloseRxDone (pSocket : ESL_SOCKET) : ESL_SOCKET :=
  call Call_PortCloseRxDone pSocket.

(** [gBS->SignalEvent]: returns a receive buffer to the IPv4 driver. *)
Definition SignalEvent (Event : nat) (pSocket : ESL_SOCKET) : ESL_SOCKET :=
  call (Call_SignalEvent Event) pSocket.

(** What the environment answers during [EslIp4RxStart]: the status of
    [EslSocketPacketAllocate] (asked only when the free list is empty) and
    the status of the IPv4 driver's [Receive]. *)
Record RxStart_io : Type := {
  io_Allocate : EFI_STATUS;
  io_Receive : EFI_STATUS
}.

(** What [EslIp4Receive] hands back to its caller. *)
Record Receive_result : Type := {
  rr_Status : EFI_STATUS;
  rr_DataLength : option Z;               (* *pDataLength, when written *)
  rr_Buffer : list Z;                     (* the bytes written to pBuffer *)
  rr_Address : option (sockaddr_in * Z);  (* RemoteAddress and the number of
                                             its bytes copied to pAddress *)
  rr_Socket : ESL_SOCKET
}.

Section Ip4.

Context {h : Socket_h}.

(** ** Receive engine *)

(** [EslIp4RxStart], Ip4.c lines 1650-1751. *)
Definition EslIp4RxStart (io : RxStart_io) (pSocket : ESL_SOCKET)
    (pPort : ESL_PORT) : ESL_SOCKET * ESL_PORT :=
  if negb (EFI_ERROR (RxError pSocket)) then
    if is_NULL (pReceivePending pPort)
       && (PORT_STATE_CLOSE_STARTED >? Port_State pPort) then
      let '(pSocket, pPacket) :=
        match pRxFree pSocket with
        | pPacket :: pNext => (set_pRxFree pNext pSocket, Some pPacket)
        | [] =>
            let pSocket := call (Call_PacketAllocate_Rx (io_Allocate io)) pSocket in
            if EFI_ERROR (io_Allocate io) then (pSocket, None)
            else (pSocket, Some (Ip4Rx None))
        end in
      match pPacket with
      | Some _ =>
          (* pNext = NULL, Op.Ip4Rx.pRxData = NULL *)
          let pPacket := Ip4Rx None in
          let pPort := set_RxToken (RxToken_Status pPort) None pPort in
          let pPort := set_pReceivePending (Some pPacket) pPort in
          let Status := io_Receive io in
          if negb (EFI_ERROR Status) then
            (pSocket, set_Ip4_RxTokens (S (Ip4_RxTokens pPort)) pPort)
          else
            let pSocket :=
              if negb (EFI_ERROR (RxError pSocket))
              then set_RxError Status pSocket else pSocket in
            let pPort := set_pReceivePending None pPort in
            (set_pRxFree (pPacket :: pRxFree pSocket) pSocket, pPort)
      | None => (pSocket, pPort)
      end
    else (pSocket, pPort)
  else (pSocket, pPort).

(** [EslIp4RxComplete], Ip4.c lines 1501-1631.  The completion status and
    the buffer descriptor are read from the port's [RxToken], where the
    driver left them.  Without a pending packet the routine has nothing to
    work on: [None]. *)
Definition EslIp4RxComplete (io : RxStart_io) (pSocket : ESL_SOCKET)
    (pPort : ESL_PORT) : option (ESL_SOCKET * ESL_PORT) :=
  match pReceivePending pPort with
  | None => None
  | Some pPacket =>
      let pPort := set_pReceivePending None pPort in
      let Status := RxToken_Status pPort in
      if negb (EFI_ERROR Status) && negb (bRxDisable pSocket) then
        match RxToken_RxData pPort with
        | None => None
        | Some pRxData =>
            if PORT_STATE_CLOSE_STARTED >=? Port_State pPort then
              let pPacket := Ip4Rx (Some pRxData) in
              let pSocket :=
                set_pRxPacketList (pRxPacketList pSocket ++ [pPacket]) pSocket in
              let LengthInBytes := RxData_bytes pRxData in
              let pSocket :=
                set_RxBytes (to_size_t (RxBytes pSocket + LengthInBytes)) pSocket in
              if MaxRxBuf pSocket >? RxBytes pSocket
              then Some (EslIp4RxStart io pSocket pPort)
              else Some (pSocket, pPort)
            else
              let pSocket := SignalEvent (RecycleSignal pRxData) pSocket in
              Some (EslSocketPacketFree pPacket pSocket, pPort)
        end
      else
        let pSocket := EslSocketPacketFree pPacket pSocket in
        let pSocket :=
          if negb (EFI_ERROR (RxError pSocket))
          then set_RxError Status pSocket else pSocket in
        if PORT_STATE_CLOSE_STARTED <=? Port_State pPort then
          Some (EslSocketPortCloseRxDone pSocket, pPort)
        else if EFI_ERROR Status then
          Some (pSocket, set_Port_State PORT_STATE_RX_ERROR pPort)
        else Some (pSocket, pPort)
  end.

(** The loop that copies the received data, Ip4.c lines 1273-1296.
    [Fragment] stays 0 throughout the loop, so every round reads
    [FragmentTable[0]], here [frag].  [None]: the loop is still running
    after [fuel] rounds. *)
Fixpoint copy_fragments (fuel : nat) (frag : list Z)
    (BufferLength LengthInBytes : Z) (pBuffer : list Z)
    : option (Z * list Z) :=
  if BufferLength >? LengthInBytes then
    match fuel with
    | O => None
    | S fuel' =>
        let BytesToCopy := Z.of_nat (length frag) in
        let BytesToCopy :=
          if BufferLength - LengthInBytes <? BytesToCopy
          then BufferLength - LengthInBytes else BytesToCopy in
        copy_fragments fuel' frag BufferLength (LengthInBytes + BytesToCopy)
          (pBuffer ++ firstn (Z.to_nat BytesToCopy) frag)
    end
  else Some (LengthInBytes, pBuffer).

(** The address [EslIp4Receive] builds from the source address of the
    datagram, Ip4.c lines 1214-1224. *)
Definition Receive_RemoteAddress (pRxData : EFI_IP4_RECEIVE_DATA) : sockaddr_in :=
  let src := Header_SourceAddress pRxData in
  let IpAddress := Addr3 src in
  let IpAddress := to_UINT32 (Z.shiftl IpAddress 8) in
  let IpAddress := Z.lor IpAddress (Addr2 src) in
  let IpAddress := to_UINT32 (Z.shiftl IpAddress 8) in
  let IpAddress := Z.lor IpAddress (Addr1 src) in
  let IpAddress := to_UINT32 (Z.shiftl IpAddress 8) in
  let IpAddress := Z.lor IpAddress (Addr0 src) in
  {| sin_len := to_UINT8 sizeof_sockaddr_in; sin_family := AF_INET;
     sin_port := 0; sin_addr := IpAddress |}.

(** The mapping of a receive error to [errno], Ip4.c lines 1380-1400. *)
Definition RxError_errno (Status : EFI_STATUS) : errno_t :=
  match Status with
  | EFI_HOST_UNREACHABLE => EHOSTUNREACH
  | EFI_NETWORK_UNREACHABLE => ENETUNREACH
  | EFI_PORT_UNREACHABLE => EPROTONOSUPPORT
  | EFI_PROTOCOL_UNREACHABLE => ENOPROTOOPT
  | _ => EIO
  end.

(** The copy of the datagram into the caller's buffer, Ip4.c lines
    1244-1296: the IP header first, then the received data.  The result
    is [LengthInBytes] and the bytes written. *)
Definition Receive_copy (fuel : nat) (pRxData : EFI_IP4_RECEIVE_DATA)
    (BufferLength : Z) : option (Z * list Z) :=
  let DataBytes := RxData_bytes pRxData in
  let BufferLength :=
    if DataBytes <? BufferLength then DataBytes else BufferLength in
  let HeaderBytes := HeaderLength pRxData in
  let HeaderBytes :=
    if HeaderBytes >? BufferLength then BufferLength else HeaderBytes in
  let pBuffer := firstn (Z.to_nat HeaderBytes) (Header_bytes pRxData) in
  copy_fragments fuel (nth 0 (FragmentTable pRxData) []) BufferLength
    HeaderBytes pBuffer.

(** [EslIp4Receive], Ip4.c lines 1145-1416.  [pAddress] tells whether the
    caller passed an address buffer, [pAddressLength] is [None] for [NULL]
    and the value of [*pAddressLength] otherwise. *)
Definition EslIp4Receive (fuel : nat) (io : RxStart_io) (pSocket : ESL_SOCKET)
    (Flags BufferLength : Z) (pAddress : bool) (pAddressLength : option Z)
    : option Receive_result :=
  let fail Status pSocket :=
    Some {| rr_Status := Status; rr_DataLength := None; rr_Buffer := [];
            rr_Address := None; rr_Socket := pSocket |} in
  let pSocket := set_errno ENOTCONN pSocket in
  if (SOCKET_STATE_CONNECTED =? State pSocket)
     || (PORT_STATE_RX_ERROR =? State pSocket) then
    match pPortList pSocket with
    | [] => fail EFI_UNSUPPORTED pSocket
    | pPort :: pLinkSocket =>
      match pRxPacketList pSocket with
      | pPacket :: pNext =>
        if negb pAddress || negb (is_NULL pAddressLength) then
          match pPacket with
          | Ip4Rx (Some pRxData) =>
            let Address :=
              match pAddress, pAddressLength with
              | true, Some Length =>
                  let AddressLength := sizeof_sockaddr_in in
                  let AddressLength :=
                    if AddressLength >? Length then Length else AddressLength in
                  Some (Receive_RemoteAddress pRxData, AddressLength)
              | _, _ => None
              end in
            let DataBytes := RxData_bytes pRxData in
            match Receive_copy fuel pRxData BufferLength with
            | None => None
            | Some (LengthInBytes, pBuffer) =>
              let pSocket :=
                if Z.land Flags MSG_PEEK =? 0 then
                  let pSocket :=
                    set_RxBytes (to_size_t (RxBytes pSocket - DataBytes)) pSocket in
                  let pSocket := set_pRxPacketList pNext pSocket in
                  let pSocket := SignalEvent (RecycleSignal pRxData) pSocket in
                  let pSocket := set_pRxFree (pPacket :: pRxFree pSocket) pSocket in
                  if is_NULL (pReceivePending pPort)
                     && (MAX_RX_DATA >? RxBytes pSocket) then
                    let '(pSocket, pPort) := EslIp4RxStart io pSocket pPort in
                    set_pPortList (pPort :: pLinkSocket) pSocket
                  else pSocket
                else pSocket in
              Some {| rr_Status := EFI_SUCCESS;
                      rr_DataLength := Some LengthInBytes;
                      rr_Buffer := pBuffer;
                      rr_Address := Address;
                      rr_Socket := set_errno errno_0 pSocket |}
            end
          | _ => None
          end
        else fail EFI_INVALID_PARAMETER (set_errno EINVAL pSocket)
      | [] =>
        if EFI_ERROR (RxError pSocket) then
          let Status := RxError pSocket in
          let pSocket := set_errno (RxError_errno Status) pSocket in
          fail Status (set_RxError EFI_SUCCESS pSocket)
        else fail EFI_NOT_READY (set_errno EAGAIN pSocket)
      end
    end
  else fail EFI_UNSUPPORTED pSocket.

(** The arguments of one [EslIp4Receive] call. *)
Record Receive_args : Type := {
  ra_fuel : nat;
  ra_io : RxStart_io;
  ra_Flags : Z;
  ra_BufferLength : Z;
  ra_pAddress : bool;
  ra_pAddressLength : option Z
}.

Definition Receive_call (a : Receive_args) (pSocket : ESL_SOCKET)
    : option Receive_result :=
  EslIp4Receive (ra_fuel a) (ra_io a) pSocket (ra_Flags a)
    (ra_BufferLength a) (ra_pAddress a) (ra_pAddressLength a).

(** A sequence of [EslIp4Receive] calls: what each one returned. *)
Fixpoint Receive_all (calls : list Receive_args) (pSocket : ESL_SOCKET)
    : option (list Receive_result) :=
  match calls with
  | [] => Some []
  | a :: calls' =>
      match Receive_call a pSocket with
      | None => None
      | Some r =>
          match Receive_all calls' (rr_Socket r) with
          | None => None
          | Some rs => Some (r :: rs)
          end
      end
  end.

(** *** The receive engine as a transition system

    The operations that touch the pending receive of a port, each with the
    answers of the environment it needs. *)

(** Run [f] on the socket and its [n]-th port and put the port back. *)
Definition with_port (n : nat)
    (f : ESL_SOCKET -> ESL_PORT -> option (ESL_SOCKET * ESL_PORT))
    (pSocket : ESL_SOCKET) : option ESL_SOCKET :=
  match nth_error (pPortList pSocket) n with
  | None => None
  | Some pPort =>
      match f pSocket pPort with
      | None => None
      | Some (pSocket', pPort') =>
          Some (set_pPortList (replace_port n pPort' (pPortList pSocket')) pSocket')
      end
  end.

(** The IPv4 driver completes the receive token of port [n]: it must hold
    one; it fills in [RxToken] and signals the event, which runs
    [EslIp4RxComplete]. *)
Definition Ip4_RxDone (Status : EFI_STATUS)
    (RxData : option EFI_IP4_RECEIVE_DATA) (io : RxStart_io) (n : nat)
    (pSocket : ESL_SOCKET) : option ESL_SOCKET :=
  with_port n
    (fun pSocket pPort =>
       match Ip4_RxTokens pPort with
       | O => None
       | S k =>
           EslIp4RxComplete io pSocket
             (set_RxToken Status RxData (set_Ip4_RxTokens k pPort))
       end) pSocket.

Inductive Rx_op : Type :=
| Op_RxStart (n : nat) (io : RxStart_io)
| Op_RxDone (n : nat) (Status : EFI_STATUS)
    (RxData : option EFI_IP4_RECEIVE_DATA) (io : RxStart_io)
| Op_Receive (a : Receive_args).

Definition Rx_step (op : Rx_op) (pSocket : ESL_SOCKET) : option ESL_SOCKET :=
  match op with
  | Op_RxStart n io =>
      with_port n (fun s p => Some (EslIp4RxStart io s p)) pSocket
  | Op_RxDone n Status RxData io => Ip4_RxDone Status RxData io n pSocket
  | Op_Receive a =>
      match Receive_call a pSocket with
      | Some r => Some (rr_Socket r)
      | None => None
      end
  end.

Fixpoint Rx_run (ops : list Rx_op) (pSocket : ESL_SOCKET) : option ESL_SOCKET :=
  match ops with
  | [] => Some pSocket
  | op :: ops' =>
      match Rx_step op pSocket with
      | Some pSocket' => Rx_run ops' pSocket'
      | None => None
      end
  end.

(** ** Transmit engine *)

(** Modelled from the spec: [EslSocketTxStart], the transmit pump of the
    generic layer (not in the sources).  When a packet is queued and the
    port has a free transmit slot, the packet at the head of the queue
    leaves the queue, the slot leaves the free list and becomes active with
    that packet, and the packet is handed to the driver's [Transmit], whose
    status is [Transmit_Status].  Otherwise nothing happens. *)
Definition EslSocketTxStart (Transmit_Status : EFI_STATUS)
    (pSocket : ESL_SOCKET) (pPort : ESL_PORT) : ESL_SOCKET * ESL_PORT :=
  match pTxPacketList pSocket, pTxFree pPort with
  | pPacket :: pNext, pIo :: pFree =>
      let pIo := {| pPacket := Some pPacket;
                    Token_Ip4Tx_Status := Token_Ip4Tx_Status pIo |} in
      (call (Call_Ip4_Transmit pPacket Transmit_Status)
         (set_pTxPacketList pNext pSocket),
       set_pTxActive (pIo :: pTxActive pPort) (set_pTxFree pFree pPort))
  | _, _ => (pSocket, pPort)
  end.

(** Remove the [k]-th element of a list. *)
Fixpoint remove_nth {A : Type} (k : nat) (l : list A) : list A :=
  match l, k with
  | [], _ => []
  | _ :: l', O => l'
  | x :: l', S k' => x :: remove_nth k' l'
  end.

(** Modelled from the spec: [EslSocketTxComplete], the transmit completion
    of the generic layer (not in the sources).  It latches a failed status
    as the sticky transmit error unless one is latched already, releases
    the packet, returns the I/O slot (the [k]-th active one) to the free
    list, advances the active list and pumps the next queued packet. *)
Definition EslSocketTxComplete (k : nat) (Status : EFI_STATUS)
    (Transmit_Status : EFI_STATUS) (pSocket : ESL_SOCKET) (pPort : ESL_PORT)
    : ESL_SOCKET * ESL_PORT :=
  match nth_error (pTxActive pPort) k with
  | None => (pSocket, pPort)
  | Some pIo =>
      let pSocket :=
        if EFI_ERROR Status && negb (EFI_ERROR (TxError pSocket))
        then set_TxError Status pSocket else pSocket in
      let pSocket :=
        match pPacket pIo with
        | Some p => EslSocketPacketFree p pSocket
        | None => pSocket
        end in
      let pIo := {| pPacket := None; Token_Ip4Tx_Status := Status |} in
      let pPort := set_pTxActive (remove_nth k (pTxActive pPort)) pPort in
      let pPort := set_pTxFree (pIo :: pTxFree pPort) pPort in
      EslSocketTxStart Transmit_Status pSocket pPort
  end.

(** The four bytes of a 32-bit value in memory, lowest address first. *)
Definition bytes_of_UINT32 (x : Z) : EFI_IPv4_ADDRESS :=
  {| Addr0 := to_UINT8 x;
     Addr1 := to_UINT8 (Z.shiftr x 8);
     Addr2 := to_UINT8 (Z.shiftr x 16);
     Addr3 := to_UINT8 (Z.shiftr x 24) |}.

(** The 32-bit value [CopyMem] leaves in a [UINT32] when it copies four
    bytes there. *)
Definition UINT32_of_bytes (a : EFI_IPv4_ADDRESS) : Z :=
  Addr0 a + Z.shiftl (Addr1 a) 8 + Z.shiftl (Addr2 a) 16 + Z.shiftl (Addr3 a) 24.

(** What the environment answers during [EslIp4TxBuffer]: the status of
    [EslSocketPacketAllocate] and the status of the driver's [Transmit]. *)
Record TxBuffer_io : Type := {
  io_TxAllocate : EFI_STATUS;
  io_Transmit : EFI_STATUS
}.

(** [EslIp4TxBuffer], Ip4.c lines 2043-2244.  The result is the status,
    [*pDataLength] and the socket. *)
Definition EslIp4TxBuffer (io : TxBuffer_io) (pSocket : ESL_SOCKET)
    (Flags BufferLength : Z) (pBuffer : list Z)
    (pAddress : option sockaddr_in) (AddressLength : Z)
    : EFI_STATUS * Z * ESL_SOCKET :=
  let pSocket := set_errno ENOTCONN pSocket in
  if SOCKET_STATE_CONNECTED =? State pSocket then
    match pPortList pSocket with
    | [] => (EFI_UNSUPPORTED, 0, pSocket)
    | pPort :: pLinkSocket =>
      if MaxTxBuf pSocket >? TxBytes pSocket then
        let Status := io_TxAllocate io in
        let pSocket := call (Call_PacketAllocate_Tx BufferLength Status) pSocket in
        if negb (EFI_ERROR Status) then
          let Destination :=
            match pAddress with
            | Some pRemoteAddress => bytes_of_UINT32 (sin_addr pRemoteAddress)
            | None => DestinationAddress pPort
            end in
          let Override :=
            match pAddress with
            | Some _ =>
                Some {| Override_SourceAddress := StationAddress (ConfigData pPort);
                        Override_GatewayAddress := Ip4_zero;
                        Override_Protocol := to_UINT8 (Protocol pSocket);
                        Override_TypeOfService := 0;
                        Override_TimeToLive := 255;
                        Override_DoNotFragment := false |}
            | None => None
            end in
          let pTxData :=
            {| TxData_DestinationAddress := Destination;
               TxData_OverrideData := Override;
               TxData_OptionsLength := 0;
               TxData_TotalDataLength := to_UINT32 BufferLength;
               TxData_FragmentCount := 1;
               TxData_FragmentLength0 := to_UINT32 BufferLength;
               Tx_Buffer := firstn (Z.to_nat BufferLength) pBuffer |} in
          let pPacket := Ip4Tx pTxData in
          if negb (EFI_ERROR (TxError pSocket)) then
            let pSocket :=
              set_pTxPacketList (pTxPacketList pSocket ++ [pPacket]) pSocket in
            let pSocket :=
              set_TxBytes (to_size_t (TxBytes pSocket + BufferLength)) pSocket in
            let pSocket :=
              match pTxFree pPort with
              | _ :: _ =>
                  let '(pSocket, pPort) :=
                    EslSocketTxStart (io_Transmit io) pSocket pPort in
                  set_pPortList (pPort :: pLinkSocket) pSocket
              | [] => pSocket
              end in
            (Status, BufferLength, pSocket)
          else
            let Status := TxError pSocket in
            let pSocket := set_errno EIO pSocket in
            (Status, 0, EslSocketPacketFree pPacket pSocket)
        else (Status, 0, set_errno ENOMEM pSocket)
      else (EFI_NOT_READY, 0, set_errno EAGAIN pSocket)
    end
  else (EFI_UNSUPPORTED, 0, pSocket).

(** [EslIp4TxComplete], Ip4.c lines 2261-2301, for the [k]-th active
    transmit slot of the port.  [None]: there is no such slot, or it holds
    no transmit packet. *)
Definition EslIp4TxComplete (k : nat) (Transmit_Status : EFI_STATUS)
    (pSocket : ESL_SOCKET) (pPort : ESL_PORT)
    : option (ESL_SOCKET * ESL_PORT) :=
  match nth_error (pTxActive pPort) k with
  | Some pIo =>
      match pPacket pIo with
      | Some (Ip4Tx TxData) =>
          let LengthInBytes := TxData_TotalDataLength TxData in
          let pSocket :=
            set_TxBytes (to_size_t (TxBytes pSocket - LengthInBytes)) pSocket in
          let Status := Token_Ip4Tx_Status pIo in
          Some (EslSocketTxComplete k Status Transmit_Status pSocket pPort)
      | _ => None
      end
  | None => None
  end.

(** Store [Status] in the token of the [k]-th slot of a slot list. *)
Fixpoint set_Token_Status (k : nat) (Status : EFI_STATUS)
    (l : list ESL_IO_MGMT) : list ESL_IO_MGMT :=
  match l, k with
  | [], _ => []
  | pIo :: l', O =>
      {| pPacket := pPacket pIo; Token_Ip4Tx_Status := Status |} :: l'
  | pIo :: l', S k' => pIo :: set_Token_Status k' Status l'
  end.

(** The IPv4 driver completes the transmit of the [k]-th active slot of
    port [n] with [Status] and signals the event, which runs
    [EslIp4TxComplete]. *)
Definition Ip4_TxDone (n k : nat) (Status Transmit_Status : EFI_STATUS)
    (pSocket : ESL_SOCKET) : option ESL_SOCKET :=
  with_port n
    (fun pSocket pPort =>
       EslIp4TxComplete k Transmit_Status pSocket
         (set_pTxActive (set_Token_Status k Status (pTxActive pPort)) pPort))
    pSocket.

Inductive Tx_op : Type :=
| Op_TxBuffer (io : TxBuffer_io) (Flags BufferLength : Z) (pBuffer : list Z)
    (pAddress : option sockaddr_in) (AddressLength : Z)
| Op_TxDone (n k : nat) (Status Transmit_Status : EFI_STATUS).

Definition Tx_step (op : Tx_op) (pSocket : ESL_SOCKET) : option ESL_SOCKET :=
  match op with
  | Op_TxBuffer io Flags BufferLength pBuffer pAddress AddressLength =>
      Some (snd (EslIp4TxBuffer io pSocket Flags BufferLength pBuffer
                   pAddress AddressLength))
  | Op_TxDone n k Status Transmit_Status =>
      Ip4_TxDone n k Status Transmit_Status pSocket
  end.

Fixpoint Tx_run (ops : list Tx_op) (pSocket : ESL_SOCKET) : option ESL_SOCKET :=
  match ops with
  | [] => Some pSocket
  | op :: ops' =>
      match Tx_step op pSocket with
      | Some pSocket' => Tx_run ops' pSocket'
      | None => None
      end
  end.

(** ** Binding and addresses *)

(** [ESL_SERVICE], one network adapter offering IPv4.  Besides
    [TxIoNormal] (from [pSocketBinding]) it carries what the firmware
    answers when a port is created on this adapter: the statuses of
    [CreateChild], [AllocatePool], [CreateEvent], [EslSocketIoInit] and
    [OpenProtocol]. *)
Record ESL_SERVICE : Type := {
  TxIoNormal : nat;
  svc_CreateChild : EFI_STATUS;
  svc_AllocatePool : EFI_STATUS;
  svc_CreateEvent : EFI_STATUS;
  svc_IoInit : EFI_STATUS;
  svc_OpenProtocol : EFI_STATUS
}.

(** Modelled from the spec: [EslSocketIoInit] of the generic layer (not in
    the sources) initialises the transmit I/O slots of a new port; the free
    list then holds [TxIoNormal] idle slots. *)
Definition EslSocketIoInit (TxIoNormal : nat) : list ESL_IO_MGMT :=
  repeat {| pPacket := None; Token_Ip4Tx_Status := EFI_SUCCESS |} TxIoNormal.

(** The configuration [EslIp4PortAllocate] writes, Ip4.c lines 889-926. *)
Definition PortAllocate_ConfigData (pSocket : ESL_SOCKET)
    (pIpAddress : EFI_IPv4_ADDRESS) : EFI_IP4_CONFIG_DATA :=
  let any :=
    (0 =? Addr0 pIpAddress) && (0 =? Addr1 pIpAddress)
    && (0 =? Addr2 pIpAddress) && (0 =? Addr3 pIpAddress) in
  {| DefaultProtocol := to_UINT8 (Protocol pSocket);
     AcceptAnyProtocol := negb any;
     AcceptIcmpErrors := false;
     AcceptBroadcast := false;
     AcceptPromiscuous := false;
     UseDefaultAddress := any;
     StationAddress := if any then Ip4_zero else pIpAddress;
     SubnetMask :=
       if any then Ip4_zero
       else {| Addr0 := 255; Addr1 := 255; Addr2 := 255; Addr3 := 255 |};
     TypeOfService := 0;
     TimeToLive := 255;
     DoNotFragment := false;
     RawData := false;
     ReceiveTimeout := 0;
     TransmitTimeout := 0 |}.

(** [EslIp4PortAllocate], Ip4.c lines 757-970.  A failure after the port
    structure exists closes it through [EslSocketPortClose] (generic layer,
    the call is recorded); the port is linked to the socket only at the
    end of the successful path. *)
Definition EslIp4PortAllocate (pSocket : ESL_SOCKET) (pService : ESL_SERVICE)
    (pIpAddress : EFI_IPv4_ADDRESS) : EFI_STATUS * ESL_SOCKET :=
  if EFI_ERROR (svc_AllocatePool pService) then
    (svc_AllocatePool pService, set_errno ENOMEM pSocket)
  else if EFI_ERROR (svc_CreateEvent pService) then
    (svc_CreateEvent pService, call Call_PortClose (set_errno ENOMEM pSocket))
  else if EFI_ERROR (svc_IoInit pService) then
    (svc_IoInit pService, call Call_PortClose pSocket)
  else if EFI_ERROR (svc_OpenProtocol pService) then
    (svc_OpenProtocol pService, call Call_PortClose (set_errno EEXIST pSocket))
  else
    let pPort :=
      {| Port_State := 0;
         pReceivePending := None;
         pTxFree := EslSocketIoInit (TxIoNormal pService);
         pTxActive := [];
         DestinationAddress := Ip4_zero;
         ConfigData := PortAllocate_ConfigData pSocket pIpAddress;
         RxToken_Status := EFI_SUCCESS;
         RxToken_RxData := None;
         Ip4_RxTokens := 0%nat |} in
    (svc_OpenProtocol pService,
     set_pPortList (pPort :: pPortList pSocket) pSocket).

(** The walk over the services in [EslIp4Bind], Ip4.c lines 141-198. *)
Fixpoint Bind_services (pService : list ESL_SERVICE)
    (pIpAddress : EFI_IPv4_ADDRESS) (Status : EFI_STATUS)
    (pSocket : ESL_SOCKET) : EFI_STATUS * ESL_SOCKET :=
  match pService with
  | [] => (Status, pSocket)
  | service :: pNext =>
      let Status := svc_CreateChild service in
      let pSocket := call (Call_CreateChild Status) pSocket in
      let '(Status, pSocket) :=
        if negb (EFI_ERROR Status) then
          let '(Status, pSocket) :=
            EslIp4PortAllocate pSocket service pIpAddress in
          if EFI_ERROR Status
          then (Status, call Call_DestroyChild pSocket)
          else (Status, pSocket)
        else (Status, pSocket) in
      Bind_services pNext pIpAddress Status pSocket
  end.

(** [EslIp4Bind], Ip4.c lines 102-228; [pIp4List] is [mEslLayer.pIp4List],
    the registered IPv4 services. *)
Definition EslIp4Bind (pIp4List : list ESL_SERVICE) (pSocket : ESL_SOCKET)
    (pSockAddr : sockaddr_in) (SockAddrLength : Z) : EFI_STATUS * ESL_SOCKET :=
  let pSocket := set_errno errno_0 pSocket in
  let Status := EFI_SUCCESS in
  if SockAddrLength >=? sizeof_sockaddr_in - sizeof_sin_zero then
    let '(Status, pSocket) :=
      Bind_services pIp4List (bytes_of_UINT32 (sin_addr pSockAddr)) Status
        pSocket in
    match pPortList pSocket with
    | [] => (EFI_INVALID_PARAMETER, set_errno EADDRNOTAVAIL pSocket)
    | _ :: _ => (Status, pSocket)
    end
  else (EFI_INVALID_PARAMETER, set_errno EINVAL pSocket).

(** Modelled from the spec: [EslSocketBind], the bind entry point of the
    generic socket layer (Socket.c is not among the sources), is the
    dispatch shell in front of the protocol's Bind: for a raw IPv4 socket
    it runs [EslIp4Bind] and hands its status and [errno] back. *)
Definition EslSocketBind_Ip4 (pIp4List : list ESL_SERVICE)
    (pSocket : ESL_SOCKET) (pSockAddr : sockaddr_in) (SockAddrLength : Z)
    : EFI_STATUS * ESL_SOCKET :=
  EslIp4Bind pIp4List pSocket pSockAddr SockAddrLength.

(** The walk over the ports in [EslIp4Connect], Ip4.c lines 302-323: the
    ports with their destination set, and the status and [errno] at the
    end of the walk. *)
Fixpoint Connect_ports (pRemoteAddress : sockaddr_in) (pPort : list ESL_PORT)
    (Status : EFI_STATUS) (e : errno_t)
    : list ESL_PORT * EFI_STATUS * errno_t :=
  match pPort with
  | [] => ([], Status, e)
  | port :: pLinkSocket =>
      let port :=
        set_DestinationAddress
          {| Addr0 := to_UINT8 (sin_addr pRemoteAddress);
             Addr1 := to_UINT8 (Z.shiftr (sin_addr pRemoteAddress) 8);
             Addr2 := to_UINT8 (Z.shiftr (sin_addr pRemoteAddress) 16);
             Addr3 := to_UINT8 (Z.shiftr (sin_addr pRemoteAddress) 24) |}
          port in
      let '(rest, Status, e) :=
        Connect_ports pRemoteAddress pLinkSocket EFI_SUCCESS errno_0 in
      (port :: rest, Status, e)
  end.

(** [EslIp4Connect], Ip4.c lines 252-338.  [EslSocketBind] is the bind
    entry point of the generic layer, a parameter here. *)
Definition EslIp4Connect
    (EslSocketBind : ESL_SOCKET -> sockaddr_in -> Z -> EFI_STATUS * ESL_SOCKET)
    (pSocket : ESL_SOCKET) (pSockAddr : sockaddr_in) (SockAddrLength : Z)
    : EFI_STATUS * ESL_SOCKET :=
  let Status := EFI_NETWORK_UNREACHABLE in
  let pSocket := set_errno ENETUNREACH pSocket in
  if SockAddrLength >=? sizeof_sockaddr_in - sizeof_sin_zero then
    let '(Status, pSocket) :=
      match pPortList pSocket with
      | [] =>
          let LocalAddress :=
            {| sin_len := to_UINT8 sizeof_sockaddr_in; sin_family := AF_INET;
               sin_port := 0; sin_addr := 0 |} in
          EslSocketBind pSocket LocalAddress (sin_len LocalAddress)
      | _ :: _ => (Status, pSocket)
      end in
    let '(ports, Status, e) :=
      Connect_ports pSockAddr (pPortList pSocket) Status (errno pSocket) in
    (Status, set_errno e (set_pPortList ports pSocket))
  else (EFI_INVALID_PARAMETER, set_errno EINVAL pSocket).

(** The structure [EslIp4GetLocalAddress] and [EslIp4GetRemoteAddress]
    write: zeroed, then family, length and the four address bytes copied
    into [sin_addr]. *)
Definition Address_out (a : EFI_IPv4_ADDRESS) : sockaddr_in :=
  {| sin_len := to_UINT8 sizeof_sockaddr_in; sin_family := AF_INET;
     sin_port := 0; sin_addr := UINT32_of_bytes a |}.

(** [EslIp4GetLocalAddress], Ip4.c lines 360-419.  [pAddress] is the
    content of the caller's buffer, [pAddressLength] is [*pAddressLength];
    the result is the status, the socket and the buffer afterwards. *)
Definition EslIp4GetLocalAddress (pSocket : ESL_SOCKET)
    (pAddress : sockaddr_in) (pAddressLength : Z)
    : EFI_STATUS * ESL_SOCKET * sockaddr_in :=
  match pPortList pSocket with
  | [pPort] =>
      let LengthInBytes := sizeof_sockaddr_in in
      if LengthInBytes <=? pAddressLength then
        (EFI_SUCCESS, set_errno errno_0 pSocket,
         Address_out (StationAddress (ConfigData pPort)))
      else (EFI_INVALID_PARAMETER, set_errno EINVAL pSocket, pAddress)
  | _ => (EFI_NOT_STARTED, set_errno ENOTCONN pSocket, pAddress)
  end.

(** [EslIp4GetRemoteAddress], Ip4.c lines 441-500. *)
Definition EslIp4GetRemoteAddress (pSocket : ESL_SOCKET)
    (pAddress : sockaddr_in) (pAddressLength : Z)
    : EFI_STATUS * ESL_SOCKET * sockaddr_in :=
  match pPortList pSocket with
  | [pPort] =>
      let LengthInBytes := sizeof_sockaddr_in in
      if LengthInBytes <=? pAddressLength then
        (EFI_SUCCESS, set_errno errno_0 pSocket,
         Address_out (DestinationAddress pPort))
      else (EFI_INVALID_PARAMETER, set_errno EINVAL pSocket, pAddress)
  | _ => (EFI_NOT_STARTED, set_errno ENOTCONN pSocket, pAddress)
  end.

End Ip4.

(** ** Options, configuration, cancel and close *)

(** Constants of errno.h and netinet/in.h that only the option and the
    configuration routines use; like those of [Socket_h] they are
    parameters of the development. *)
Class Libc_h : Type := {
  EACCES : errno_t;
  EAFNOSUPPORT : errno_t;
  ENOBUFS : errno_t;
  ENOTSUP : errno_t;
  EOPNOTSUPP : errno_t;
  IPPROTO_IP : Z;
  IP_HDRINCL : Z
}.

(** The fields that only the option and the configuration routines touch:
    [bConfigured] and [bIncludeHeader] of [ESL_SOCKET], and the
    [bConfigured] flags of its ports, in the order of the port list (a port
    without an entry has [FALSE]). *)
Record ESL_SOCKET_CONFIG : Type := {
  bConfigured : bool;
  bIncludeHeader : bool;
  Port_bConfigured : list bool
}.

Definition set_State (v : Z) (s : ESL_SOCKET) : ESL_SOCKET :=
  {| State := v; errno := errno s; Protocol := Protocol s;
     pPortList := pPortList s; pRxPacketList := pRxPacketList s;
     pRxFree := pRxFree s; RxBytes := RxBytes s; MaxRxBuf := MaxRxBuf s;
     RxError := RxError s; bRxDisable := bRxDisable s;
     pTxPacketList := pTxPacketList s; TxBytes := TxBytes s;
     MaxTxBuf := MaxTxBuf s; TxError := TxError s; Calls := Calls s |}.

Definition set_ConfigData (v : EFI_IP4_CONFIG_DATA) (p : ESL_PORT) : ESL_PORT :=
  {| Port_State := Port_State p; pReceivePending := pReceivePending p;
     pTxFree := pTxFree p; pTxActive := pTxActive p;
     DestinationAddress := DestinationAddress p; ConfigData := v;
     RxToken_Status := RxToken_Status p; RxToken_RxData := RxToken_RxData p;
     Ip4_RxTokens := Ip4_RxTokens p |}.

Definition set_RawData (v : bool) (c : EFI_IP4_CONFIG_DATA)
    : EFI_IP4_CONFIG_DATA :=
  {| DefaultProtocol := DefaultProtocol c;
     AcceptAnyProtocol := AcceptAnyProtocol c;
     AcceptIcmpErrors := AcceptIcmpErrors c;
     AcceptBroadcast := AcceptBroadcast c;
     AcceptPromiscuous := AcceptPromiscuous c;
     UseDefaultAddress := UseDefaultAddress c;
     StationAddress := StationAddress c;
     SubnetMask := SubnetMask c;
     TypeOfService := TypeOfService c;
     TimeToLive := TimeToLive c;
     DoNotFragment := DoNotFragment c;
     RawData := v;
     ReceiveTimeout := ReceiveTimeout c;
     TransmitTimeout := TransmitTimeout c |}.

(** What the IPv4 driver answers while [EslIp4SocketIsConfigured] works on
    one port: the status of [Configure], the status of [GetModeData] and
    the [ConfigData] that call leaves in [ModeData] (both only asked for
    after a successful [Configure]), and the answers for the
    [EslIp4RxStart] that follows. *)
Record Configure_io : Type := {
  io_Configure : EFI_STATUS;
  io_GetModeData : EFI_STATUS;
  io_ModeData : EFI_IP4_CONFIG_DATA;
  io_RxStart : RxStart_io
}.

Section Ip4_configuration.

Context {h : Socket_h} {c : Libc_h}.

(** [EslIp4OptionGet], Ip4.c lines 566-619.  The third component is what
    the routine stores through [ppOptionData] and [pOptionLength], when it
    stores anything: the value of the pointer (the flag itself, cast to a
    pointer) and [sizeof ( pSocket->bIncludeHeader )], one byte. *)
Definition EslIp4OptionGet (pSocket : ESL_SOCKET) (pConfig : ESL_SOCKET_CONFIG)
    (level OptionName : Z) : EFI_STATUS * ESL_SOCKET * option (Z * Z) :=
  let pSocket := set_errno errno_0 pSocket in
  let Status := EFI_SUCCESS in
  if level =? IPPROTO_IP then
    if OptionName =? IP_HDRINCL then
      (Status, pSocket,
       Some ((if bIncludeHeader pConfig then 1 else 0), 1))
    else (EFI_UNSUPPORTED, set_errno ENOTSUP pSocket, None)
  else (EFI_UNSUPPORTED, set_errno ENOTSUP pSocket, None).

(** [EslIp4OptionSet], Ip4.c lines 639-733.  [pOptionValue] is the 32-bit
    value [*(UINT32 * )pOptionValue]; [sizeof ( UINT32 )] is 4 and
    [sizeof ( pSocket->bIncludeHeader )] is 1. *)
Definition EslIp4OptionSet (pSocket : ESL_SOCKET) (pConfig : ESL_SOCKET_CONFIG)
    (level OptionName : Z) (pOptionValue : Z) (OptionLength : Z)
    : EFI_STATUS * ESL_SOCKET * ESL_SOCKET_CONFIG :=
  let pSocket := set_errno EINVAL pSocket in
  let Status := EFI_INVALID_PARAMETER in
  let LengthInBytes := 0 in
  let pOptionData : option bool := None in
  let '(Status, pSocket, LengthInBytes, pOptionData) :=
    if level =? IPPROTO_IP then
      if OptionName =? IP_HDRINCL then
        if 4 =? OptionLength then
          let bTrueFalse := negb (0 =? pOptionValue) in
          (Status, pSocket, 1, Some bTrueFalse)
        else (Status, pSocket, LengthInBytes, pOptionData)
      else (EFI_UNSUPPORTED, set_errno ENOTSUP pSocket, LengthInBytes,
            pOptionData)
    else (EFI_UNSUPPORTED, set_errno ENOTSUP pSocket, LengthInBytes,
          pOptionData) in
  if LengthInBytes <=? OptionLength then
    match pOptionData with
    | Some bTrueFalse =>
        (EFI_SUCCESS, set_errno errno_0 pSocket,
         {| bConfigured := bConfigured pConfig;
            bIncludeHeader := bTrueFalse;
            Port_bConfigured := Port_bConfigured pConfig |})
    | None => (Status, pSocket, pConfig)
    end
  else (Status, pSocket, pConfig).

(** [EslIp4PortClosePacketFree], Ip4.c lines 1045-1060: the new value of
    [*pRxBytes] and the event that is signalled.  [None]: the packet holds
    no receive buffer. *)
Definition EslIp4PortClosePacketFree (pPacket : ESL_PACKET) (pRxBytes : Z)
    : option (Z * nat) :=
  match pPacket with
  | Ip4Rx (Some pRxData) =>
      Some (to_size_t (pRxBytes - DataLength pRxData), RecycleSignal pRxData)
  | _ => None
  end.

(** [EslIp4RxCancel], Ip4.c lines 1433-1482.  [Cancel] is the status the
    driver's [Cancel] returns, should it be called. *)
Definition EslIp4RxCancel (Cancel : EFI_STATUS) (pSocket : ESL_SOCKET)
    : EFI_STATUS :=
  let Status := EFI_NOT_FOUND in
  match pPortList pSocket with
  | pPort :: _ =>
      match pReceivePending pPort with
      | Some _ =>
          match Cancel with
          | EFI_NOT_FOUND => EFI_SUCCESS
          | Status => Status
          end
      | None => Status
      end
  | [] => Status
  end.

(** The mapping of a configuration failure to [errno], Ip4.c lines
    1938-1962. *)
Definition Configure_errno (Status : EFI_STATUS) : errno_t :=
  match Status with
  | EFI_ACCESS_DENIED => EACCES
  | EFI_INVALID_PARAMETER => EADDRNOTAVAIL
  | EFI_NO_MAPPING => EAFNOSUPPORT
  | EFI_OUT_OF_RESOURCES => ENOBUFS
  | EFI_UNSUPPORTED => EOPNOTSUPP
  | _ => EIO
  end.

(** One round of the walk over the ports in [EslIp4SocketIsConfigured],
    Ip4.c lines 1896-1982; [flag] is [pPort->bConfigured]. *)
Definition Configure_port (io : Configure_io) (IncludeHeader : bool)
    (pSocket : ESL_SOCKET) (pPort : ESL_PORT) (flag : bool)
    : EFI_STATUS * ESL_SOCKET * ESL_PORT * bool :=
  let pPort :=
    if IncludeHeader
    then set_ConfigData (set_RawData true (ConfigData pPort)) pPort
    else pPort in
  let Status := io_Configure io in
  let '(Status, pPort) :=
    if negb (EFI_ERROR Status)
    then (io_GetModeData io, set_ConfigData (io_ModeData io) pPort)
    else (Status, pPort) in
  if EFI_ERROR Status then
    (Status, set_errno (Configure_errno Status) pSocket, pPort, flag)
  else
    let '(pSocket, pPort) := EslIp4RxStart (io_RxStart io) pSocket pPort in
    (Status, set_State SOCKET_STATE_CONNECTED pSocket, pPort, true).

(** The walk itself; [io n] holds the answers for the [n]-th port. *)
Fixpoint Configure_ports (io : nat -> Configure_io) (n : nat)
    (IncludeHeader : bool) (pPort : list ESL_PORT) (flags : list bool)
    (Status : EFI_STATUS) (pSocket : ESL_SOCKET)
    : EFI_STATUS * ESL_SOCKET * list ESL_PORT * list bool :=
  match pPort with
  | [] => (Status, pSocket, [], [])
  | port :: pNextPort =>
      let '(Status, pSocket, port, flag) :=
        Configure_port (io n) IncludeHeader pSocket port (hd false flags) in
      let '(Status, pSocket, ports, flags) :=
        Configure_ports io (S n) IncludeHeader pNextPort (tl flags) Status
          pSocket in
      (Status, pSocket, port :: ports, flag :: flags)
  end.

(** [EslIp4SocketIsConfigured], Ip4.c lines 1850-2003; [pIp4List] is
    [mEslLayer.pIp4List], which the implicit [EslIp4Bind] walks. *)
Definition EslIp4SocketIsConfigured (pIp4List : list ESL_SERVICE)
    (io : nat -> Configure_io) (pSocket : ESL_SOCKET)
    (pConfig : ESL_SOCKET_CONFIG)
    : EFI_STATUS * ESL_SOCKET * ESL_SOCKET_CONFIG :=
  let Status := EFI_SUCCESS in
  let '(Status, pSocket, pConfig) :=
    if negb (bConfigured pConfig) then
      let '(Status, pSocket) :=
        match pPortList pSocket with
        | [] =>
            let LocalAddress :=
              {| sin_len := to_UINT8 sizeof_sockaddr_in; sin_family := AF_INET;
                 sin_port := 0; sin_addr := 0 |} in
            EslIp4Bind pIp4List pSocket LocalAddress (sin_len LocalAddress)
        | _ :: _ => (Status, pSocket)
        end in
      let '(Status, pSocket, ports, flags) :=
        Configure_ports io 0 (bIncludeHeader pConfig) (pPortList pSocket)
          (Port_bConfigured pConfig) Status pSocket in
      let pSocket := set_pPortList ports pSocket in
      (Status, pSocket,
       {| bConfigured :=
            if is_NULL (hd_error ports) then bConfigured pConfig else true;
          bIncludeHeader := bIncludeHeader pConfig;
          Port_bConfigured := flags |})
    else (Status, pSocket, pConfig) in
  let Status :=
    if negb (EFI_ERROR Status)
    then (if bConfigured pConfig then EFI_SUCCESS else EFI_NOT_STARTED)
    else Status in
  (Status, pSocket, pConfig).

End Ip4_configuration.

(** ** The list of IPv4 services *)

(** [mEslLayer.pIp4List] and the services it links.  A service is known by
    its address: [Service_pNext a] is the [pNext] field of the service at
    [a], [Service_pPortList a] its [pPortList] (the ports linked by
    [pLinkService], a list as elsewhere). *)
Record ESL_LAYER : Type := {
  Layer_pIp4List : option nat;
  Service_pNext : nat -> option nat;
  Service_pPortList : nat -> list nat
}.

(** Store [v] in the field at address [a]. *)
Definition store {A : Type} (a : nat) (v : A) (f : nat -> A) : nat -> A :=
  fun b => if Nat.eqb b a then v else f b.

(** [pService == p] for a pointer [p] that may be [NULL]. *)
Definition is_service (pService : nat) (p : option nat) : bool :=
  match p with
  | Some q => Nat.eqb pService q
  | None => false
  end.

(** [EslIp4Initialize], Ip4.c lines 518-546. *)
Definition EslIp4Initialize (pService : nat) (pLayer : ESL_LAYER)
    : EFI_STATUS * ESL_LAYER :=
  (EFI_SUCCESS,
   {| Layer_pIp4List := Some pService;
      Service_pNext :=
        store pService (Layer_pIp4List pLayer) (Service_pNext pLayer);
      Service_pPortList := Service_pPortList pLayer |}).

(** The search for the predecessor of [pService] in [EslIp4Shutdown],
    Ip4.c lines 1817-1825: the [pNext] fields afterwards.  [None]: the
    loop is still running after [fuel] rounds. *)
Fixpoint Shutdown_unlink (fuel : nat) (pService : nat)
    (pPreviousService : option nat) (pNext : nat -> option nat)
    : option (nat -> option nat) :=
  match pPreviousService with
  | None => Some pNext
  | Some previous =>
      if is_service pService (pNext previous) then
        Some (store previous (pNext pService) pNext)
      else
        match fuel with
        | O => None
        | S fuel' => Shutdown_unlink fuel' pService (pNext previous) pNext
        end
  end.

(** [EslIp4Shutdown], Ip4.c lines 1768-1829.  The first loop takes the
    ports off the service's list one by one until none is left. *)
Definition EslIp4Shutdown (fuel : nat) (pService : nat) (pLayer : ESL_LAYER)
    : option ESL_LAYER :=
  let ports := store pService [] (Service_pPortList pLayer) in
  let pPreviousService := Layer_pIp4List pLayer in
  if is_service pService pPreviousService then
    Some {| Layer_pIp4List := Service_pNext pLayer pService;
            Service_pNext := Service_pNext pLayer;
            Service_pPortList := ports |}
  else
    match
      Shutdown_unlink fuel pService pPreviousService (Service_pNext pLayer)
    with
    | Some pNext =>
        Some {| Layer_pIp4List := Layer_pIp4List pLayer;
                Service_pNext := pNext;
                Service_pPortList := ports |}
    | None => None
    end.

(** * NorFlashDxe, the Firmware Volume Block protocol
      (ArmPlatformPkg/ArmVExpressPkg/NorFlashDxe/NorFlashFvbDxe.c)

    NorFlashDxe.h and the protocol headers are not among the sources: the
    error number, the list terminator and the address macro that
    NorFlashFvbDxe.c takes from them are parameters, and so is the width
    of [UINTN] on the platform.  [EFI_LBA] is 64 bits wide.  The NOR flash
    device is reached through [NorFlashReadBlocks], [NorFlashWriteBlocks]
    and [NorFlashUnlockAndEraseSingleBlock] of NorFlashDxe.c (not among
    the sources): what they answer is given to the routines, and the calls
    are recorded in the order they are made. *)

Definition to_UINT64 (x : Z) : Z := x mod 2 ^ 64.

Class NorFlashDxe_h : Type := {
  UINTN_bits : Z;                           (* the width of UINTN *)
  BAD_BUFFER_SIZE : positive;               (* the error number of
                                               EFI_BAD_BUFFER_SIZE *)
  EFI_LBA_LIST_TERMINATOR : Z;
  GET_NOR_BLOCK_ADDRESS : Z -> Z -> Z -> Z  (* BaseAddr, Lba, LbaSize *)
}.


(** [NOR_FLASH_INSTANCE] with the fields of its [Media]. *)
Record NOR_FLASH_INSTANCE : Type := {
  Initialized : bool;
  BaseAddress : Z;
  Media_BlockSize : Z;
  Media_LastBlock : Z;
  Media_ReadOnly : bool
}.

Inductive NOR_CALL : Type :=
| Call_ReadBlocks (Lba BufferSizeInBytes : Z)
| Call_WriteBlocks (Lba BufferSizeInBytes : Z) (Buffer : list Z)
| Call_EraseSingleBlock (BlockAddress : Z).



Section NorFlashFvbDxe.

Context {n : NorFlashDxe_h}.

Definition to_UINTN (x : Z) : Z := x mod 2 ^ UINTN_bits.

(** [FvbGetBlockSize], NorFlashFvbDxe.c lines 311-341: the status and,
    on success, [*BlockSize] and [*NumberOfBlocks]. *)
Definition FvbGetBlockSize (Instance : NOR_FLASH_INSTANCE) (Lba : Z)
    : EFI_STATUS * option (Z * Z) :=
  if Lba >? Media_LastBlock Instance then (EFI_INVALID_PARAMETER, None)
  else
    (EFI_SUCCESS,
     Some (to_UINTN (Media_BlockSize Instance),
           to_UINTN (to_UINT64 (Media_LastBlock Instance - Lba + 1)))).

(** The test of [FvbRead] and [FvbWrite] that an access does not span a
    block boundary, lines 418-420 and 554-556. *)
Definition Fvb_spans (Offset NumBytes BlockSize : Z) : bool :=
  (Offset >=? BlockSize) || (NumBytes >? BlockSize)
  || (to_UINTN (Offset + NumBytes) >? BlockSize).



(** The first walk over the argument list of [FvbEraseBlocks], lines
    674-702: [Some true] when every range is valid, [Some false] when one
    is not, [None] when the list ends without its terminator. *)
Fixpoint EraseBlocks_check (LastBlock : Z) (args : list Z) : option bool :=
  match args with
  | [] => None
  | StartingLba :: args' =>
      if StartingLba =? EFI_LBA_LIST_TERMINATOR then Some true
      else
        match args' with
        | [] => None
        | NumOfLba :: args'' =>
            let NumOfLba := to_UINTN (to_UINT32 NumOfLba) in
            if (NumOfLba =? 0)
               || (to_UINT64 (StartingLba + NumOfLba - 1) >? LastBlock)
            then Some false
            else EraseBlocks_check LastBlock args''
        end
  end.

(** The loop that erases one range, lines 723-744; [io_Erase k] is the
    status of the [k]-th call of [NorFlashUnlockAndEraseSingleBlock].  The
    first component tells whether the loop was left through [goto EXIT]. *)
Fixpoint Erase_range (io_Erase : nat -> EFI_STATUS)
    (Instance : NOR_FLASH_INSTANCE) (NumOfLba : nat) (StartingLba : Z)
    (Status : EFI_STATUS) (calls : list NOR_CALL)
    : bool * EFI_STATUS * list NOR_CALL :=
  match NumOfLba with
  | O => (false, Status, calls)
  | S NumOfLba' =>
      let BlockAddress :=
        to_UINTN (GET_NOR_BLOCK_ADDRESS (BaseAddress Instance) StartingLba
                    (Media_BlockSize Instance)) in
      let Status := io_Erase (length calls) in
      let calls := calls ++ [Call_EraseSingleBlock BlockAddress] in
      if EFI_ERROR Status then (true, EFI_DEVICE_ERROR, calls)
      else
        Erase_range io_Erase Instance NumOfLba' (to_UINT64 (StartingLba + 1))
          Status calls
  end.

(** The second walk over the argument list, lines 706-748. *)
Fixpoint Erase_ranges (io_Erase : nat -> EFI_STATUS)
    (Instance : NOR_FLASH_INSTANCE) (args : list Z) (Status : EFI_STATUS)
    (calls : list NOR_CALL) : option (EFI_STATUS * list NOR_CALL) :=
  match args with
  | [] => None
  | StartingLba :: args' =>
      if StartingLba =? EFI_LBA_LIST_TERMINATOR then Some (Status, calls)
      else
        match args' with
        | [] => None
        | NumOfLba :: args'' =>
            let NumOfLba := to_UINTN (to_UINT32 NumOfLba) in
            let '(failed, Status, calls) :=
              Erase_range io_Erase Instance (Z.to_nat NumOfLba) StartingLba
                Status calls in
            if failed then Some (Status, calls)
            else Erase_ranges io_Erase Instance args'' Status calls
        end
  end.

(** [FvbEraseBlocks], lines 645-752; [args] are the variable arguments in
    the order they are passed. *)
Definition FvbEraseBlocks (io_Erase : nat -> EFI_STATUS)
    (Instance : NOR_FLASH_INSTANCE) (args : list Z)
    : option (EFI_STATUS * list NOR_CALL) :=
  let Status := EFI_SUCCESS in
  if Media_ReadOnly Instance then Some (EFI_ACCESS_DENIED, [])
  else
    match EraseBlocks_check (Media_LastBlock Instance) args with
    | None => None
    | Some false => Some (EFI_INVALID_PARAMETER, [])
    | Some true => Erase_ranges io_Erase Instance args Status []
    end.

End NorFlashFvbDxe.

(** ** A valuation of the constants and the objects of the worked examples *)

Definition Socket_h_example : Socket_h :=
  {| MAX_RX_DATA := 65536;
     MSG_PEEK := 2;
     AF_INET := 2;
     SOCKET_STATE_CONNECTED := 6;
     PORT_STATE_RX_ERROR := 2;
     PORT_STATE_CLOSE_STARTED := 3;
     sizeof_sockaddr_in := 16;
     sizeof_sin_zero := 8 |}.

(** Every environment call succeeds. *)
Definition io_ok : RxStart_io :=
  {| io_Allocate := EFI_SUCCESS; io_Receive := EFI_SUCCESS |}.

Definition tx_io_ok : TxBuffer_io :=
  {| io_TxAllocate := EFI_SUCCESS; io_Transmit := EFI_SUCCESS |}.

(** A datagram with a 40 byte header and 100 bytes of data in one
    fragment, sent by 192.168.0.[last]. *)
Definition ex_datagram (last : Z) : EFI_IP4_RECEIVE_DATA :=
  {| RecycleSignal := Z.to_nat last;
     HeaderLength := 40;
     Header_SourceAddress :=
       {| Addr0 := 192; Addr1 := 168; Addr2 := 0; Addr3 := last |};
     Header_bytes := repeat 69 40;
     DataLength := 100;
     FragmentTable := [repeat last 100] |}.

(** An open, configured port of the wildcard address with two transmit
    slots and a receive posted to the driver. *)
Definition ex_port : ESL_PORT :=
  {| Port_State := 1;
     pReceivePending := Some (Ip4Rx None);
     pTxFree := EslSocketIoInit 2;
     pTxActive := [];
     DestinationAddress := Ip4_zero;
     ConfigData :=
       {| DefaultProtocol := 1; AcceptAnyProtocol := false;
          AcceptIcmpErrors := false; AcceptBroadcast := false;
          AcceptPromiscuous := false; UseDefaultAddress := true;
          StationAddress := Ip4_zero; SubnetMask := Ip4_zero;
          TypeOfService := 0; TimeToLive := 255; DoNotFragment := false;
          RawData := false; ReceiveTimeout := 0; TransmitTimeout := 0 |};
     RxToken_Status := EFI_SUCCESS;
     RxToken_RxData := None;
     Ip4_RxTokens := 1 |}.

(** A connected socket that owns [ex_port] and holds no data. *)
Definition ex_socket : ESL_SOCKET :=
  {| State := 6;
     errno := errno_0;
     Protocol := 1;
     pPortList := [ex_port];
     pRxPacketList := [];
     pRxFree := [];
     RxBytes := 0;
     MaxRxBuf := 65536;
     RxError := EFI_SUCCESS;
     bRxDisable := false;
     pTxPacketList := [];
     TxBytes := 0;
     MaxTxBuf := 131072;
     TxError := EFI_SUCCESS;
     Calls := [] |}.


(** [ex_socket] with the transmit counter at its maximum. *)
Definition ex_tx_full : ESL_SOCKET :=
  {| State := 6;
     errno := errno_0;
     Protocol := 1;
     pPortList := [ex_port];
     pRxPacketList := [];
     pRxFree := [];
     RxBytes := 0;
     MaxRxBuf := 65536;
     RxError := EFI_SUCCESS;
     bRxDisable := false;
     pTxPacketList := [];
     TxBytes := 131072;
     MaxTxBuf := 131072;
     TxError := EFI_SUCCESS;
     Calls := [] |}.

(** Three sends of 64, 1000 and 10 bytes; the port has two transmit slots,
    so the third waits in the queue until the first completion. *)
Definition ex_sends : list Tx_op :=
  [Op_TxBuffer tx_io_ok 0 64 (repeat 1 64) None 0;
   Op_TxBuffer tx_io_ok 0 1000 (repeat 2 1000) None 0;
   Op_TxBuffer tx_io_ok 0 10 (repeat 3 10) None 0;
   Op_TxDone 0 1 EFI_SUCCESS EFI_SUCCESS;
   Op_TxDone 0 0 EFI_SUCCESS EFI_SUCCESS].

(** [ex_socket] with room for 100 received bytes only. *)
Definition ex_small : ESL_SOCKET :=
  {| State := 6;
     errno := errno_0;
     Protocol := 1;
     pPortList := [ex_port];
     pRxPacketList := [];
     pRxFree := [];
     RxBytes := 0;
     MaxRxBuf := 100;
     RxError := EFI_SUCCESS;
     bRxDisable := false;
     pTxPacketList := [];
     TxBytes := 0;
     MaxTxBuf := 131072;
     TxError := EFI_SUCCESS;
     Calls := [] |}.

(** A socket that was never bound. *)
Definition ex_unbound : ESL_SOCKET :=
  {| State := 0;
     errno := errno_0;
     Protocol := 1;
     pPortList := [];
     pRxPacketList := [];
     pRxFree := [];
     RxBytes := 0;
     MaxRxBuf := 65536;
     RxError := EFI_SUCCESS;
     bRxDisable := false;
     pTxPacketList := [];
     TxBytes := 0;
     MaxTxBuf := 131072;
     TxError := EFI_SUCCESS;
     Calls := [] |}.

(** An adapter whose service binding cannot create a child. *)
Definition ex_service_down : ESL_SERVICE :=
  {| TxIoNormal := 2;
     svc_CreateChild := EFI_OUT_OF_RESOURCES;
     svc_AllocatePool := EFI_SUCCESS;
     svc_CreateEvent := EFI_SUCCESS;
     svc_IoInit := EFI_SUCCESS;
     svc_OpenProtocol := EFI_SUCCESS |}.

(** The remote address 10.1.2.3: [s_addr] holds the bytes 10, 1, 2, 3 in
    memory order. *)
Definition ex_remote : sockaddr_in :=
  {| sin_len := 16; sin_family := 2; sin_port := 0;
     sin_addr := 10 + 1 * 2 ^ 8 + 2 * 2 ^ 16 + 3 * 2 ^ 24 |}.

(** The wildcard local address. *)
Definition ex_any : sockaddr_in :=
  {| sin_len := 16; sin_family := 2; sin_port := 0; sin_addr := 0 |}.

(** The caller's address buffer before a query. *)
Definition ex_buffer : sockaddr_in :=
  {| sin_len := 0; sin_family := 0; sin_port := 0; sin_addr := 0 |}.

(** An adapter on which every step of the port creation succeeds. *)
Definition ex_service : ESL_SERVICE :=
  {| TxIoNormal := 2;
     svc_CreateChild := EFI_SUCCESS;
     svc_AllocatePool := EFI_SUCCESS;
     svc_CreateEvent := EFI_SUCCESS;
     svc_IoInit := EFI_SUCCESS;
     svc_OpenProtocol := EFI_SUCCESS |}.

(** A plain read into a buffer of [BufferLength] bytes, asking for the
    sender's address. *)
Definition ex_read (BufferLength : Z) : Receive_args :=
  {| ra_fuel := Z.to_nat BufferLength;
     ra_io := io_ok;
     ra_Flags := 0;
     ra_BufferLength := BufferLength;
     ra_pAddress := true;
     ra_pAddressLength := Some 16 |}.

(** The receive engine at work: a start that finds the receive pending,
    a completion, a read, another start. *)
Definition ex_cycle : list Rx_op :=
  [Op_RxStart 0 io_ok;
   Op_RxDone 0 EFI_SUCCESS (Some (ex_datagram 7)) io_ok;
   Op_Receive (ex_read 200);
   Op_RxStart 0 io_ok].

(** Two datagrams of 140 bytes each, and two reads: one into a buffer
    that is large enough, one into a buffer of 50 bytes. *)
Definition ex_two : list (EFI_IP4_RECEIVE_DATA * RxStart_io) :=
  [(ex_datagram 7, io_ok); (ex_datagram 9, io_ok)].

Definition ex_reads : list Receive_args := [ex_read 200; ex_read 50].

(** A datagram arrives, then the next receive fails in the driver. *)
Definition ex_failure : list Rx_op :=
  [Op_RxDone 0 EFI_SUCCESS (Some (ex_datagram 7)) io_ok;
   Op_RxDone 0 EFI_DEVICE_ERROR None io_ok].


(** One datagram arrives. *)
Definition ex_arrival : list Rx_op :=
  [Op_RxDone 0 EFI_SUCCESS (Some (ex_datagram 7)) io_ok].

(** Two datagrams arrive and the first one is read. *)
Definition ex_traffic : list Rx_op :=
  [Op_RxDone 0 EFI_SUCCESS (Some (ex_datagram 7)) io_ok;
   Op_RxDone 0 EFI_SUCCESS (Some (ex_datagram 9)) io_ok;
   Op_Receive (ex_read 200)].

(** A datagram with a 40 byte header and 60000 bytes of data in one
    fragment, sent by 192.168.0.[last]. *)
Definition ex_bulk (last : Z) : EFI_IP4_RECEIVE_DATA :=
  {| RecycleSignal := Z.to_nat last;
     HeaderLength := 40;
     Header_SourceAddress :=
       {| Addr0 := 192; Addr1 := 168; Addr2 := 0; Addr3 := last |};
     Header_bytes := repeat 69 40;
     DataLength := 60000;
     FragmentTable := [repeat last (Z.to_nat 60000)] |}.

(** [ex_socket] with room for 131072 received bytes, twice the constant
    MAX_RX_DATA. *)
Definition ex_roomy : ESL_SOCKET :=
  {| State := 6;
     errno := errno_0;
     Protocol := 1;
     pPortList := [ex_port];
     pRxPacketList := [];
     pRxFree := [];
     RxBytes := 0;
     MaxRxBuf := 131072;
     RxError := EFI_SUCCESS;
     bRxDisable := false;
     pTxPacketList := [];
     TxBytes := 0;
     MaxTxBuf := 131072;
     TxError := EFI_SUCCESS;
     Calls := [] |}.

(** Three datagrams of 60040 bytes each arrive. *)
Definition ex_flood : list Rx_op :=
  [Op_RxDone 0 EFI_SUCCESS (Some (ex_bulk 7)) io_ok;
   Op_RxDone 0 EFI_SUCCESS (Some (ex_bulk 8)) io_ok;
   Op_RxDone 0 EFI_SUCCESS (Some (ex_bulk 9)) io_ok].

(** Values for the constants of [Libc_h]. *)
Definition Libc_h_example : Libc_h :=
  {| EACCES := errno_other 13;
     EAFNOSUPPORT := errno_other 47;
     ENOBUFS := errno_other 55;
     ENOTSUP := errno_other 86;
     EOPNOTSUPP := errno_other 45;
     IPPROTO_IP := 0;
     IP_HDRINCL := 2 |}.

(** A socket on which nothing was configured and no option was set. *)
Definition ex_config : ESL_SOCKET_CONFIG :=
  {| bConfigured := false; bIncludeHeader := false; Port_bConfigured := [] |}.

(** The driver configures every port, and reports the configuration of
    [ex_port]. *)
Definition ex_configure_ok (n : nat) : Configure_io :=
  {| io_Configure := EFI_SUCCESS;
     io_GetModeData := EFI_SUCCESS;
     io_ModeData := ConfigData ex_port;
     io_RxStart := io_ok |}.

(** The driver has no address mapping yet: [Configure] fails on every
    port. *)
Definition ex_configure_fails (n : nat) : Configure_io :=
  {| io_Configure := EFI_NO_MAPPING;
     io_GetModeData := EFI_SUCCESS;
     io_ModeData := ConfigData ex_port;
     io_RxStart := io_ok |}.

(** Three services, registered in the order 1, 2, 3; the service at 2 has
    two ports. *)
Definition ex_layer : ESL_LAYER :=
  {| Layer_pIp4List := Some 3%nat;
     Service_pNext :=
       store 3%nat (Some 2%nat) (store 2%nat (Some 1%nat) (fun _ => None));
     Service_pPortList := store 2%nat [10%nat; 11%nat] (fun _ => []) |}.

(** A 32-bit platform whose NOR flash is mapped block after block. *)
Definition NorFlashDxe_h_example : NorFlashDxe_h :=
  {| UINTN_bits := 32;
     BAD_BUFFER_SIZE := 4;
     EFI_LBA_LIST_TERMINATOR := 2 ^ 64 - 1;
     GET_NOR_BLOCK_ADDRESS :=
       fun BaseAddr Lba LbaSize => BaseAddr + (Lba * LbaSize) mod 2 ^ 32 |}.

(** A writable flash of 8 blocks of 16 bytes. *)
Definition ex_flash : NOR_FLASH_INSTANCE :=
  {| Initialized := true;
     BaseAddress := 4096;
     Media_BlockSize := 16;
     Media_LastBlock := 7;
     Media_ReadOnly := false |}.


(** The erase that fails at its third call, call 2, and at no other. *)
Definition ex_erase_fails (j : nat) : EFI_STATUS :=
  if Nat.eqb j 2 then EFI_DEVICE_ERROR else EFI_SUCCESS.

(** ** Predicates used by the properties *)

(** A port and the driver agree: the driver holds one receive token of the
    port when a receive is pending and none otherwise. *)
Definition Rx_single (pPort : ESL_PORT) : Prop :=
  Ip4_RxTokens pPort = if is_NULL (pReceivePending pPort) then 0%nat else 1%nat.

(** The state test at the top of [EslIp4Receive] passes. *)
Definition Receive_state_ok {h : Socket_h} (pSocket : ESL_SOCKET) : Prop :=
  SOCKET_STATE_CONNECTED = State pSocket \/ PORT_STATE_RX_ERROR = State pSocket.

(** A buffer descriptor as the IPv4 driver builds it: the lengths are
    32-bit values whose sum is one too, and the first fragment is not empty
    when there is data. *)
Definition RxData_ok (d : EFI_IP4_RECEIVE_DATA) : Prop :=
  0 <= HeaderLength d /\ 0 <= DataLength d
  /\ HeaderLength d + DataLength d < 2 ^ 32
  /\ (0 < DataLength d -> nth 0 (FragmentTable d) [] <> []).

Definition sumZ (l : list Z) : Z := fold_right Z.add 0 l.

(** The length of a datagram, header plus data. *)
Definition RxData_length (d : EFI_IP4_RECEIVE_DATA) : Z :=
  HeaderLength d + DataLength d.

(** The bytes a sequence of completed datagrams amounts to. *)
Definition Rx_added (ds : list (EFI_IP4_RECEIVE_DATA * RxStart_io)) : Z :=
  sumZ (map (fun d => RxData_length (fst d)) ds).

(** The bytes a queued receive packet stands for in the counter, and the
    counter accounting for exactly the datagrams in the receive queue
    (both in the arithmetic of the C code, wrap-around included). *)
Definition Rx_packet_bytes (p : ESL_PACKET) : Z :=
  match p with
  | Ip4Rx (Some d) => RxData_bytes d
  | _ => 0
  end.

Definition Rx_accounted (pSocket : ESL_SOCKET) : Prop :=
  RxBytes pSocket
  = to_size_t (sumZ (map Rx_packet_bytes (pRxPacketList pSocket))).

(** The length of a transmit packet, as [EslIp4TxComplete] reads it. *)
Definition Tx_length (p : ESL_PACKET) : Z :=
  match p with
  | Ip4Tx TxData => TxData_TotalDataLength TxData
  | Ip4Rx _ => 0
  end.

Definition Io_length (pIo : ESL_IO_MGMT) : Z :=
  match pPacket pIo with
  | Some p => Tx_length p
  | None => 0
  end.

(** No packet of a queue or of an active list has a negative length. *)
Definition Tx_nonneg (queue : list ESL_PACKET) (active : list ESL_IO_MGMT)
    : Prop :=
  Forall (fun p => 0 <= Tx_length p) queue
  /\ Forall (fun pIo => 0 <= Io_length pIo) active.

(** The bytes of the packets that are active on a port, and of those that
    are queued for transmission or active on some port. *)
Definition Active_bytes (p : ESL_PORT) : Z :=
  sumZ (map Io_length (pTxActive p)).

Definition Tx_outstanding (pSocket : ESL_SOCKET) : Z :=
  sumZ (map Tx_length (pTxPacketList pSocket))
  + sumZ (map Active_bytes (pPortList pSocket)).

(** The transmit counter, a [size_t], accounts for exactly the outstanding
    packets, none of which has a negative length, and the maximum leaves
    room for one more payload below the range of [size_t]. *)
Definition Tx_accounted (pSocket : ESL_SOCKET) : Prop :=
  TxBytes pSocket = Tx_outstanding pSocket
  /\ TxBytes pSocket < 2 ^ 64
  /\ Forall (fun p => 0 <= Tx_length p) (pTxPacketList pSocket)
  /\ Forall (fun p => Forall (fun pIo => 0 <= Io_length pIo) (pTxActive p))
       (pPortList pSocket)
  /\ MaxTxBuf pSocket + 2 ^ 32 <= 2 ^ 64.

(** A transmit operation whose payload length fits the 32-bit length field
    of the packet. *)
Definition Tx_op_ok (op : Tx_op) : Prop :=
  match op with
  | Op_TxBuffer _ _ BufferLength _ _ _ => 0 <= BufferLength < 2 ^ 32
  | Op_TxDone _ _ _ _ => True
  end.

(** The socket [EslIp4Receive] is left with by a read that is not a peek,
    Ip4.c lines 1314-1351: datagram [d], the head of the queue, is
    accounted for, taken off the queue, returned to the driver and its
    packet freed ([Receive_dequeue]); then the receive of the first port
    [p] is restarted if none is pending and the counter is below
    [MAX_RX_DATA] ([Receive_restart]). *)
Definition Receive_dequeue (s : ESL_SOCKET) (d : EFI_IP4_RECEIVE_DATA)
    (pNext : list ESL_PACKET) : ESL_SOCKET :=
  let s := set_errno ENOTCONN s in
  let s := set_RxBytes (to_size_t (RxBytes s - RxData_bytes d)) s in
  let s := set_pRxPacketList pNext s in
  let s := SignalEvent (RecycleSignal d) s in
  set_pRxFree (Ip4Rx (Some d) :: pRxFree s) s.

Definition Receive_restart {h : Socket_h} (io : RxStart_io) (p : ESL_PORT)
    (pLinkSocket : list ESL_PORT) (s : ESL_SOCKET) : ESL_SOCKET :=
  if is_NULL (pReceivePending p) && (MAX_RX_DATA >? RxBytes s) then
    set_pPortList (snd (EslIp4RxStart io s p) :: pLinkSocket)
      (fst (EslIp4RxStart io s p))
  else s.

(** The operations of a run in which the driver completes the receives
    of port [n] successfully, one datagram each. *)
Definition Rx_completions (n : nat)
    (ds : list (EFI_IP4_RECEIVE_DATA * RxStart_io)) : list Rx_op :=
  map (fun d => Op_RxDone n EFI_SUCCESS (Some (fst d)) (snd d)) ds.

(** A read that is not a peek, with a valid address request and fuel for
    its buffer. *)
Definition Read_ok {h : Socket_h} (a : Receive_args) : Prop :=
  Z.land (ra_Flags a) MSG_PEEK = 0
  /\ (ra_pAddress a = false \/ ra_pAddressLength a <> None)
  /\ 0 <= ra_BufferLength a
  /\ (Z.to_nat (ra_BufferLength a) <= ra_fuel a)%nat.

(** The status and the socket [EslIp4Connect] has after its implicit
    bind, Ip4.c lines 270-297: the bind to the wildcard address when the
    socket owns no port, the initial failure status otherwise. *)
Definition Connect_bind {h : Socket_h}
    (EslSocketBind : ESL_SOCKET -> sockaddr_in -> Z -> EFI_STATUS * ESL_SOCKET)
    (pSocket : ESL_SOCKET) : EFI_STATUS * ESL_SOCKET :=
  match pPortList pSocket with
  | [] =>
      EslSocketBind (set_errno ENETUNREACH pSocket)
        {| sin_len := to_UINT8 sizeof_sockaddr_in; sin_family := AF_INET;
           sin_port := 0; sin_addr := 0 |}
        (to_UINT8 sizeof_sockaddr_in)
  | _ :: _ => (EFI_NETWORK_UNREACHABLE, set_errno ENETUNREACH pSocket)
  end.

(** A bind that leaves the socket without a port reports a failure. *)
Definition Bind_fails_without_port
    (EslSocketBind : ESL_SOCKET -> sockaddr_in -> Z -> EFI_STATUS * ESL_SOCKET)
    : Prop :=
  forall s a len,
    pPortList (snd (EslSocketBind s a len)) = [] ->
    EFI_ERROR (fst (EslSocketBind s a len)) = true.

(** Every step of the port creation succeeds on this adapter. *)
Definition Service_ok (svc : ESL_SERVICE) : Prop :=
  EFI_ERROR (svc_CreateChild svc) = false
  /\ EFI_ERROR (svc_AllocatePool svc) = false
  /\ EFI_ERROR (svc_CreateEvent svc) = false
  /\ EFI_ERROR (svc_IoInit svc) = false
  /\ EFI_ERROR (svc_OpenProtocol svc) = false.

(** *** Measures and predicates of the further properties *)

(** The receive buffers that were returned to the IPv4 driver: the recycle
    events signalled so far, oldest first. *)
Definition Recycled (calls : list ESL_CALL) : list nat :=
  flat_map (fun c => match c with Call_SignalEvent e => [e] | _ => [] end)
    calls.

(** The driver's buffers the receive queue holds, by recycle event. *)
Definition Packet_buffer (p : ESL_PACKET) : list nat :=
  match p with
  | Ip4Rx (Some d) => [RecycleSignal d]
  | _ => []
  end.

Definition Queued_buffers (pSocket : ESL_SOCKET) : list nat :=
  flat_map Packet_buffer (pRxPacketList pSocket).

(** The buffer an operation hands to the socket layer: the one of a
    receive that the driver completes without error. *)
Definition Rx_handed (op : Rx_op) : list nat :=
  match op with
  | Op_RxDone _ Status (Some d) _ =>
      if EFI_ERROR Status then [] else [RecycleSignal d]
  | _ => []
  end.

(** The receive packets the socket holds: on the free list, in the queue
    and pending on its ports. *)
Definition Pending_count (p : ESL_PORT) : Z :=
  if is_NULL (pReceivePending p) then 0 else 1.

Definition Rx_pool (pSocket : ESL_SOCKET) : Z :=
  Z.of_nat (length (pRxFree pSocket))
  + Z.of_nat (length (pRxPacketList pSocket))
  + sumZ (map Pending_count (pPortList pSocket)).

(** The receive packets obtained from [EslSocketPacketAllocate] and the
    packets given to [EslSocketPacketFree], counted in the call log. *)
Definition Rx_allocated (calls : list ESL_CALL) : Z :=
  sumZ (map (fun c => match c with
                      | Call_PacketAllocate_Rx Status =>
                          if EFI_ERROR Status then 0 else 1
                      | _ => 0
                      end) calls).

Definition Packets_freed (calls : list ESL_CALL) : Z :=
  sumZ (map (fun c => match c with Call_PacketFree _ => 1 | _ => 0 end) calls).

(** The packets handed to the driver's [Transmit], oldest first. *)
Definition Tx_sent (calls : list ESL_CALL) : list ESL_PACKET :=
  flat_map (fun c => match c with Call_Ip4_Transmit p _ => [p] | _ => [] end)
    calls.

(** The children created through [CreateChild] and those destroyed
    again, counted in the call log. *)
Definition Children_created (calls : list ESL_CALL) : Z :=
  sumZ (map (fun c => match c with
                      | Call_CreateChild Status =>
                          if EFI_ERROR Status then 0 else 1
                      | _ => 0
                      end) calls).

Definition Children_destroyed (calls : list ESL_CALL) : Z :=
  sumZ (map (fun c => match c with Call_DestroyChild => 1 | _ => 0 end) calls).

(** The adapter gives a port: every step of the port creation succeeds. *)
Definition Service_up (svc : ESL_SERVICE) : bool :=
  negb (EFI_ERROR (svc_CreateChild svc))
  && negb (EFI_ERROR (svc_AllocatePool svc))
  && negb (EFI_ERROR (svc_CreateEvent svc))
  && negb (EFI_ERROR (svc_IoInit svc))
  && negb (EFI_ERROR (svc_OpenProtocol svc)).

(** The status the walk of [EslIp4Bind] is left with by one adapter: the
    first failure of the port creation, the status of [OpenProtocol]
    without one. *)
Definition Service_status (svc : ESL_SERVICE) : EFI_STATUS :=
  if EFI_ERROR (svc_CreateChild svc) then svc_CreateChild svc
  else if EFI_ERROR (svc_AllocatePool svc) then svc_AllocatePool svc
  else if EFI_ERROR (svc_CreateEvent svc) then svc_CreateEvent svc
  else if EFI_ERROR (svc_IoInit svc) then svc_IoInit svc
  else svc_OpenProtocol svc.

(** The services linked from [p] through [pNext], in order. *)
Fixpoint Linked (pNext : nat -> option nat) (p : option nat) (l : list nat)
    : Prop :=
  match l with
  | [] => p = None
  | a :: l' => p = Some a /\ Linked pNext (pNext a) l'
  end.


(** [EslIp4PortClosePacketFree] run on the packets of a queue, first to
    last, as the port close does for the receive queue: the counter at the
    end and the events signalled. *)
Fixpoint PortClosePacketFree_all (queue : list ESL_PACKET) (pRxBytes : Z)
    : option (Z * list nat) :=
  match queue with
  | [] => Some (pRxBytes, [])
  | pPacket :: pNext =>
      match EslIp4PortClosePacketFree pPacket pRxBytes with
      | Some (pRxBytes, Event) =>
          match PortClosePacketFree_all pNext pRxBytes with
          | Some (pRxBytes, Events) => Some (pRxBytes, Event :: Events)
          | None => None
          end
      | None => None
      end
  end.

(** The header bytes of a queued receive packet. *)
Definition Rx_packet_header (p : ESL_PACKET) : Z :=
  match p with
  | Ip4Rx (Some d) => HeaderLength d
  | _ => 0
  end.

(** A queued receive packet holds a buffer as the driver builds it. *)
Definition Rx_packet_ok (p : ESL_PACKET) : Prop :=
  match p with
  | Ip4Rx (Some d) => RxData_ok d
  | _ => False
  end.

(** *** The instance and the block size of [FvbRead] and [FvbWrite] *)



(** *** The argument list of [FvbEraseBlocks] *)

(** The arguments for a sequence of (start, count) ranges. *)
Definition Erase_args {n : NorFlashDxe_h} (ranges : list (Z * Z)) : list Z :=
  flat_map (fun r => [fst r; snd r]) ranges ++ [EFI_LBA_LIST_TERMINATOR].

(** The count of a range as the routine reads it, the test it makes on
    the range, and the blocks of the range. *)
Definition Range_count {n : NorFlashDxe_h} (r : Z * Z) : Z :=
  to_UINTN (to_UINT32 (snd r)).

Definition Range_ok {n : NorFlashDxe_h} (LastBlock : Z) (r : Z * Z) : bool :=
  negb ((Range_count r =? 0)
        || (to_UINT64 (fst r + Range_count r - 1) >? LastBlock)).

Fixpoint Blocks_from (Lba : Z) (count : nat) : list Z :=
  match count with
  | O => []
  | S count' => Lba :: Blocks_from (to_UINT64 (Lba + 1)) count'
  end.

Definition Range_blocks {n : NorFlashDxe_h} (r : Z * Z) : list Z :=
  Blocks_from (fst r) (Z.to_nat (Range_count r)).

(** The erase call for block [Lba]. *)
Definition Erase_call {n : NorFlashDxe_h} (Instance : NOR_FLASH_INSTANCE)
    (Lba : Z) : NOR_CALL :=
  Call_EraseSingleBlock
    (to_UINTN (GET_NOR_BLOCK_ADDRESS (BaseAddress Instance) Lba
                 (Media_BlockSize Instance))).

(** * Properties *)

Ltac break_if :=
  match goal with
  | |- context [if ?b then _ else _] => destruct b eqn:?
  | H : context [if ?b then _ else _] |- _ => destruct b eqn:?
  end.

Ltac break_let :=
  match goal with
  | |- context [let '(_, _) := ?e in _] => destruct e eqn:?
  | H : context [let '(_, _) := ?e in _] |- _ => destruct e eqn:?
  end.

Ltac inv H := inversion H; subst; clear H.

(** Evaluate [e] to [Some _] and keep the equation as [H]. *)
Ltac run_to H e := eassert (H : e = Some _) by (vm_compute; reflexivity).

(** ** Lists of ports *)

Lemma replace_port_length (n : nat) (p : ESL_PORT) (l : list ESL_PORT) :
  length (replace_port n p l) = length l.
Proof.
  revert n; induction l as [|q l IH]; intros [|n]; simpl; auto.
Qed.

Lemma Forall_replace_port (P : ESL_PORT -> Prop) (n : nat) (p : ESL_PORT)
    (l : list ESL_PORT) :
  Forall P l -> P p -> Forall P (replace_port n p l).
Proof.
  intros Hl Hp; revert n.
  induction Hl as [|q l Hq Hl IH]; intros [|n]; simpl; auto.
Qed.

Lemma nth_error_replace_port (n : nat) (p q : ESL_PORT) (l : list ESL_PORT) :
  nth_error l n = Some q -> nth_error (replace_port n p l) n = Some p.
Proof.
  revert n; induction l as [|x l IH]; intros [|n]; simpl; intros H;
    try discriminate; auto.
Qed.

Lemma with_port_Some {h : Socket_h} (n : nat) f (s s' : ESL_SOCKET) :
  with_port n f s = Some s' ->
  exists p s1 p1,
    nth_error (pPortList s) n = Some p /\ f s p = Some (s1, p1)
    /\ s' = set_pPortList (replace_port n p1 (pPortList s1)) s1.
Proof.
  unfold with_port; intros H.
  destruct (nth_error (pPortList s) n) as [p|]; [|discriminate].
  destruct (f s p) as [[s1 p1]|] eqn:Hf; [|discriminate].
  inv H; exists p, s1, p1; auto.
Qed.

Section ReceiveEngine.

Context {h : Socket_h}.

(** ** [EslIp4RxStart] *)

Lemma RxStart_pPortList io s p :
  pPortList (fst (EslIp4RxStart io s p)) = pPortList s.
Proof.
  unfold EslIp4RxStart.
  repeat (break_if || break_let); simpl; auto;
    destruct (pRxFree s); repeat break_if;
    match goal with H : (_, _) = (_, _) |- _ => inv H end; reflexivity.
Qed.

Lemma RxStart_single io s p :
  Rx_single p -> Rx_single (snd (EslIp4RxStart io s p)).
Proof.
  unfold EslIp4RxStart, Rx_single; intros Hp.
  destruct (EFI_ERROR (RxError s)); simpl; auto.
  destruct (pReceivePending p) eqn:Hpend; simpl; rewrite ?Hpend; auto.
  destruct (PORT_STATE_CLOSE_STARTED >? Port_State p); simpl;
    rewrite ?Hpend; auto.
  destruct (pRxFree s);
    [destruct (EFI_ERROR (io_Allocate io)); simpl; rewrite ?Hpend; auto|];
    destruct (EFI_ERROR (io_Receive io)); simpl; rewrite ?Hp; auto.
Qed.

(** [EslIp4RxStart] does nothing when a receive is pending, when the port
    has entered the close states or when a receive error is latched. *)
Lemma RxStart_noop io s p :
  pReceivePending p <> None
  \/ PORT_STATE_CLOSE_STARTED <= Port_State p
  \/ EFI_ERROR (RxError s) = true ->
  EslIp4RxStart io s p = (s, p).
Proof.
  unfold EslIp4RxStart; intros [H | [H | H]].
  - destruct (pReceivePending p); [|congruence].
    simpl; destruct (EFI_ERROR (RxError s)); reflexivity.
  - replace (PORT_STATE_CLOSE_STARTED >? Port_State p) with false
      by (symmetry; rewrite Z.gtb_ltb; apply Z.ltb_ge; exact H).
    rewrite andb_false_r; destruct (EFI_ERROR (RxError s)); reflexivity.
  - rewrite H; reflexivity.
Qed.

(** What [EslIp4RxStart] leaves alone. *)
Lemma RxStart_frame io s p s' p' :
  EslIp4RxStart io s p = (s', p') ->
  pPortList s' = pPortList s /\ State s' = State s
  /\ MaxRxBuf s' = MaxRxBuf s /\ RxBytes s' = RxBytes s
  /\ pRxPacketList s' = pRxPacketList s /\ bRxDisable s' = bRxDisable s
  /\ Port_State p' = Port_State p.
Proof.
  unfold EslIp4RxStart; intros H.
  destruct (EFI_ERROR (RxError s)) eqn:He; simpl in H; [inv H; tauto|].
  destruct (is_NULL (pReceivePending p)
            && (PORT_STATE_CLOSE_STARTED >? Port_State p));
    [|inv H; tauto].
  destruct (pRxFree s);
    [destruct (EFI_ERROR (io_Allocate io)); [inv H; simpl; tauto|]|];
    destruct (EFI_ERROR (io_Receive io)); simpl in H;
    rewrite ?He in H; simpl in H; inv H; simpl; tauto.
Qed.

(** [EslIp4RxStart] posts a receive when nothing stands in its way. *)
Lemma RxStart_posts io s p :
  EFI_ERROR (RxError s) = false ->
  pReceivePending p = None ->
  Port_State p < PORT_STATE_CLOSE_STARTED ->
  (pRxFree s <> [] \/ EFI_ERROR (io_Allocate io) = false) ->
  EFI_ERROR (io_Receive io) = false ->
  pReceivePending (snd (EslIp4RxStart io s p)) = Some (Ip4Rx None)
  /\ Ip4_RxTokens (snd (EslIp4RxStart io s p)) = S (Ip4_RxTokens p).
Proof.
  unfold EslIp4RxStart; intros He Hp Hs Hf Hr.
  rewrite He, Hp; simpl.
  replace (PORT_STATE_CLOSE_STARTED >? Port_State p) with true
    by (symmetry; apply Z.gtb_lt; lia).
  destruct (pRxFree s) eqn:Hfree.
  - destruct Hf as [Hf | Hf]; [congruence|].
    rewrite Hf, Hr; simpl; auto.
  - rewrite Hr; simpl; auto.
Qed.

(** ** [EslIp4RxComplete] *)

Lemma RxComplete_frame io s p s' p' :
  EslIp4RxComplete io s p = Some (s', p') ->
  pPortList s' = pPortList s /\ State s' = State s
  /\ MaxRxBuf s' = MaxRxBuf s /\ bRxDisable s' = bRxDisable s.
Proof.
  unfold EslIp4RxComplete; intros H.
  destruct (pReceivePending p); [|discriminate].
  destruct (negb (EFI_ERROR (RxToken_Status (set_pReceivePending None p)))
            && negb (bRxDisable s)).
  - destruct (RxToken_RxData (set_pReceivePending None p)); [|discriminate].
    destruct (PORT_STATE_CLOSE_STARTED >=? _); [|inv H; simpl; tauto].
    break_if; inv H; [|simpl; tauto].
    match goal with
    | E : EslIp4RxStart _ _ _ = _ |- _ => apply RxStart_frame in E
    end; simpl in *; tauto.
  - repeat break_if; inv H; simpl; tauto.
Qed.

Lemma RxComplete_single io s p s' p' :
  EslIp4RxComplete io s p = Some (s', p') ->
  Ip4_RxTokens p = 0%nat -> Rx_single p'.
Proof.
  unfold EslIp4RxComplete; intros H Ht.
  destruct (pReceivePending p); [|discriminate].
  assert (H0 : Rx_single (set_pReceivePending None p))
    by (unfold Rx_single; simpl; auto).
  destruct (negb (EFI_ERROR (RxToken_Status (set_pReceivePending None p)))
            && negb (bRxDisable s)).
  - destruct (RxToken_RxData (set_pReceivePending None p)); [|discriminate].
    destruct (PORT_STATE_CLOSE_STARTED >=? _); [|inv H; auto].
    break_if; inv H; auto.
    match goal with
    | E : EslIp4RxStart _ _ _ = _ |- _ =>
        change p' with (snd (s', p')); rewrite <- E
    end.
    apply RxStart_single; auto.
  - repeat break_if; inv H; auto.
Qed.

(** Once the counter has reached the maximum, the completion leaves the
    port without a pending receive and gives the driver no new token. *)
Lemma RxComplete_suspends io s p s' p' :
  EslIp4RxComplete io s p = Some (s', p') ->
  MaxRxBuf s' <= RxBytes s' ->
  pReceivePending p' = None /\ Ip4_RxTokens p' = Ip4_RxTokens p.
Proof.
  unfold EslIp4RxComplete; intros H Hmax.
  destruct (pReceivePending p); [|discriminate].
  destruct (negb (EFI_ERROR (RxToken_Status (set_pReceivePending None p)))
            && negb (bRxDisable s)).
  - destruct (RxToken_RxData (set_pReceivePending None p)); [|discriminate].
    destruct (PORT_STATE_CLOSE_STARTED >=? _); [|inv H; auto].
    break_if; inv H; auto.
    match goal with
    | E : EslIp4RxStart _ _ _ = _ |- _ =>
        apply RxStart_frame in E; destruct E as (_ & _ & Hm & Hb & _)
    end.
    rewrite Hm, Hb in Hmax; simpl in Hmax.
    match goal with
    | E : (_ >? _) = true |- _ => apply Z.gtb_lt in E; simpl in E; lia
    end.
  - repeat break_if; inv H; auto.
Qed.

(** A successful completion on a port that is not past the start of its
    close queues the datagram and accounts for its bytes. *)
Lemma RxComplete_queues io s p d pkt :
  pReceivePending p = Some pkt ->
  EFI_ERROR (RxToken_Status p) = false ->
  RxToken_RxData p = Some d ->
  bRxDisable s = false ->
  Port_State p <= PORT_STATE_CLOSE_STARTED ->
  exists s' p',
    EslIp4RxComplete io s p = Some (s', p')
    /\ pRxPacketList s' = pRxPacketList s ++ [Ip4Rx (Some d)]
    /\ RxBytes s' = to_size_t (RxBytes s + RxData_bytes d)
    /\ Port_State p' = Port_State p.
Proof.
  unfold EslIp4RxComplete; intros Hp He Hd Hb Hs.
  rewrite Hp; simpl; rewrite He, Hb, Hd; simpl.
  replace (PORT_STATE_CLOSE_STARTED >=? Port_State p) with true
    by (symmetry; apply Z.geb_le; lia).
  break_if.
  - match goal with
    | |- context [EslIp4RxStart ?i ?a ?b] =>
        destruct (EslIp4RxStart i a b) as [s1 p1] eqn:E
    end.
    exists s1, p1; split; auto.
    apply RxStart_frame in E; simpl in E.
    destruct E as (_ & _ & _ & E1 & E2 & _ & E3); auto.
  - eexists _, _; split; [reflexivity|]; simpl; auto.
Qed.

(** A failed completion latches its status unless an error is latched
    already, and leaves the queue alone. *)
Lemma RxComplete_latches io s p pkt :
  pReceivePending p = Some pkt ->
  EFI_ERROR (RxToken_Status p) = true ->
  exists s' p',
    EslIp4RxComplete io s p = Some (s', p')
    /\ RxError s' = (if EFI_ERROR (RxError s) then RxError s
                     else RxToken_Status p)
    /\ pRxPacketList s' = pRxPacketList s
    /\ pReceivePending p' = None.
Proof.
  unfold EslIp4RxComplete; intros Hp He.
  rewrite Hp; simpl; rewrite He; simpl.
  destruct (EFI_ERROR (RxError s)) eqn:E; simpl;
    destruct (PORT_STATE_CLOSE_STARTED <=? Port_State p);
    eexists _, _; (split; [reflexivity|]); simpl; rewrite ?E; auto.
Qed.

(** ** [EslIp4Receive] *)

(** The copy loop returns once the buffer is full: with a fragment that is
    not empty every round makes progress. *)
Lemma copy_fragments_returns frag B :
  frag <> [] ->
  forall fuel L out,
    L <= B -> (Z.to_nat (B - L) <= fuel)%nat ->
    exists out', copy_fragments fuel frag B L out = Some (B, out').
Proof.
  intros Hf; induction fuel as [|fuel IH]; intros L out HL Hfuel.
  - assert (L = B) by lia; subst L.
    simpl; rewrite Z.gtb_ltb, Z.ltb_irrefl; eauto.
  - simpl. destruct (B >? L) eqn:Hgt.
    + apply Z.gtb_lt in Hgt.
      assert (Hlen : 0 < Z.of_nat (length frag))
        by (destruct frag; [congruence|simpl; lia]).
      destruct (B - L <? Z.of_nat (length frag)) eqn:Hlt.
      * apply IH; lia.
      * apply Z.ltb_ge in Hlt; apply IH; lia.
    + rewrite Z.gtb_ltb in Hgt; apply Z.ltb_ge in Hgt.
      assert (L = B) by lia; subst L; eauto.
Qed.

Lemma RxData_bytes_ok d :
  RxData_ok d -> RxData_bytes d = HeaderLength d + DataLength d.
Proof.
  intros (H1 & H2 & H3 & _); unfold RxData_bytes, to_UINT32.
  apply Z.mod_small; lia.
Qed.

(** The copy returns, and the length it reports is the smaller of the
    buffer length and the length of the datagram. *)
Lemma Receive_copy_returns d B fuel :
  RxData_ok d -> 0 <= B -> (Z.to_nat B <= fuel)%nat ->
  exists out,
    Receive_copy fuel d B = Some (Z.min B (HeaderLength d + DataLength d), out).
Proof.
  intros Hd HB Hfuel; unfold Receive_copy.
  rewrite (RxData_bytes_ok d Hd).
  destruct Hd as (H1 & H2 & H3 & H4).
  set (B' := if HeaderLength d + DataLength d <? B
             then HeaderLength d + DataLength d else B).
  assert (HB' : B' = Z.min B (HeaderLength d + DataLength d)).
  { unfold B'; destruct (Z.ltb_spec (HeaderLength d + DataLength d) B); lia. }
  set (Hb := if HeaderLength d >? B' then B' else HeaderLength d).
  assert (HHb : Hb = Z.min (HeaderLength d) B').
  { unfold Hb; rewrite Z.gtb_ltb;
      destruct (Z.ltb_spec B' (HeaderLength d)); lia. }
  rewrite <- HB'.
  destruct (Z.eq_dec Hb B') as [E | E].
  - rewrite E. exists (firstn (Z.to_nat B') (Header_bytes d)).
    destruct fuel; simpl; rewrite Z.gtb_ltb, Z.ltb_irrefl; reflexivity.
  - apply copy_fragments_returns; try lia.
    apply H4; lia.
Qed.

(** The state test of [EslIp4Receive]. *)
Lemma Receive_state_test s :
  Receive_state_ok s ->
  (SOCKET_STATE_CONNECTED =? State s) || (PORT_STATE_RX_ERROR =? State s) = true.
Proof.
  intros [H | H]; rewrite H, Z.eqb_refl; auto using orb_true_r.
Qed.

(** [EslIp4Receive] on an empty queue: the latched error if there is one,
    which it clears, and [EFI_NOT_READY] otherwise. *)
Lemma Receive_empty fuel io s Flags B a al :
  Receive_state_ok s -> pPortList s <> [] -> pRxPacketList s = [] ->
  EslIp4Receive fuel io s Flags B a al =
    Some {| rr_Status :=
              if EFI_ERROR (RxError s) then RxError s else EFI_NOT_READY;
            rr_DataLength := None; rr_Buffer := []; rr_Address := None;
            rr_Socket :=
              if EFI_ERROR (RxError s)
              then set_RxError EFI_SUCCESS
                     (set_errno (RxError_errno (RxError s))
                        (set_errno ENOTCONN s))
              else set_errno EAGAIN (set_errno ENOTCONN s) |}.
Proof.
  intros Hs Hp Hq; unfold EslIp4Receive; simpl.
  rewrite (Receive_state_test s Hs), Hq.
  destruct (pPortList s); [congruence|].
  destruct (EFI_ERROR (RxError s)); reflexivity.
Qed.

(** [EslIp4Receive] taking the datagram at the head of the queue with a
    read that is not a peek. *)
Lemma Receive_data fuel io s Flags B a al p rest d q L out :
  Receive_state_ok s ->
  pPortList s = p :: rest ->
  pRxPacketList s = Ip4Rx (Some d) :: q ->
  a = false \/ al <> None ->
  Z.land Flags MSG_PEEK = 0 ->
  Receive_copy fuel d B = Some (L, out) ->
  exists r,
    EslIp4Receive fuel io s Flags B a al = Some r
    /\ rr_Status r = EFI_SUCCESS /\ rr_DataLength r = Some L
    /\ rr_Buffer r = out
    /\ rr_Socket r =
         set_errno errno_0 (Receive_restart io p rest (Receive_dequeue s d q)).
Proof.
  intros Hs Hp Hq Ha Hf Hc; unfold EslIp4Receive; simpl.
  rewrite (Receive_state_test s Hs), Hp, Hq, Hc, Hf; simpl.
  replace (negb a || negb (is_NULL al)) with true
    by (destruct Ha as [-> | Ha]; [reflexivity|];
        destruct al; [destruct a; reflexivity | congruence]).
  eexists; split; [reflexivity|]; simpl.
  repeat split.
  unfold Receive_restart, Receive_dequeue; simpl.
  destruct (is_NULL (pReceivePending p)
            && (MAX_RX_DATA >? to_size_t (RxBytes s - RxData_bytes d)));
    [|reflexivity].
  match goal with
  | |- context [EslIp4RxStart ?i ?x ?y] => destruct (EslIp4RxStart i x y)
  end; reflexivity.
Qed.

(** ** The single pending receive *)

Lemma Receive_single fuel io s Flags B a al r :
  Forall Rx_single (pPortList s) ->
  EslIp4Receive fuel io s Flags B a al = Some r ->
  Forall Rx_single (pPortList (rr_Socket r)).
Proof.
  unfold EslIp4Receive; simpl; intros HF H.
  destruct ((SOCKET_STATE_CONNECTED =? State s)
            || (PORT_STATE_RX_ERROR =? State s)); [|inv H; auto].
  destruct (pPortList s) as [|p rest] eqn:Hp; [inv H; simpl; rewrite Hp; auto|].
  destruct (pRxPacketList s) as [|pkt q].
  - destruct (EFI_ERROR (RxError s)); inv H; simpl; rewrite Hp; auto.
  - destruct (negb a || negb (is_NULL al));
      [|inv H; simpl; rewrite Hp; auto].
    destruct pkt as [[d|]|]; try discriminate.
    destruct (Receive_copy fuel d B) as [[L out]|]; [|discriminate].
    destruct (Z.land Flags MSG_PEEK =? 0); [|inv H; simpl; rewrite Hp; auto].
    destruct (is_NULL (pReceivePending p) && _);
      [|inv H; simpl; rewrite Hp; auto].
    match type of H with
    | context [EslIp4RxStart ?i ?x ?y] =>
        pose proof (RxStart_single i x y) as Hs;
        destruct (EslIp4RxStart i x y) as [s1 p1]
    end.
    inv H; simpl. inv HF. constructor; auto.
Qed.

Lemma Rx_step_single op s s' :
  Forall Rx_single (pPortList s) ->
  Rx_step op s = Some s' ->
  Forall Rx_single (pPortList s').
Proof.
  intros HF H; destruct op as [n io | n Status RxData io | a]; simpl in H.
  - apply with_port_Some in H.
    destruct H as (p & s1 & p1 & Hn & Hf & ->); simpl.
    inv Hf.
    match goal with
    | E : EslIp4RxStart ?i ?x ?y = _ |- _ =>
        pose proof (RxStart_pPortList i x y) as Hl;
        pose proof (RxStart_single i x y) as Hs;
        rewrite E in Hl, Hs
    end; simpl in *.
    rewrite Hl; apply Forall_replace_port; auto.
    apply Hs; eapply Forall_forall in HF; eauto using nth_error_In.
  - apply with_port_Some in H.
    destruct H as (p & s1 & p1 & Hn & Hf & ->); simpl.
    assert (Hp : Rx_single p)
      by (eapply Forall_forall in HF; eauto using nth_error_In).
    destruct (Ip4_RxTokens p) as [|k] eqn:Hk; [discriminate|].
    assert (k = 0%nat)
      by (unfold Rx_single in Hp; rewrite Hk in Hp;
          destruct (is_NULL (pReceivePending p)); congruence).
    subst k.
    pose proof (RxComplete_frame _ _ _ _ _ Hf) as (Hl & _).
    rewrite Hl; apply Forall_replace_port; auto.
    eapply RxComplete_single; eauto.
  - unfold Receive_call in H.
    destruct (EslIp4Receive _ _ _ _ _ _ _) as [r|] eqn:E; [|discriminate].
    inv H; eapply Receive_single; eauto.
Qed.

Lemma Rx_run_single ops : forall s s',
  Forall Rx_single (pPortList s) ->
  Rx_run ops s = Some s' ->
  Forall Rx_single (pPortList s').
Proof.
  induction ops as [|op ops IH]; simpl; intros s s' HF H.
  - inv H; auto.
  - destruct (Rx_step op s) as [s1|] eqn:E; [|discriminate].
    eapply IH; [|eassumption]. eapply Rx_step_single; eauto.
Qed.

(** C4.  Single pending receive: starting from ports that agree with the
    driver, after every sequence of RxStart, receive completions and
    Receive calls every port still has at most one receive with the driver,
    and has one exactly when [pReceivePending] is not [NULL]; and
    [EslIp4RxStart] changes nothing when a receive is already pending,
    when the port has entered its close states or when a receive error is
    latched. *)
Theorem C4_single_pending_receive (ops : list Rx_op) (s s' : ESL_SOCKET) :
  Forall Rx_single (pPortList s) ->
  Rx_run ops s = Some s' ->
  Forall (fun p => (Ip4_RxTokens p <= 1)%nat
                   /\ (Ip4_RxTokens p = 1%nat <-> pReceivePending p <> None))
    (pPortList s')
  /\ (forall io s0 p,
        pReceivePending p <> None
        \/ PORT_STATE_CLOSE_STARTED <= Port_State p
        \/ EFI_ERROR (RxError s0) = true ->
        EslIp4RxStart io s0 p = (s0, p)).
Proof.
  intros HF H; split; [|apply RxStart_noop].
  eapply Forall_impl; [|eapply Rx_run_single; eauto].
  intros p Hp; unfold Rx_single in Hp.
  destruct (pReceivePending p); simpl in Hp; rewrite Hp;
    split; auto; split; congruence.
Qed.

(** ** The sticky receive error *)

(** A read that is not a peek, on a queue headed by datagram [d], while a
    receive error is latched: the datagram is delivered, and the restart
    of the receive does nothing, so the error stays latched. *)
Lemma Receive_latched a s p rest d q :
  Receive_state_ok s ->
  pPortList s = p :: rest ->
  pRxPacketList s = Ip4Rx (Some d) :: q ->
  RxData_ok d -> Read_ok a ->
  EFI_ERROR (RxError s) = true ->
  exists r,
    Receive_call a s = Some r
    /\ rr_Status r = EFI_SUCCESS
    /\ RxError (rr_Socket r) = RxError s
    /\ pRxPacketList (rr_Socket r) = q
    /\ State (rr_Socket r) = State s
    /\ pPortList (rr_Socket r) = p :: rest.
Proof.
  intros Hs Hp Hq Hd (Hf & Ha & HB & Hfuel) He.
  destruct (Receive_copy_returns d (ra_BufferLength a) (ra_fuel a))
    as (out & Hc); auto.
  destruct (Receive_data (ra_fuel a) (ra_io a) s (ra_Flags a)
              (ra_BufferLength a) (ra_pAddress a) (ra_pAddressLength a)
              p rest d q _ out Hs Hp Hq Ha Hf Hc)
    as (r & Hr & H1 & _ & _ & H4).
  exists r; unfold Receive_call.
  split; [exact Hr|]. split; [exact H1|].
  rewrite H4; unfold Receive_restart.
  rewrite RxStart_noop by (right; right; exact He).
  destruct (is_NULL (pReceivePending p) && _); simpl; auto.
Qed.

(** Any [EslIp4Receive] call that finds a datagram in the queue, a peek
    or a call with a bad address request as well, leaves a latched receive
    error as it is. *)
Lemma Receive_keeps_latch fuel io s Flags B a al r :
  EFI_ERROR (RxError s) = true -> pRxPacketList s <> [] ->
  EslIp4Receive fuel io s Flags B a al = Some r ->
  RxError (rr_Socket r) = RxError s.
Proof.
  unfold EslIp4Receive; simpl; intros He Hq H.
  destruct ((SOCKET_STATE_CONNECTED =? State s)
            || (PORT_STATE_RX_ERROR =? State s)); [|inv H; reflexivity].
  destruct (pPortList s) as [|p rest]; [inv H; reflexivity|].
  destruct (pRxPacketList s) as [|pkt q]; [congruence|].
  destruct (negb a || negb (is_NULL al)); [|inv H; reflexivity].
  destruct pkt as [[d|]|]; try discriminate.
  destruct (Receive_copy fuel d B) as [[L out]|]; [|discriminate].
  destruct (Z.land Flags MSG_PEEK =? 0); [|inv H; reflexivity].
  destruct (is_NULL (pReceivePending p) && _); [|inv H; reflexivity].
  rewrite RxStart_noop in H by (right; right; exact He).
  inv H; reflexivity.
Qed.

Lemma last_cons_head {A : Type} (l : list A) (x d : A) :
  last (x :: l) d = last l x.
Proof.
  revert x d; induction l as [|y l IH]; intros x d; [reflexivity|].
  change (last (x :: y :: l) d) with (last (y :: l) d).
  rewrite (IH y d), (IH y x); reflexivity.
Qed.

(** As many reads as there are datagrams, while a receive error is
    latched: every read delivers its datagram and leaves the error
    latched, and the last one leaves the queue empty. *)
Lemma Receive_all_latched ds : forall reads s,
  Receive_state_ok s -> pPortList s <> [] ->
  pRxPacketList s = map (fun d => Ip4Rx (Some d)) ds ->
  Forall RxData_ok ds -> Forall Read_ok reads ->
  length reads = length ds ->
  EFI_ERROR (RxError s) = true ->
  exists rs,
    Receive_all reads s = Some rs
    /\ length rs = length ds
    /\ Forall (fun r => rr_Status r = EFI_SUCCESS
                        /\ RxError (rr_Socket r) = RxError s) rs
    /\ Receive_state_ok (last (map rr_Socket rs) s)
    /\ pPortList (last (map rr_Socket rs) s) <> []
    /\ pRxPacketList (last (map rr_Socket rs) s) = []
    /\ RxError (last (map rr_Socket rs) s) = RxError s.
Proof.
  induction ds as [|d ds IH]; intros reads s Hs Hp Hq Hds Hreads Hlen He.
  - destruct reads; [|discriminate].
    exists []; simpl; repeat split; auto.
  - destruct reads as [|a reads]; [discriminate|].
    inversion Hds as [|? ? Hd Hds']; subst.
    inversion Hreads as [|? ? Ha Hreads']; subst.
    destruct (pPortList s) as [|p rest] eqn:Hports; [congruence|].
    destruct (Receive_latched a s p rest d
                (map (fun d => Ip4Rx (Some d)) ds) Hs Hports Hq Hd Ha He)
      as (r & Hr & H1 & H2 & H3 & H4 & H5).
    destruct (IH reads (rr_Socket r)) as (rs & E & L & F & A & B & C & D);
      auto.
    + unfold Receive_state_ok in *; rewrite H4; exact Hs.
    + rewrite H5; discriminate.
    + congruence.
    + exists (r :: rs); cbn [Receive_all map length].
      rewrite Hr, E, last_cons_head.
      split; [reflexivity|]. split; [congruence|].
      split; [|repeat split; auto; congruence].
      constructor; [auto|].
      eapply Forall_impl; [|exact F].
      intros x [X1 X2]; split; congruence.
Qed.

(** C5.  Sticky receive error: when the driver completes a receive with an
    error, the error is latched unless one is latched already.  No Receive
    call that finds a datagram in the queue touches the latched error; the
    reads that take the datagrams still in the queue succeed and leave the
    error latched.  The next Receive call, which finds the queue empty, returns
    the latched error, sets errno to EHOSTUNREACH, ENETUNREACH,
    EPROTONOSUPPORT or ENOPROTOOPT for the four unreachable statuses and to
    EIO for any other, and clears the latched error; the Receive call after
    that, the queue still empty, returns EFI_NOT_READY with errno
    EAGAIN. *)
Theorem C5_sticky_receive_error (n : nat) (io : RxStart_io)
    (Status : EFI_STATUS) (RxData : option EFI_IP4_RECEIVE_DATA)
    (s s1 : ESL_SOCKET) (ds : list EFI_IP4_RECEIVE_DATA)
    (reads : list Receive_args) (a1 a2 : Receive_args) :
  EFI_ERROR Status = true ->
  Receive_state_ok s ->
  pRxPacketList s = map (fun d => Ip4Rx (Some d)) ds ->
  Forall RxData_ok ds ->
  Forall Read_ok reads -> length reads = length ds ->
  Ip4_RxDone Status RxData io n s = Some s1 ->
  RxError s1 = (if EFI_ERROR (RxError s) then RxError s else Status)
  /\ EFI_ERROR (RxError s1) = true
  /\ (forall a s0 r,
        EFI_ERROR (RxError s0) = true -> pRxPacketList s0 <> [] ->
        Receive_call a s0 = Some r ->
        RxError (rr_Socket r) = RxError s0)
  /\ exists rs r1 r2,
       Receive_all reads s1 = Some rs
       /\ length rs = length ds
       /\ Forall (fun r => rr_Status r = EFI_SUCCESS
                           /\ RxError (rr_Socket r) = RxError s1) rs
       /\ pRxPacketList (last (map rr_Socket rs) s1) = []
       /\ Receive_call a1 (last (map rr_Socket rs) s1) = Some r1
       /\ rr_Status r1 = RxError s1
       /\ errno (rr_Socket r1)
          = match RxError s1 with
            | EFI_HOST_UNREACHABLE => EHOSTUNREACH
            | EFI_NETWORK_UNREACHABLE => ENETUNREACH
            | EFI_PORT_UNREACHABLE => EPROTONOSUPPORT
            | EFI_PROTOCOL_UNREACHABLE => ENOPROTOOPT
            | _ => EIO
            end
       /\ RxError (rr_Socket r1) = EFI_SUCCESS
       /\ pRxPacketList (rr_Socket r1) = []
       /\ Receive_call a2 (rr_Socket r1) = Some r2
       /\ rr_Status r2 = EFI_NOT_READY
       /\ errno (rr_Socket r2) = EAGAIN.
Proof.
  intros HE Hs Hq Hds Hreads Hlen H.
  apply with_port_Some in H.
  destruct H as (p & s' & p' & Hn & Hf & ->).
  destruct (Ip4_RxTokens p) as [|k]; [discriminate|].
  destruct (pReceivePending p) as [pkt|] eqn:Hpend;
    [|unfold EslIp4RxComplete in Hf; simpl in Hf; rewrite Hpend in Hf;
      discriminate].
  destruct (RxComplete_latches io s
              (set_RxToken Status RxData (set_Ip4_RxTokens k p)) pkt)
    as (s2 & p2 & E & Herr & Hq2 & _); auto.
  rewrite Hf in E; inv E.
  pose proof (RxComplete_frame _ _ _ _ _ Hf) as (Hl & Hst & _).
  simpl in Herr.
  assert (Hlat : EFI_ERROR (RxError s2) = true)
    by (rewrite Herr; destruct (EFI_ERROR (RxError s)) eqn:E; auto).
  set (s1 := set_pPortList (replace_port n p2 (pPortList s2)) s2).
  assert (Hs1 : Receive_state_ok s1)
    by (unfold Receive_state_ok in *; simpl; rewrite Hst; auto).
  assert (Hp1 : pPortList s1 <> []).
  { simpl; intros E; apply (f_equal (@length _)) in E.
    rewrite replace_port_length, Hl in E.
    destruct (pPortList s); [destruct n|]; discriminate. }
  assert (Hq1 : pRxPacketList s1 = map (fun d => Ip4Rx (Some d)) ds)
    by (simpl; congruence).
  split; [exact Herr|]. split; [exact Hlat|].
  split; [intros a s0 r; apply Receive_keeps_latch|].
  destruct (Receive_all_latched ds reads s1)
    as (rs & Ers & Lrs & Frs & A & B & C & D); auto.
  set (s3 := last (map rr_Socket rs) s1) in *.
  assert (Hlat3 : EFI_ERROR (RxError s3) = true) by (rewrite D; exact Hlat).
  exists rs; unfold Receive_call.
  rewrite (Receive_empty _ _ s3) by auto.
  rewrite Hlat3.
  eexists _, _; split; [exact Ers|].
  split; [exact Lrs|]. split; [exact Frs|]. split; [exact C|].
  split; [reflexivity|]; cbn [rr_Status rr_Socket].
  split; [exact D|].
  split; [simpl; rewrite D; reflexivity|].
  split; [reflexivity|].
  split; [exact C|].
  rewrite Receive_empty; simpl; auto.
Qed.

(** ** Receive flow control *)

(** A successful [EslIp4Receive] found a datagram at the head of the
    queue. *)
Lemma Receive_success_inv fuel io s Flags B a al r :
  EslIp4Receive fuel io s Flags B a al = Some r ->
  rr_Status r = EFI_SUCCESS ->
  exists p rest d q,
    pPortList s = p :: rest /\ pRxPacketList s = Ip4Rx (Some d) :: q
    /\ rr_Socket r =
         set_errno errno_0
           (if Z.land Flags MSG_PEEK =? 0
            then Receive_restart io p rest (Receive_dequeue s d q)
            else set_errno ENOTCONN s).
Proof.
  unfold EslIp4Receive; simpl; intros H HS.
  destruct ((SOCKET_STATE_CONNECTED =? State s)
            || (PORT_STATE_RX_ERROR =? State s));
    [|inv H; discriminate].
  destruct (pPortList s) as [|p rest]; [inv H; discriminate|].
  destruct (pRxPacketList s) as [|pkt q].
  - destruct (EFI_ERROR (RxError s)) eqn:E; inv H; simpl in HS;
      [rewrite HS in E|]; discriminate.
  - destruct (negb a || negb (is_NULL al)); [|inv H; discriminate].
    destruct pkt as [[d|]|]; try discriminate.
    destruct (Receive_copy fuel d B) as [[L out]|]; [|discriminate].
    exists p, rest, d, q; repeat split.
    destruct (Z.land Flags MSG_PEEK =? 0); [|inv H; reflexivity].
    unfold Receive_restart, Receive_dequeue; simpl.
    destruct (is_NULL (pReceivePending p) && _); [|inv H; reflexivity].
    match type of H with
    | context [EslIp4RxStart ?i ?x ?y] => destruct (EslIp4RxStart i x y)
    end; inv H; reflexivity.
Qed.

Lemma Receive_restart_frame io p rest s :
  State (Receive_restart io p rest s) = State s
  /\ RxBytes (Receive_restart io p rest s) = RxBytes s
  /\ MaxRxBuf (Receive_restart io p rest s) = MaxRxBuf s
  /\ pRxPacketList (Receive_restart io p rest s) = pRxPacketList s.
Proof.
  unfold Receive_restart.
  destruct (is_NULL (pReceivePending p) && _); [|tauto].
  destruct (EslIp4RxStart io s p) as [s1 p1] eqn:E.
  apply RxStart_frame in E; simpl; tauto.
Qed.

(** C1.  Receive flow control, as the code has it.  (1) When the counter
    is at or above MaxRxBuf after a completion, EslIp4RxComplete has posted
    no new receive.  (2) After a successful Receive call that is not a
    peek, with no receive pending on the first port, the restart is decided
    by the constant MAX_RX_DATA and not by the socket's MaxRxBuf: with the
    counter left below MAX_RX_DATA exactly one new receive is posted,
    provided no receive error is latched, the port has not entered its
    close states and the driver accepts the receive; with a receive error
    latched or the port in its close states none is posted; and with the
    counter left at or above MAX_RX_DATA none is posted either, also when
    the counter is below MaxRxBuf. *)
Theorem C1_receive_flow_control :
  (forall io s p s' p',
      EslIp4RxComplete io s p = Some (s', p') ->
      MaxRxBuf s' <= RxBytes s' ->
      pReceivePending p' = None /\ Ip4_RxTokens p' = Ip4_RxTokens p)
  /\ (forall a s r p rest,
        Receive_call a s = Some r ->
        rr_Status r = EFI_SUCCESS ->
        Z.land (ra_Flags a) MSG_PEEK = 0 ->
        pPortList s = p :: rest ->
        pReceivePending p = None ->
        (RxBytes (rr_Socket r) < MAX_RX_DATA ->
         EFI_ERROR (RxError s) = false ->
         Port_State p < PORT_STATE_CLOSE_STARTED ->
         EFI_ERROR (io_Receive (ra_io a)) = false ->
         exists p',
           pPortList (rr_Socket r) = p' :: rest
           /\ pReceivePending p' = Some (Ip4Rx None)
           /\ Ip4_RxTokens p' = S (Ip4_RxTokens p))
        /\ (EFI_ERROR (RxError s) = true
            \/ PORT_STATE_CLOSE_STARTED <= Port_State p ->
            pPortList (rr_Socket r) = p :: rest)
        /\ (MAX_RX_DATA <= RxBytes (rr_Socket r) ->
            pPortList (rr_Socket r) = p :: rest)).
Proof.
  split; [exact RxComplete_suspends|].
  intros a s r p rest H HS Hf Hp Hpend.
  unfold Receive_call in H.
  destruct (Receive_success_inv _ _ _ _ _ _ _ _ H HS)
    as (p0 & rest0 & d & q & Hp0 & Hq & Hr).
  rewrite Hp in Hp0; inv Hp0.
  rewrite Hf, Z.eqb_refl in Hr.
  pose proof (Receive_restart_frame (ra_io a) p0 rest0 (Receive_dequeue s d q))
    as (_ & Hb & _).
  assert (HB : RxBytes (rr_Socket r) = RxBytes (Receive_dequeue s d q))
    by (rewrite Hr; exact Hb).
  rewrite HB, Hr; clear HB Hb Hr.
  cbn [pPortList set_errno].
  unfold Receive_restart.
  rewrite Hpend; simpl andb.
  split; [|split].
  - intros Hmax He Hst Hio.
    replace (MAX_RX_DATA >? RxBytes (Receive_dequeue s d q)) with true
      by (symmetry; apply Z.gtb_lt; lia).
    eexists; split; [reflexivity|].
    apply RxStart_posts; auto.
    left; simpl; discriminate.
  - intros Hno.
    match goal with
    | |- context [MAX_RX_DATA >? ?x] => destruct (MAX_RX_DATA >? x)
    end; [|simpl; exact Hp].
    rewrite RxStart_noop; [reflexivity|].
    destruct Hno; auto.
  - intros Hmax.
    replace (MAX_RX_DATA >? RxBytes (Receive_dequeue s d q)) with false
      by (symmetry; rewrite Z.gtb_ltb; apply Z.ltb_ge; exact Hmax).
    simpl; exact Hp.
Qed.

(** ** Conservation of the received bytes *)

Lemma to_size_t_add_l x y : to_size_t (to_size_t x + y) = to_size_t (x + y).
Proof. unfold to_size_t; apply Z.add_mod_idemp_l; lia. Qed.

Lemma to_size_t_sub_l x y : to_size_t (to_size_t x - y) = to_size_t (x - y).
Proof. unfold to_size_t; apply Zminus_mod_idemp_l. Qed.

Lemma to_size_t_small x : 0 <= x < 2 ^ 64 -> to_size_t x = x.
Proof. unfold to_size_t; apply Z.mod_small. Qed.

(** One read that is not a peek, on a queue headed by datagram [d]. *)
Lemma Receive_step a s p rest d q :
  Receive_state_ok s ->
  pPortList s = p :: rest ->
  pRxPacketList s = Ip4Rx (Some d) :: q ->
  RxData_ok d -> Read_ok a ->
  exists r,
    Receive_call a s = Some r
    /\ rr_Status r = EFI_SUCCESS
    /\ rr_DataLength r = Some (Z.min (ra_BufferLength a) (RxData_length d))
    /\ Receive_copy (ra_fuel a) d (ra_BufferLength a)
       = Some (Z.min (ra_BufferLength a) (RxData_length d), rr_Buffer r)
    /\ RxBytes (rr_Socket r) = to_size_t (RxBytes s - RxData_length d)
    /\ pRxPacketList (rr_Socket r) = q
    /\ State (rr_Socket r) = State s
    /\ exists p', pPortList (rr_Socket r) = p' :: rest.
Proof.
  intros Hs Hp Hq Hd (Hf & Ha & HB & Hfuel).
  destruct (Receive_copy_returns d (ra_BufferLength a) (ra_fuel a))
    as (out & Hc); auto.
  destruct (Receive_data (ra_fuel a) (ra_io a) s (ra_Flags a)
              (ra_BufferLength a) (ra_pAddress a) (ra_pAddressLength a)
              p rest d q _ out Hs Hp Hq Ha Hf Hc)
    as (r & Hr & H1 & H2 & H3 & H4).
  exists r; unfold Receive_call, RxData_length.
  repeat (split; [solve [auto | congruence]|]).
  rewrite H4; simpl.
  pose proof (Receive_restart_frame (ra_io a) p rest (Receive_dequeue s d q))
    as (F1 & F2 & _ & F4).
  rewrite F1, F2, F4; simpl.
  rewrite (RxData_bytes_ok d Hd).
  repeat (split; [reflexivity|]).
  unfold Receive_restart; break_if; simpl; eauto.
Qed.

Lemma last_cons_default {A : Type} (l : list A) (x d : A) :
  last (x :: l) d = last l x.
Proof.
  revert x d; induction l as [|y l IH]; intros x d; [reflexivity|].
  change (last (x :: y :: l) d) with (last (y :: l) d).
  rewrite (IH y d), (IH y x); reflexivity.
Qed.

Lemma to_size_t_range x : 0 <= to_size_t x < 2 ^ 64.
Proof. unfold to_size_t; apply Z.mod_pos_bound; lia. Qed.

(** As many reads as there are datagrams drain the queue; each returns the
    head of its datagram, and together they take off the counter what the
    datagrams amount to. *)
Lemma Receive_all_drain ds : forall reads s,
  Receive_state_ok s -> pPortList s <> [] ->
  pRxPacketList s = map (fun d => Ip4Rx (Some d)) ds ->
  0 <= RxBytes s < 2 ^ 64 ->
  Forall RxData_ok ds -> Forall Read_ok reads ->
  length reads = length ds ->
  exists rs,
    Receive_all reads s = Some rs
    /\ map (fun r => (rr_Status r, rr_DataLength r)) rs
       = map (fun da =>
                (EFI_SUCCESS,
                 Some (Z.min (ra_BufferLength (snd da)) (RxData_length (fst da)))))
           (combine ds reads)
    /\ map (fun r => Some (rr_Buffer r)) rs
       = map (fun da =>
                option_map snd
                  (Receive_copy (ra_fuel (snd da)) (fst da)
                     (ra_BufferLength (snd da))))
           (combine ds reads)
    /\ RxBytes (last (map rr_Socket rs) s)
       = to_size_t (RxBytes s - sumZ (map RxData_length ds))
    /\ pRxPacketList (last (map rr_Socket rs) s) = [].
Proof.
  induction ds as [|d ds IH]; intros reads s Hs Hp Hq Hb Hd Hr Hlen.
  - destruct reads; [|discriminate].
    exists []; simpl; repeat split; auto.
    rewrite Z.sub_0_r, to_size_t_small; auto.
  - destruct reads as [|a reads]; [discriminate|].
    inversion Hd as [|? ? Hd1 Hd2]; subst.
    inversion Hr as [|? ? Hr1 Hr2]; subst.
    simpl in Hlen, Hq.
    destruct (pPortList s) as [|p rest] eqn:Hports; [congruence|].
    destruct (Receive_step a s p rest d _ Hs Hports Hq)
      as (r & E & R1 & R2 & R3 & R4 & R5 & R6 & p' & R7); auto.
    destruct (IH reads (rr_Socket r)) as (rs & E' & G1 & G2 & G3 & G4);
      auto; try congruence.
    { unfold Receive_state_ok in *; rewrite R6; auto. }
    { rewrite R4; apply to_size_t_range. }
    exists (r :: rs); simpl map; simpl combine.
    rewrite last_cons_default.
    split; [simpl; rewrite E, E'; reflexivity|].
    split; [rewrite R1, R2, G1; reflexivity|].
    split; [rewrite R3, G2; reflexivity|].
    split; [|exact G4].
    rewrite G3, R4, to_size_t_sub_l; simpl; f_equal; lia.
Qed.

(** Successful completions on port [n] queue their datagrams in order and
    add their lengths to the counter. *)
Lemma Rx_completions_run n ds : forall s s1,
  0 <= RxBytes s < 2 ^ 64 ->
  bRxDisable s = false ->
  (exists p, nth_error (pPortList s) n = Some p
             /\ Port_State p <= PORT_STATE_CLOSE_STARTED) ->
  Forall (fun d => RxData_ok (fst d)) ds ->
  Rx_run (Rx_completions n ds) s = Some s1 ->
  pRxPacketList s1 = pRxPacketList s ++ map (fun d => Ip4Rx (Some (fst d))) ds
  /\ RxBytes s1
     = to_size_t (RxBytes s + sumZ (map (fun d => RxData_length (fst d)) ds))
  /\ State s1 = State s /\ pPortList s1 <> [].
Proof.
  induction ds as [|[d io] ds IH]; intros s s1 Hb Hdis (p & Hn & Hst) Hd H.
  - inv H; simpl; rewrite app_nil_r, Z.add_0_r, to_size_t_small; auto.
    repeat split; auto.
    intros E; rewrite E in Hn; destruct n; discriminate.
  - inversion Hd as [|? ? Hd1 Hd2]; subst; simpl in Hd1.
    simpl in H.
    destruct (Ip4_RxDone EFI_SUCCESS (Some d) io n s) as [s'|] eqn:E;
      [|discriminate].
    apply with_port_Some in E.
    destruct E as (p0 & s2 & p2 & Hn0 & Hf & ->).
    rewrite Hn in Hn0; inv Hn0.
    destruct (Ip4_RxTokens p0) as [|k]; [discriminate|].
    destruct (pReceivePending p0) as [pkt|] eqn:Hpend;
      [|unfold EslIp4RxComplete in Hf; simpl in Hf; rewrite Hpend in Hf;
        discriminate].
    destruct (RxComplete_queues io s
                (set_RxToken EFI_SUCCESS (Some d) (set_Ip4_RxTokens k p0))
                d pkt) as (s3 & p3 & E & Q1 & Q2 & Q3); auto.
    rewrite Hf in E; inv E.
    pose proof (RxComplete_frame _ _ _ _ _ Hf) as (Hl & Hs & _ & Hdis').
    apply IH in H; auto.
    + destruct H as (I1 & I2 & I3 & I4); simpl in I1, I2, I3.
      rewrite I1, I2, I3, Q1, Q2, <- app_assoc.
      rewrite (RxData_bytes_ok d Hd1), to_size_t_add_l; simpl.
      repeat split; auto; try congruence.
      f_equal; unfold RxData_length; lia.
    + simpl; rewrite Q2; apply to_size_t_range.
    + simpl; congruence.
    + exists p3; simpl; split; [|simpl in Q3; lia].
      rewrite Hl; eapply nth_error_replace_port; eauto.
Qed.

(** The counter follows the queue through every operation of the receive
    engine. *)
Lemma sumZ_snoc l x : sumZ (l ++ [x]) = sumZ l + x.
Proof. induction l as [|y l IH]; simpl; lia. Qed.

Lemma RxComplete_accounted io s p s' p' :
  Rx_accounted s ->
  EslIp4RxComplete io s p = Some (s', p') ->
  Rx_accounted s'.
Proof.
  unfold EslIp4RxComplete, Rx_accounted; intros Hacc H.
  destruct (pReceivePending p); [|discriminate].
  destruct (negb (EFI_ERROR (RxToken_Status (set_pReceivePending None p)))
            && negb (bRxDisable s)).
  - destruct (RxToken_RxData (set_pReceivePending None p)) as [d|];
      [|discriminate].
    assert (Hq : to_size_t (RxBytes s + RxData_bytes d)
                 = to_size_t (sumZ (map Rx_packet_bytes
                                      (pRxPacketList s ++ [Ip4Rx (Some d)])))).
    { rewrite map_app; cbn [map].
      rewrite sumZ_snoc, Hacc, to_size_t_add_l; reflexivity. }
    destruct (PORT_STATE_CLOSE_STARTED >=? _); [|inv H; exact Hacc].
    break_if; inv H; [|exact Hq].
    match goal with
    | E : EslIp4RxStart _ _ _ = _ |- _ =>
        apply RxStart_frame in E; destruct E as (_ & _ & _ & E1 & E2 & _)
    end.
    rewrite E1, E2; exact Hq.
  - repeat break_if; inv H; exact Hacc.
Qed.

Lemma Receive_accounted fuel io s Flags B a al r :
  Rx_accounted s ->
  EslIp4Receive fuel io s Flags B a al = Some r ->
  Rx_accounted (rr_Socket r).
Proof.
  unfold EslIp4Receive, Rx_accounted; simpl; intros Hacc H.
  destruct ((SOCKET_STATE_CONNECTED =? State s)
            || (PORT_STATE_RX_ERROR =? State s)); [|inv H; exact Hacc].
  destruct (pPortList s) as [|p rest]; [inv H; exact Hacc|].
  destruct (pRxPacketList s) as [|pkt q] eqn:Hq.
  - destruct (EFI_ERROR (RxError s)); inv H; simpl; rewrite Hq; exact Hacc.
  - destruct (negb a || negb (is_NULL al));
      [|inv H; simpl; rewrite Hq; exact Hacc].
    destruct pkt as [[d|]|]; try discriminate.
    destruct (Receive_copy fuel d B) as [[L out]|]; [|discriminate].
    destruct (Z.land Flags MSG_PEEK =? 0);
      [|inv H; simpl; rewrite Hq; exact Hacc].
    assert (Hd : to_size_t (RxBytes s - RxData_bytes d)
                 = to_size_t (sumZ (map Rx_packet_bytes q))).
    { rewrite Hacc, to_size_t_sub_l; simpl; f_equal; lia. }
    destruct (is_NULL (pReceivePending p) && _); [|inv H; exact Hd].
    match type of H with
    | context [EslIp4RxStart ?i ?x ?y] =>
        destruct (EslIp4RxStart i x y) as [s1 p1] eqn:E
    end.
    apply RxStart_frame in E; destruct E as (_ & _ & _ & E1 & E2 & _).
    inv H; simpl; rewrite E1, E2; exact Hd.
Qed.

Lemma Rx_step_accounted op s s' :
  Rx_accounted s -> Rx_step op s = Some s' -> Rx_accounted s'.
Proof.
  intros Hacc H; destruct op as [n io | n Status RxData io | a]; simpl in H.
  - apply with_port_Some in H.
    destruct H as (p & s1 & p1 & _ & Hf & ->).
    inv Hf.
    match goal with
    | E : EslIp4RxStart _ _ _ = _ |- _ =>
        apply RxStart_frame in E; destruct E as (_ & _ & _ & E1 & E2 & _)
    end.
    unfold Rx_accounted in *; simpl; rewrite E1, E2; exact Hacc.
  - apply with_port_Some in H.
    destruct H as (p & s1 & p1 & _ & Hf & ->).
    destruct (Ip4_RxTokens p); [discriminate|].
    apply (RxComplete_accounted _ _ _ _ _ Hacc) in Hf; exact Hf.
  - unfold Receive_call in H.
    destruct (EslIp4Receive _ _ _ _ _ _ _) as [r|] eqn:E; [|discriminate].
    inv H; eapply Receive_accounted; eauto.
Qed.

Lemma Rx_run_accounted ops : forall s s',
  Rx_accounted s -> Rx_run ops s = Some s' -> Rx_accounted s'.
Proof.
  induction ops as [|op ops IH]; simpl; intros s s' Hacc H.
  - inv H; exact Hacc.
  - destruct (Rx_step op s) as [s1|] eqn:E; [|discriminate].
    apply (IH s1 s'); [|exact H].
    apply (Rx_step_accounted op s s1); assumption.
Qed.

(** C3.  Receive byte conservation with datagram discard: (1) a Receive
    call that is not a peek takes the full length of the datagram, header
    plus data, off the counter and the datagram off the queue, whatever
    the length of the caller's buffer, and reports as copied the smaller of
    the two lengths; (2) when successful completions are followed by as
    many Receive calls that are not peeks, the calls take off the counter
    exactly what the completions added, the counter is back at its
    starting value, the queue is empty, and each call was served from its
    own datagram only; (3) through every sequence of operations of the
    receive engine the counter stays equal to the bytes of the datagrams
    still queued, so what the Receive calls removed is what the
    completions added less what is still queued. *)
Theorem C3_receive_byte_conservation :
  (forall a s p rest d q,
      Receive_state_ok s ->
      pPortList s = p :: rest ->
      pRxPacketList s = Ip4Rx (Some d) :: q ->
      RxData_ok d -> Read_ok a ->
      exists r,
        Receive_call a s = Some r
        /\ rr_Status r = EFI_SUCCESS
        /\ rr_DataLength r
           = Some (Z.min (ra_BufferLength a) (RxData_length d))
        /\ RxBytes (rr_Socket r) = to_size_t (RxBytes s - RxData_length d)
        /\ pRxPacketList (rr_Socket r) = q)
  /\ (forall n ds reads s s1,
        0 <= RxBytes s < 2 ^ 64 ->
        pRxPacketList s = [] ->
        Receive_state_ok s ->
        bRxDisable s = false ->
        (exists p, nth_error (pPortList s) n = Some p
                   /\ Port_State p <= PORT_STATE_CLOSE_STARTED) ->
        Forall (fun d => RxData_ok (fst d)) ds ->
        Rx_run (Rx_completions n ds) s = Some s1 ->
        Forall Read_ok reads ->
        length reads = length ds ->
        RxBytes s1 = to_size_t (RxBytes s + Rx_added ds)
        /\ exists rs,
             Receive_all reads s1 = Some rs
             /\ map (fun r => (rr_Status r, rr_DataLength r)) rs
                = map (fun da =>
                         (EFI_SUCCESS,
                          Some (Z.min (ra_BufferLength (snd da))
                                  (RxData_length (fst da)))))
                    (combine (map fst ds) reads)
             /\ map (fun r => Some (rr_Buffer r)) rs
                = map (fun da =>
                         option_map snd
                           (Receive_copy (ra_fuel (snd da)) (fst da)
                              (ra_BufferLength (snd da))))
                    (combine (map fst ds) reads)
             /\ RxBytes (last (map rr_Socket rs) s1)
                = to_size_t (RxBytes s1 - Rx_added ds)
             /\ RxBytes (last (map rr_Socket rs) s1) = RxBytes s
             /\ pRxPacketList (last (map rr_Socket rs) s1) = [])
  /\ (forall ops s s',
        Rx_accounted s -> Rx_run ops s = Some s' -> Rx_accounted s').
Proof.
  split; [|split; [|exact Rx_run_accounted]].
  - intros a s p rest d q Hs Hp Hq Hd Ha.
    destruct (Receive_step a s p rest d q Hs Hp Hq Hd Ha)
      as (r & E & R1 & R2 & _ & R4 & R5 & _).
    exists r; auto.
  - intros n ds reads s s1 Hb Hq Hs Hdis Hport Hd Hrun Hr Hlen.
    destruct (Rx_completions_run n ds s s1 Hb Hdis Hport Hd Hrun)
      as (C1 & C2 & C3 & C4).
    fold (Rx_added ds) in C2. split; [exact C2|].
    rewrite Hq in C1; simpl in C1.
    destruct (Receive_all_drain (map fst ds) reads s1)
      as (rs & E & G1 & G2 & G3 & G4); auto.
    + unfold Receive_state_ok in *; rewrite C3; auto.
    + rewrite C1, map_map; reflexivity.
    + rewrite C2; apply to_size_t_range.
    + apply Forall_map; auto.
    + rewrite length_map; auto.
    + rewrite map_map in G3; fold (Rx_added ds) in G3.
      exists rs; repeat (split; [assumption|]).
      split; [|assumption].
      rewrite G3, C2, to_size_t_sub_l.
      replace (RxBytes s + Rx_added ds - Rx_added ds) with (RxBytes s) by lia.
      apply to_size_t_small; auto.
Qed.

End ReceiveEngine.

Section ReceiveEngineExamples.

#[local] Existing Instance Socket_h_example.

Lemma ex_datagram_ok last : RxData_ok (ex_datagram last).
Proof.
  unfold RxData_ok; simpl; repeat split; try lia; discriminate.
Qed.

Lemma ex_read_ok B : 0 <= B -> Read_ok (ex_read B).
Proof.
  intros HB; unfold Read_ok; simpl; repeat split; auto.
  right; discriminate.
Qed.

Lemma ex_socket_single : Forall Rx_single (pPortList ex_socket).
Proof. repeat constructor. Qed.

(** The cycle [ex_cycle] on [ex_socket]. *)
Lemma C4_witness :
  Forall Rx_single (pPortList ex_socket)
  /\ exists s',
       Rx_run ex_cycle ex_socket = Some s'
       /\ Forall (fun p => (Ip4_RxTokens p <= 1)%nat
                           /\ (Ip4_RxTokens p = 1%nat
                               <-> pReceivePending p <> None))
            (pPortList s').
Proof.
  split; [exact ex_socket_single|].
  destruct (Rx_run ex_cycle ex_socket) as [s'|] eqn:E;
    [|vm_compute in E; discriminate E].
  exists s'; split; [reflexivity|].
  exact (proj1 (C4_single_pending_receive ex_cycle ex_socket s'
                  ex_socket_single E)).
Defined.

(** On [ex_socket] a datagram arrives and is queued; then the driver
    completes the next receive with EFI_HOST_UNREACHABLE.  The first read
    takes the datagram, the second returns the error with errno
    EHOSTUNREACH, the third finds nothing. *)
Lemma C5_witness :
  exists s s1 rs r1 r2,
    Rx_run ex_arrival ex_socket = Some s
    /\ pRxPacketList s = [Ip4Rx (Some (ex_datagram 7))]
    /\ Ip4_RxDone EFI_HOST_UNREACHABLE None io_ok 0 s = Some s1
    /\ RxError s1 = EFI_HOST_UNREACHABLE
    /\ Receive_all [ex_read 200] s1 = Some rs
    /\ map rr_Status rs = [EFI_SUCCESS]
    /\ map (fun r => RxError (rr_Socket r)) rs = [EFI_HOST_UNREACHABLE]
    /\ Receive_call (ex_read 200) (last (map rr_Socket rs) s1) = Some r1
    /\ rr_Status r1 = EFI_HOST_UNREACHABLE
    /\ errno (rr_Socket r1) = EHOSTUNREACH
    /\ RxError (rr_Socket r1) = EFI_SUCCESS
    /\ Receive_call (ex_read 200) (rr_Socket r1) = Some r2
    /\ rr_Status r2 = EFI_NOT_READY
    /\ errno (rr_Socket r2) = EAGAIN.
Proof.
  run_to E (Rx_run ex_arrival ex_socket).
  match type of E with
  | _ = Some ?s =>
      run_to E1 (Ip4_RxDone EFI_HOST_UNREACHABLE None io_ok 0 s);
      match type of E1 with
      | _ = Some ?s1 =>
          destruct (C5_sticky_receive_error 0 io_ok EFI_HOST_UNREACHABLE None
                      s s1 [ex_datagram 7] [ex_read 200]
                      (ex_read 200) (ex_read 200))
            as (L & _ & _ & rs & r1 & r2 & A1 & A2 & A3 & _ & A4 & A5 & A6 & A7
                & _ & A8 & A9 & A10);
            [ reflexivity | left; reflexivity | reflexivity
            | constructor; [apply ex_datagram_ok | constructor]
            | constructor; [apply ex_read_ok; lia | constructor]
            | reflexivity | exact E1 |];
          exists s, s1, rs, r1, r2
      end
  end.
  cbn [RxError] in L, A3, A5, A6.
  destruct rs as [|r [|r' rs]]; try discriminate A2.
  inversion A3 as [|? ? [B1 B2] _]; subst.
  cbn [map]; rewrite B1, B2.
  repeat (split; [first [assumption | reflexivity]|]).
  exact A10.
Defined.

(** On [ex_roomy], whose MaxRxBuf is 131072, three datagrams of 60040
    bytes arrive.  After the third the counter is 180120, not below
    MaxRxBuf, and the completion posts no receive: receiving is suspended
    by flow control, with no receive error latched and the port open.  The
    read that follows is not a peek, takes the first datagram and leaves
    the counter at 120080, below MaxRxBuf - and no receive is posted: the
    port is still without a pending receive and without a token at the
    driver, because 120080 is not below MAX_RX_DATA = 65536. *)
Lemma C1_counterexample :
  match Rx_run ex_flood ex_roomy with
  | Some s =>
      match pPortList s, Receive_call (ex_read 200) s with
      | [p], Some r =>
          pReceivePending p = None /\ Ip4_RxTokens p = 0%nat
          /\ RxError s = EFI_SUCCESS
          /\ Port_State p < PORT_STATE_CLOSE_STARTED
          /\ MaxRxBuf s = 131072 /\ RxBytes s = 180120
          /\ rr_Status r = EFI_SUCCESS
          /\ Z.land (ra_Flags (ex_read 200)) MSG_PEEK = 0
          /\ EFI_ERROR (io_Receive (ra_io (ex_read 200))) = false
          /\ RxError (rr_Socket r) = EFI_SUCCESS
          /\ RxBytes (rr_Socket r) = 120080
          /\ RxBytes (rr_Socket r) < MaxRxBuf (rr_Socket r)
          /\ match pPortList (rr_Socket r) with
             | [p'] => pReceivePending p' = None /\ Ip4_RxTokens p' = 0%nat
             | _ => False
             end
      | _, _ => False
      end
  | None => False
  end.
Proof. vm_compute; repeat split. Qed.

(** On [ex_small] a completion brings the counter to 140, above
    MaxRxBuf = 100, so no receive is posted; the read that follows takes
    the datagram and one receive is posted. *)
Lemma C1_witness :
  exists s' p' r p'',
    EslIp4RxComplete io_ok ex_small
      (set_RxToken EFI_SUCCESS (Some (ex_datagram 7))
         (set_Ip4_RxTokens 0 ex_port)) = Some (s', p')
    /\ MaxRxBuf s' <= RxBytes s'
    /\ pReceivePending p' = None /\ Ip4_RxTokens p' = 0%nat
    /\ Receive_call (ex_read 200) (set_pPortList [p'] s') = Some r
    /\ pPortList (rr_Socket r) = [p'']
    /\ pReceivePending p'' = Some (Ip4Rx None)
    /\ Ip4_RxTokens p'' = 1%nat.
Proof.
  destruct C1_receive_flow_control as [T1 T2].
  run_to E (EslIp4RxComplete io_ok ex_small
              (set_RxToken EFI_SUCCESS (Some (ex_datagram 7))
                 (set_Ip4_RxTokens 0 ex_port))).
  match type of E with
  | _ = Some (?s, ?p) =>
      run_to R (Receive_call (ex_read 200) (set_pPortList [p] s));
      assert (M : MaxRxBuf s <= RxBytes s) by (vm_compute; discriminate);
      destruct (T1 _ _ _ _ _ E M) as [N1 N2];
      match type of R with
      | _ = Some ?r =>
          destruct (T2 (ex_read 200) (set_pPortList [p] s) r p [] R)
            as [Hpost _];
            [reflexivity | reflexivity | reflexivity | exact N1 |];
          destruct Hpost as (p'' & A & B & C);
            [vm_compute; reflexivity | reflexivity | vm_compute; reflexivity
            | reflexivity |]
      end
  end.
  eexists _, _, _, p''.
  split; [exact E|]. split; [exact M|].
  split; [exact N1|]. split; [exact N2|].
  split; [exact R|]. split; [exact A|]. split; [exact B | exact C].
Defined.

(** Two datagrams of 140 bytes arrive on [ex_socket]; the first is read
    into 200 bytes, the second into 50 bytes. *)
Lemma C3_witness :
  exists s1 rs,
    Rx_run (Rx_completions 0 ex_two) ex_socket = Some s1
    /\ RxBytes s1 = 280
    /\ Receive_all ex_reads s1 = Some rs
    /\ map (fun r => (rr_Status r, rr_DataLength r)) rs
       = [(EFI_SUCCESS, Some 140); (EFI_SUCCESS, Some 50)]
    /\ RxBytes (last (map rr_Socket rs) s1)
       = to_size_t (RxBytes s1 - Rx_added ex_two)
    /\ RxBytes (last (map rr_Socket rs) s1) = RxBytes ex_socket
    /\ pRxPacketList (last (map rr_Socket rs) s1) = [].
Proof.
  destruct C3_receive_byte_conservation as (_ & T & _).
  run_to E (Rx_run (Rx_completions 0 ex_two) ex_socket).
  match type of E with
  | _ = Some ?s =>
      destruct (T 0%nat ex_two ex_reads ex_socket s) as (A & rs & B & C & _ & D & F & G);
        [ simpl; lia | reflexivity | left; reflexivity | reflexivity
        | exists ex_port; split; [reflexivity | simpl; lia]
        | repeat (apply Forall_cons; [apply ex_datagram_ok|]); apply Forall_nil
        | exact E
        | repeat (apply Forall_cons; [apply ex_read_ok; lia|]); apply Forall_nil
        | reflexivity | ]
  end.
  eexists _, rs.
  split; [exact E|]. split; [reflexivity|].
  split; [exact B|]. split; [exact C|].
  split; [exact D|]. split; [exact F | exact G].
Defined.

End ReceiveEngineExamples.

Section TransmitEngine.

Context {h : Socket_h}.

(** ** Transmit flow control and the sticky transmit error *)

(** C6.  Transmit flow control before allocation: on a connected socket
    with a port whose transmit counter has reached MaxTxBuf, EslIp4TxBuffer
    returns EFI_NOT_READY with errno EAGAIN and a data length of 0; no
    call is made (no packet is allocated) and the transmit queue, the
    counter and the ports are as before. *)
Theorem C6_transmit_flow_control (io : TxBuffer_io) (s : ESL_SOCKET)
    (Flags BufferLength : Z) (pBuffer : list Z)
    (pAddress : option sockaddr_in) (AddressLength : Z) :
  SOCKET_STATE_CONNECTED = State s ->
  pPortList s <> [] ->
  MaxTxBuf s <= TxBytes s ->
  EslIp4TxBuffer io s Flags BufferLength pBuffer pAddress AddressLength
    = (EFI_NOT_READY, 0, set_errno EAGAIN s)
  /\ errno (set_errno EAGAIN s) = EAGAIN
  /\ Calls (set_errno EAGAIN s) = Calls s
  /\ pTxPacketList (set_errno EAGAIN s) = pTxPacketList s
  /\ TxBytes (set_errno EAGAIN s) = TxBytes s
  /\ pPortList (set_errno EAGAIN s) = pPortList s.
Proof.
  intros Hc Hp Hfull; split; [|repeat split].
  unfold EslIp4TxBuffer; simpl.
  rewrite Hc, Z.eqb_refl.
  destruct (pPortList s); [congruence|].
  replace (MaxTxBuf s >? TxBytes s) with false
    by (symmetry; rewrite Z.gtb_ltb; apply Z.ltb_ge; exact Hfull).
  reflexivity.
Qed.



(** ** Transmit byte accounting *)

Lemma sumZ_app l1 l2 : sumZ (l1 ++ l2) = sumZ l1 + sumZ l2.
Proof. induction l1 as [|x l1 IH]; simpl; lia. Qed.

Lemma sumZ_nonneg l : Forall (fun x => 0 <= x) l -> 0 <= sumZ l.
Proof. induction 1; simpl; lia. Qed.

Lemma sumZ_replace_port (f : ESL_PORT -> Z) n p p' l :
  nth_error l n = Some p ->
  sumZ (map f (replace_port n p' l)) = sumZ (map f l) - f p + f p'.
Proof.
  revert n; induction l as [|q l IH]; intros [|n] H; simpl in *;
    try discriminate.
  - inv H; lia.
  - rewrite (IH n H); lia.
Qed.

Lemma sumZ_remove_nth {A : Type} (f : A -> Z) k x l :
  nth_error l k = Some x ->
  sumZ (map f (remove_nth k l)) = sumZ (map f l) - f x.
Proof.
  revert k; induction l as [|y l IH]; intros [|k] H; simpl in *;
    try discriminate.
  - inv H; lia.
  - rewrite (IH k H); lia.
Qed.

Lemma Forall_remove_nth {A : Type} (P : A -> Prop) k l :
  Forall P l -> Forall P (remove_nth k l).
Proof.
  intros H; revert k; induction H; intros [|k]; simpl; auto.
Qed.

Lemma set_Token_Status_length k St l :
  map Io_length (set_Token_Status k St l) = map Io_length l.
Proof.
  revert k; induction l as [|x l IH]; intros [|k]; simpl; auto.
  rewrite IH; auto.
Qed.

Lemma set_Token_Status_nth k St l x :
  nth_error (set_Token_Status k St l) k = Some x ->
  exists y, nth_error l k = Some y /\ pPacket x = pPacket y.
Proof.
  revert k; induction l as [|z l IH]; intros [|k] H; simpl in *;
    try discriminate; eauto.
  inv H; eexists; split; reflexivity.
Qed.

(** The transmit pump moves a packet from the queue to the active list:
    the bytes outstanding stay the same. *)
Lemma TxStart_accounting st s p s' p' :
  EslSocketTxStart st s p = (s', p') ->
  sumZ (map Tx_length (pTxPacketList s')) + Active_bytes p'
    = sumZ (map Tx_length (pTxPacketList s)) + Active_bytes p
  /\ TxBytes s' = TxBytes s /\ MaxTxBuf s' = MaxTxBuf s
  /\ pPortList s' = pPortList s
  /\ (Tx_nonneg (pTxPacketList s) (pTxActive p) ->
      Tx_nonneg (pTxPacketList s') (pTxActive p')).
Proof.
  unfold EslSocketTxStart, Active_bytes, Tx_nonneg; intros H.
  destruct (pTxPacketList s) as [|pkt q] eqn:Hq;
    [inv H; rewrite Hq; tauto|].
  destruct (pTxFree p) as [|pIo free]; [inv H; rewrite Hq; tauto|].
  inv H; simpl; unfold Io_length at 1; simpl.
  repeat split; try lia.
  - destruct H as [H _]; inv H; auto.
  - destruct H as [H H']; inv H; constructor; auto.
Qed.

Lemma Tx_accounted_nonneg s : Tx_accounted s -> 0 <= TxBytes s.
Proof.
  intros (E & _ & Hq & Hp & _); rewrite E; unfold Tx_outstanding.
  assert (0 <= sumZ (map Tx_length (pTxPacketList s))).
  { apply sumZ_nonneg, Forall_map; auto. }
  assert (0 <= sumZ (map Active_bytes (pPortList s))).
  { apply sumZ_nonneg, Forall_map.
    eapply Forall_impl; [|exact Hp].
    intros p H'; apply sumZ_nonneg, Forall_map; auto. }
  lia.
Qed.

(** A status [EslIp4TxBuffer] returns without an error means the payload
    was buffered; the counter then grows by the payload length, without
    wrapping around, and still accounts for the outstanding packets. *)
Lemma TxBuffer_accounting io s Flags B buf addr len :
  Tx_accounted s -> 0 <= B < 2 ^ 32 ->
  Tx_accounted (snd (EslIp4TxBuffer io s Flags B buf addr len))
  /\ (EFI_ERROR (fst (fst (EslIp4TxBuffer io s Flags B buf addr len))) = false ->
      TxBytes (snd (EslIp4TxBuffer io s Flags B buf addr len)) = TxBytes s + B).
Proof.
  intros Hacc HB.
  pose proof (Tx_accounted_nonneg s Hacc) as H0.
  destruct Hacc as (E & Hlt & Hq & Hp & Hmax).
  unfold EslIp4TxBuffer; simpl.
  destruct (SOCKET_STATE_CONNECTED =? State s);
    [|split; [repeat split; auto | discriminate]].
  destruct (pPortList s) as [|p rest] eqn:Hports;
    [split; [repeat split; simpl; rewrite ?Hports; auto | discriminate]|].
  destruct (MaxTxBuf s >? TxBytes s) eqn:Hroom;
    [|split; [repeat split; simpl; rewrite ?Hports; auto | discriminate]].
  apply Z.gtb_lt in Hroom.
  destruct (EFI_ERROR (io_TxAllocate io)) eqn:Ha; simpl;
    [split; [repeat split; simpl; rewrite ?Hports; auto | congruence]|].
  destruct (EFI_ERROR (TxError s)) eqn:He; simpl;
    [split; [repeat split; simpl; rewrite ?Hports; auto
            | intros X; rewrite X in He; discriminate]|].
  assert (Hadd : to_size_t (TxBytes s + B) = TxBytes s + B)
    by (apply to_size_t_small; lia).
  assert (HU : to_UINT32 B = B) by (apply Z.mod_small; lia).
  inversion Hp as [|? ? Hp1 Hp2]; subst.
  destruct (pTxFree p) as [|pIo free] eqn:Hfree; simpl.
  - split; [|intros _; exact Hadd].
    unfold Tx_accounted, Tx_outstanding; simpl.
    rewrite Hports, map_app, sumZ_app, Hadd; simpl; rewrite HU.
    repeat split; auto.
    + unfold Tx_outstanding in E; rewrite Hports in E; simpl in E; lia.
    + lia.
    + apply Forall_app; split; auto; repeat constructor; simpl; lia.
  - match goal with
    | |- context [EslSocketTxStart ?st ?x ?y] =>
        destruct (EslSocketTxStart st x y) as [s1 p1] eqn:Es
    end.
    apply TxStart_accounting in Es; simpl in Es.
    destruct Es as (S1 & S2 & S3 & S4 & S5).
    rewrite map_app, sumZ_app in S1; simpl in S1; rewrite HU in S1.
    destruct S5 as [S5 S6].
    { split; auto.
      apply Forall_app; split; auto; repeat constructor; simpl; lia. }
    simpl; split; [|intros _; rewrite S2; exact Hadd].
    unfold Tx_accounted, Tx_outstanding; simpl.
    rewrite S2, S3, Hadd.
    repeat split; auto; try lia.
    unfold Tx_outstanding in E; rewrite Hports in E; simpl in E; lia.
Qed.

Lemma sumZ_nth_le {A : Type} (f : A -> Z) n x l :
  nth_error l n = Some x -> Forall (fun y => 0 <= f y) l ->
  f x <= sumZ (map f l).
Proof.
  intros Hn HF; revert n Hn; induction HF as [|y l Hy HF IH];
    intros [|n] Hn; simpl in *; try discriminate.
  - inv Hn. pose proof (sumZ_nonneg (map f l)) as H0.
    rewrite Forall_map in H0; specialize (H0 HF); lia.
  - specialize (IH n Hn); lia.
Qed.

Lemma Forall_Io_length_map l :
  Forall (fun pIo => 0 <= Io_length pIo) l
  <-> Forall (fun x => 0 <= x) (map Io_length l).
Proof. rewrite Forall_map; tauto. Qed.

(** A transmit completion takes the length of the completed packet off
    the counter without a borrow, and the counter still accounts for the
    outstanding packets. *)
Lemma TxDone_accounting n k St Tst s s' :
  Tx_accounted s ->
  Ip4_TxDone n k St Tst s = Some s' ->
  exists p pIo,
    nth_error (pPortList s) n = Some p
    /\ nth_error (pTxActive p) k = Some pIo
    /\ 0 <= Io_length pIo <= TxBytes s
    /\ TxBytes s' = TxBytes s - Io_length pIo
    /\ Tx_accounted s'.
Proof.
  intros Hacc H.
  pose proof (Tx_accounted_nonneg s Hacc) as H0.
  destruct Hacc as (E & Hlt & Hq & Hp & Hmax).
  apply with_port_Some in H.
  destruct H as (p & s1 & p1 & Hn & Hf & ->).
  unfold EslIp4TxComplete in Hf; simpl in Hf.
  destruct (nth_error (set_Token_Status k St (pTxActive p)) k)
    as [x|] eqn:Hx; [|discriminate].
  destruct (pPacket x) as [[|d]|] eqn:Hpkt; try discriminate.
  destruct (set_Token_Status_nth _ _ _ _ Hx) as (y & Hy & Hxy).
  assert (Hp' : Forall (fun pIo => 0 <= Io_length pIo) (pTxActive p)).
  { rewrite Forall_forall in Hp; apply Hp; eauto using nth_error_In. }
  assert (Hlen : Io_length y = TxData_TotalDataLength d)
    by (unfold Io_length; rewrite <- Hxy, Hpkt; reflexivity).
  assert (Hlenx : Io_length x = TxData_TotalDataLength d)
    by (unfold Io_length; rewrite Hpkt; reflexivity).
  assert (Hy0 : 0 <= Io_length y)
    by (rewrite Forall_forall in Hp'; apply Hp'; eauto using nth_error_In).
  assert (Hle1 : Io_length y <= Active_bytes p)
    by (apply (sumZ_nth_le Io_length k y); auto).
  assert (Hle2 : Active_bytes p <= sumZ (map Active_bytes (pPortList s))).
  { apply (sumZ_nth_le Active_bytes n p); auto.
    eapply Forall_impl; [|exact Hp].
    intros q Hq'; apply sumZ_nonneg, Forall_map; auto. }
  assert (Hq0 : 0 <= sumZ (map Tx_length (pTxPacketList s)))
    by (apply sumZ_nonneg, Forall_map; auto).
  assert (HleT : Io_length y <= TxBytes s)
    by (rewrite E; unfold Tx_outstanding; lia).
  inv Hf.
  unfold EslSocketTxComplete in H1; simpl in H1.
  rewrite Hx, Hpkt in H1.
  match type of H1 with
  | EslSocketTxStart ?st ?a ?b = _ =>
      set (s3 := a) in H1; set (p2 := b) in H1
  end.
  apply TxStart_accounting in H1.
  destruct H1 as (S1 & S2 & S3 & S4 & S5).
  assert (Hq3 : pTxPacketList s3 = pTxPacketList s)
    by (unfold s3; destruct (EFI_ERROR _ && _); reflexivity).
  assert (Hb3 : TxBytes s3 = to_size_t (TxBytes s - TxData_TotalDataLength d))
    by (unfold s3; destruct (EFI_ERROR _ && _); reflexivity).
  assert (Hm3 : MaxTxBuf s3 = MaxTxBuf s)
    by (unfold s3; destruct (EFI_ERROR _ && _); reflexivity).
  assert (Hl3 : pPortList s3 = pPortList s)
    by (unfold s3; destruct (EFI_ERROR _ && _); reflexivity).
  assert (Ha2 : Active_bytes p2 = Active_bytes p - Io_length y).
  { unfold p2, Active_bytes; simpl.
    rewrite (sumZ_remove_nth Io_length k x _ Hx), set_Token_Status_length.
    lia. }
  assert (Hn2 : Tx_nonneg (pTxPacketList s3) (pTxActive p2)).
  { split; [rewrite Hq3; auto|].
    unfold p2; simpl; apply Forall_remove_nth.
    apply Forall_Io_length_map; rewrite set_Token_Status_length.
    apply Forall_Io_length_map; auto. }
  destruct (S5 Hn2) as [N1 N2].
  assert (Hwrap : to_size_t (TxBytes s - TxData_TotalDataLength d)
                  = TxBytes s - Io_length y).
  { rewrite Hlen; apply to_size_t_small; lia. }
  exists p, y; repeat split; auto.
  - simpl; rewrite S2, Hb3; exact Hwrap.
  - simpl; rewrite S2, Hb3, Hwrap.
    unfold Tx_outstanding; simpl.
    rewrite S4, Hl3, (sumZ_replace_port Active_bytes n p p1 _ Hn).
    rewrite Hq3 in S1; unfold Tx_outstanding in E; lia.
  - simpl; rewrite S2, Hb3, Hwrap; lia.
  - simpl; rewrite S4, Hl3.
    apply Forall_replace_port; auto.
  - simpl; lia.
Qed.

Lemma Tx_step_accounted op s s' :
  Tx_accounted s -> Tx_op_ok op -> Tx_step op s = Some s' -> Tx_accounted s'.
Proof.
  intros Hacc Hop H; destruct op as [io Flags B buf addr len | n k St Tst];
    simpl in *.
  - inv H; apply TxBuffer_accounting; auto.
  - destruct (TxDone_accounting n k St Tst s s' Hacc H)
      as (_ & _ & _ & _ & _ & _ & G); exact G.
Qed.

Lemma Tx_run_accounted ops : forall s s',
  Tx_accounted s -> Forall Tx_op_ok ops -> Tx_run ops s = Some s' ->
  Tx_accounted s'.
Proof.
  induction ops as [|op ops IH]; simpl; intros s s' Hacc Hops H.
  - inv H; auto.
  - inversion Hops as [|? ? Hop Hops']; subst.
    destruct (Tx_step op s) as [s1|] eqn:E; [|discriminate].
    apply (IH s1 s'); auto.
    apply (Tx_step_accounted op s s1); auto.
Qed.

(** C7.  Transmit byte accounting: start from a socket whose counter
    accounts for its outstanding transmit packets and run any sequence of
    EslIp4TxBuffer calls (payloads below 2^32 bytes) and transmit
    completions.  Then the counter is not negative and equals the bytes of
    the outstanding packets; a further EslIp4TxBuffer call that buffers
    its payload adds exactly the payload length, and a further completion
    subtracts exactly the total data length of the completed packet, which
    is at most the counter, so the subtraction does not wrap around. *)
Theorem C7_transmit_byte_accounting (ops : list Tx_op) (s s' : ESL_SOCKET) :
  Tx_accounted s ->
  Forall Tx_op_ok ops ->
  Tx_run ops s = Some s' ->
  0 <= TxBytes s'
  /\ TxBytes s' = Tx_outstanding s'
  /\ (forall io Flags B buf addr len,
        0 <= B < 2 ^ 32 ->
        EFI_ERROR (fst (fst (EslIp4TxBuffer io s' Flags B buf addr len)))
          = false ->
        TxBytes (snd (EslIp4TxBuffer io s' Flags B buf addr len))
          = TxBytes s' + B)
  /\ (forall n k St Tst s'',
        Ip4_TxDone n k St Tst s' = Some s'' ->
        exists p pIo,
          nth_error (pPortList s') n = Some p
          /\ nth_error (pTxActive p) k = Some pIo
          /\ 0 <= Io_length pIo <= TxBytes s'
          /\ TxBytes s'' = TxBytes s' - Io_length pIo).
Proof.
  intros Hacc Hops H.
  pose proof (Tx_run_accounted ops s s' Hacc Hops H) as Hacc'.
  split; [apply Tx_accounted_nonneg; auto|].
  split; [apply Hacc'|].
  split.
  - intros io Flags B buf addr len HB.
    apply TxBuffer_accounting; auto.
  - intros n k St Tst s'' Hd.
    destruct (TxDone_accounting n k St Tst s' s'' Hacc' Hd)
      as (p & pIo & G1 & G2 & G3 & G4 & _).
    exists p, pIo; auto.
Qed.

End TransmitEngine.

Section TransmitEngineExamples.

#[local] Existing Instance Socket_h_example.

(** A send of 64 bytes on [ex_tx_full], whose counter is at MaxTxBuf. *)
Lemma C6_witness :
  SOCKET_STATE_CONNECTED = State ex_tx_full
  /\ pPortList ex_tx_full <> []
  /\ MaxTxBuf ex_tx_full <= TxBytes ex_tx_full
  /\ EslIp4TxBuffer tx_io_ok ex_tx_full 0 64 (repeat 1 64) None 0
     = (EFI_NOT_READY, 0, set_errno EAGAIN ex_tx_full)
  /\ Calls (set_errno EAGAIN ex_tx_full) = Calls ex_tx_full
  /\ pTxPacketList (set_errno EAGAIN ex_tx_full) = pTxPacketList ex_tx_full
  /\ TxBytes (set_errno EAGAIN ex_tx_full) = TxBytes ex_tx_full.
Proof.
  assert (H1 : SOCKET_STATE_CONNECTED = State ex_tx_full) by reflexivity.
  assert (H2 : pPortList ex_tx_full <> []) by discriminate.
  assert (H3 : MaxTxBuf ex_tx_full <= TxBytes ex_tx_full) by (simpl; lia).
  repeat (split; [assumption|]).
  destruct (C6_transmit_flow_control tx_io_ok ex_tx_full 0 64 (repeat 1 64)
              None 0 H1 H2 H3) as (A & _ & B & C & D & _).
  auto.
Defined.



Lemma ex_socket_accounted : Tx_accounted ex_socket.
Proof.
  unfold Tx_accounted; simpl; repeat split; try lia; repeat constructor.
Qed.

Lemma ex_sends_ok : Forall Tx_op_ok ex_sends.
Proof.
  unfold ex_sends;
    repeat (apply Forall_cons; [simpl; try lia; exact I|]); apply Forall_nil.
Qed.

(** The sends [ex_sends] on [ex_socket]: 1074 bytes are buffered, the
    packets of 64 and of 10 bytes complete, 1000 bytes remain. *)
Lemma C7_witness :
  Tx_accounted ex_socket
  /\ Forall Tx_op_ok ex_sends
  /\ exists s',
       Tx_run ex_sends ex_socket = Some s'
       /\ TxBytes s' = 1000
       /\ 0 <= TxBytes s'
       /\ TxBytes s' = Tx_outstanding s'.
Proof.
  split; [exact ex_socket_accounted|].
  split; [exact ex_sends_ok|].
  run_to E (Tx_run ex_sends ex_socket).
  eexists; split; [exact E|].
  split; [reflexivity|].
  destruct (C7_transmit_byte_accounting ex_sends ex_socket _
              ex_socket_accounted ex_sends_ok E) as (A & B & _).
  split; [exact A | exact B].
Defined.

End TransmitEngineExamples.

Section Addresses.

Context {h : Socket_h}.

(** ** Connect *)

Lemma Connect_ports_spec a ports St e :
  Connect_ports a ports St e
  = (map (set_DestinationAddress (bytes_of_UINT32 (sin_addr a))) ports,
     match ports with [] => St | _ :: _ => EFI_SUCCESS end,
     match ports with [] => e | _ :: _ => errno_0 end).
Proof.
  revert St e; induction ports as [|p ports IH]; intros St e; simpl; auto.
  rewrite IH; destruct ports; reflexivity.
Qed.

Lemma Connect_spec bind s a len :
  sizeof_sockaddr_in - sizeof_sin_zero <= len ->
  EslIp4Connect bind s a len
  = (match pPortList (snd (Connect_bind bind s)) with
     | [] => fst (Connect_bind bind s)
     | _ :: _ => EFI_SUCCESS
     end,
     set_errno
       match pPortList (snd (Connect_bind bind s)) with
       | [] => errno (snd (Connect_bind bind s))
       | _ :: _ => errno_0
       end
       (set_pPortList
          (map (set_DestinationAddress (bytes_of_UINT32 (sin_addr a)))
             (pPortList (snd (Connect_bind bind s))))
          (snd (Connect_bind bind s)))).
Proof.
  intros Hlen; unfold EslIp4Connect, Connect_bind; simpl.
  replace (len >=? sizeof_sockaddr_in - sizeof_sin_zero) with true
    by (symmetry; apply Z.geb_le; exact Hlen).
  destruct (pPortList s) as [|p rest] eqn:Hp.
  - destruct (bind _ _ _) as [St sb]; simpl.
    rewrite Connect_ports_spec; reflexivity.
  - cbn [snd fst].
    change (pPortList (set_errno ENETUNREACH s)) with (pPortList s).
    rewrite Hp, Connect_ports_spec; reflexivity.
Qed.

(** The ports after [EslIp4Connect]: those after the implicit bind, each
    with the bytes of the remote address as its destination. *)
Lemma Connect_destinations bind s a len :
  sizeof_sockaddr_in - sizeof_sin_zero <= len ->
  pPortList (snd (EslIp4Connect bind s a len))
  = map (set_DestinationAddress (bytes_of_UINT32 (sin_addr a)))
      (pPortList (snd (Connect_bind bind s)))
  /\ Forall (fun p => DestinationAddress p = bytes_of_UINT32 (sin_addr a))
       (pPortList (snd (EslIp4Connect bind s a len))).
Proof.
  intros Hlen; rewrite (Connect_spec _ _ _ _ Hlen); simpl.
  split; [reflexivity|].
  apply Forall_map, Forall_forall; reflexivity.
Qed.

(** C8 (amended).  Connect semantics: for a remote address of at least
    the minimum length, EslIp4Connect binds to the wildcard address when
    the socket owns no port; it then writes the four bytes of the remote
    address, in memory (network) order, into the destination address of
    every port; it returns success with errno 0 when a port exists
    afterwards, and the status and errno the implicit bind left when none
    does.  As a bind that leaves no port fails, success is returned if and
    only if a port exists afterwards. *)
Theorem C8_connect
    (EslSocketBind : ESL_SOCKET -> sockaddr_in -> Z -> EFI_STATUS * ESL_SOCKET)
    (s : ESL_SOCKET) (a : sockaddr_in) (len : Z) :
  sizeof_sockaddr_in - sizeof_sin_zero <= len ->
  (pPortList s = [] ->
   Connect_bind EslSocketBind s
   = EslSocketBind (set_errno ENETUNREACH s)
       {| sin_len := to_UINT8 sizeof_sockaddr_in;
          sin_family := AF_INET; sin_port := 0; sin_addr := 0 |}
       (to_UINT8 sizeof_sockaddr_in))
  /\ (pPortList s <> [] ->
      pPortList (snd (Connect_bind EslSocketBind s)) = pPortList s)
  /\ pPortList (snd (EslIp4Connect EslSocketBind s a len))
     = map (set_DestinationAddress (bytes_of_UINT32 (sin_addr a)))
         (pPortList (snd (Connect_bind EslSocketBind s)))
  /\ Forall (fun p => DestinationAddress p = bytes_of_UINT32 (sin_addr a))
       (pPortList (snd (EslIp4Connect EslSocketBind s a len)))
  /\ (pPortList (snd (EslIp4Connect EslSocketBind s a len)) <> [] ->
      fst (EslIp4Connect EslSocketBind s a len) = EFI_SUCCESS
      /\ errno (snd (EslIp4Connect EslSocketBind s a len)) = errno_0)
  /\ (pPortList (snd (EslIp4Connect EslSocketBind s a len)) = [] ->
      fst (EslIp4Connect EslSocketBind s a len)
      = fst (Connect_bind EslSocketBind s)
      /\ errno (snd (EslIp4Connect EslSocketBind s a len))
         = errno (snd (Connect_bind EslSocketBind s)))
  /\ (Bind_fails_without_port EslSocketBind ->
      (fst (EslIp4Connect EslSocketBind s a len) = EFI_SUCCESS
       <-> pPortList (snd (EslIp4Connect EslSocketBind s a len)) <> [])).
Proof.
  intros Hlen.
  rewrite (Connect_spec _ _ _ _ Hlen).
  assert (Hbound : pPortList s <> [] ->
                   pPortList (snd (Connect_bind EslSocketBind s)) = pPortList s).
  { intros Hp; unfold Connect_bind.
    destruct (pPortList s) eqn:E; [congruence | simpl; exact E]. }
  assert (Hwild : pPortList s = [] ->
    Connect_bind EslSocketBind s
    = EslSocketBind (set_errno ENETUNREACH s)
        {| sin_len := to_UINT8 sizeof_sockaddr_in;
           sin_family := AF_INET; sin_port := 0; sin_addr := 0 |}
        (to_UINT8 sizeof_sockaddr_in)).
  { intros Hp; unfold Connect_bind; rewrite Hp; reflexivity. }
  set (bound := Connect_bind EslSocketBind s) in *.
  cbn [fst snd].
  change (pPortList (set_errno ?e (set_pPortList ?l ?x))) with l.
  change (errno (set_errno ?e ?x)) with e.
  split; [exact Hwild|]. split; [exact Hbound|].
  split; [reflexivity|].
  split; [apply Forall_map, Forall_forall; reflexivity|].
  split; [destruct (pPortList (snd bound)); simpl; [congruence | auto]|].
  split; [destruct (pPortList (snd bound)); simpl; [auto | discriminate]|].
  intros Hbind.
  destruct (pPortList (snd bound)) as [|p rest] eqn:Hp; simpl.
  - split; [|congruence].
    intros E; exfalso.
    destruct (pPortList s) eqn:Hs.
    + rewrite (Hwild eq_refl) in Hp, E.
      specialize (Hbind _ _ _ Hp); rewrite E in Hbind; discriminate.
    + assert (X : [] = e :: l) by (apply Hbound; discriminate).
      discriminate X.
  - split; [discriminate | reflexivity].
Qed.

(** ** Bind *)

Lemma EslIp4Bind_fails_without_port pIp4List :
  Bind_fails_without_port (EslSocketBind_Ip4 pIp4List).
Proof.
  intros s a len; unfold EslSocketBind_Ip4, EslIp4Bind.
  destruct (len >=? sizeof_sockaddr_in - sizeof_sin_zero); [|reflexivity].
  destruct (Bind_services _ _ _ _) as [St sb].
  destruct (pPortList sb) eqn:E; simpl; [reflexivity|].
  rewrite E; discriminate.
Qed.

(** With adapters that all work, the walk over the services gives the
    socket one more port per adapter. *)
Lemma Bind_services_ports pIp4List : forall ip St s,
  Forall Service_ok pIp4List ->
  length (pPortList (snd (Bind_services pIp4List ip St s)))
  = (length pIp4List + length (pPortList s))%nat.
Proof.
  induction pIp4List as [|svc l IH]; intros ip St s Hok; [reflexivity|].
  inversion Hok as [|? ? (H1 & H2 & H3 & H4 & H5) Hl]; subst.
  simpl; rewrite H1; simpl.
  unfold EslIp4PortAllocate; rewrite H2, H3, H4, H5; simpl.
  rewrite H5, IH by assumption; simpl; lia.
Qed.

(** The ports [EslIp4Bind] creates have no receive pending and no token
    at the driver. *)
Lemma Bind_services_single pIp4List : forall ip St s,
  Forall Rx_single (pPortList s) ->
  Forall Rx_single (pPortList (snd (Bind_services pIp4List ip St s))).
Proof.
  induction pIp4List as [|svc l IH]; intros ip St s Hs; [exact Hs|].
  simpl. destruct (EFI_ERROR (svc_CreateChild svc)); simpl;
    [apply IH; exact Hs|].
  unfold EslIp4PortAllocate.
  repeat break_if; simpl; apply IH; simpl; auto;
    (constructor; [reflexivity | exact Hs]).
Qed.

(** ** The address queries *)

Lemma UINT32_bytes_round_trip x :
  0 <= x < 2 ^ 32 -> UINT32_of_bytes (bytes_of_UINT32 x) = x.
Proof.
  intros H; unfold UINT32_of_bytes, bytes_of_UINT32, to_UINT8.
  cbn [Addr0 Addr1 Addr2 Addr3].
  rewrite !Z.shiftr_div_pow2, !Z.shiftl_mul_pow2 by lia.
  change (2 ^ 8) with 256; change (2 ^ 16) with 65536;
    change (2 ^ 24) with 16777216.
  change (2 ^ 32) with 4294967296 in H.
  Z.div_mod_to_equations; lia.
Qed.

(** C9.  Address round trip: after EslIp4Connect with a remote address
    whose s_addr is any 32-bit value, on a socket that then owns a single
    port, EslIp4GetRemoteAddress with a buffer of at least
    sizeof (struct sockaddr_in) bytes succeeds and returns the same s_addr:
    the four bytes stored in the port's destination address reconstruct
    the value. *)
Theorem C9_address_round_trip
    (EslSocketBind : ESL_SOCKET -> sockaddr_in -> Z -> EFI_STATUS * ESL_SOCKET)
    (s : ESL_SOCKET) (a : sockaddr_in) (len : Z) (p : ESL_PORT)
    (buf : sockaddr_in) (blen : Z) :
  0 <= sin_addr a < 2 ^ 32 ->
  sizeof_sockaddr_in - sizeof_sin_zero <= len ->
  pPortList (snd (EslIp4Connect EslSocketBind s a len)) = [p] ->
  sizeof_sockaddr_in <= blen ->
  DestinationAddress p = bytes_of_UINT32 (sin_addr a)
  /\ exists s2 out,
       EslIp4GetRemoteAddress (snd (EslIp4Connect EslSocketBind s a len))
         buf blen = (EFI_SUCCESS, s2, out)
       /\ errno s2 = errno_0
       /\ sin_family out = AF_INET
       /\ sin_addr out = sin_addr a.
Proof.
  intros Ha Hlen Hp Hb.
  destruct (Connect_destinations EslSocketBind s a len Hlen) as [_ Hd].
  rewrite Hp in Hd; inversion Hd as [|? ? Hd1 _]; subst.
  split; [exact Hd1|].
  unfold EslIp4GetRemoteAddress; rewrite Hp.
  replace (sizeof_sockaddr_in <=? blen) with true
    by (symmetry; apply Z.leb_le; exact Hb).
  eexists _, _; split; [reflexivity|]; simpl.
  rewrite Hd1, UINT32_bytes_round_trip; auto.
Qed.

(** C10.  Single-port precondition of the address queries: when the socket
    does not own exactly one port, EslIp4GetLocalAddress and
    EslIp4GetRemoteAddress both return EFI_NOT_STARTED with errno ENOTCONN
    and leave the caller's buffer as it was, so either succeeds only with
    exactly one port; and EslIp4Bind gives a socket without ports one port
    per registered IPv4 service when the adapters all work, so that with
    several services the queries fail. *)
Theorem C10_address_queries_need_one_port (s : ESL_SOCKET)
    (buf : sockaddr_in) (blen : Z) :
  (length (pPortList s) <> 1%nat ->
   EslIp4GetLocalAddress s buf blen
     = (EFI_NOT_STARTED, set_errno ENOTCONN s, buf)
   /\ EslIp4GetRemoteAddress s buf blen
      = (EFI_NOT_STARTED, set_errno ENOTCONN s, buf)
   /\ errno (set_errno ENOTCONN s) = ENOTCONN)
  /\ (fst (fst (EslIp4GetLocalAddress s buf blen)) = EFI_SUCCESS ->
      length (pPortList s) = 1%nat)
  /\ (fst (fst (EslIp4GetRemoteAddress s buf blen)) = EFI_SUCCESS ->
      length (pPortList s) = 1%nat)
  /\ (forall pIp4List a len,
        Forall Service_ok pIp4List ->
        pPortList s = [] ->
        sizeof_sockaddr_in - sizeof_sin_zero <= len ->
        length (pPortList (snd (EslIp4Bind pIp4List s a len)))
        = length pIp4List).
Proof.
  unfold EslIp4GetLocalAddress, EslIp4GetRemoteAddress.
  repeat split.
  - destruct (pPortList s) as [|p [|q l]]; simpl in *; congruence.
  - destruct (pPortList s) as [|p [|q l]]; simpl in *; congruence.
  - destruct (pPortList s) as [|p [|q l]]; simpl; auto; discriminate.
  - destruct (pPortList s) as [|p [|q l]]; simpl; auto; discriminate.
  - intros pIp4List a len Hok Hp Hlen; unfold EslIp4Bind.
    replace (len >=? sizeof_sockaddr_in - sizeof_sin_zero) with true
      by (symmetry; apply Z.geb_le; exact Hlen).
    pose proof (Bind_services_ports pIp4List
                  (bytes_of_UINT32 (sin_addr a)) EFI_SUCCESS
                  (set_errno errno_0 s) Hok) as Hn.
    simpl in Hn; rewrite Hp in Hn; simpl in Hn; rewrite Nat.add_0_r in Hn.
    destruct (Bind_services _ _ _ _) as [St sb]; simpl in *.
    destruct (pPortList sb) eqn:E; simpl; rewrite ?E; exact Hn.
Qed.

End Addresses.

Section AddressExamples.

#[local] Existing Instance Socket_h_example.

(** Connect on a socket that was never bound, with one registered adapter
    whose service binding cannot create a child: the implicit bind fails,
    no port exists afterwards, and the call returns the bind's
    EFI_INVALID_PARAMETER with errno EADDRNOTAVAIL, not
    EFI_NETWORK_UNREACHABLE with ENETUNREACH. *)
Lemma C8_counterexample :
  exists s',
    sizeof_sockaddr_in - sizeof_sin_zero <= 16
    /\ EslIp4Connect (EslSocketBind_Ip4 [ex_service_down]) ex_unbound
         ex_remote 16 = (EFI_INVALID_PARAMETER, s')
    /\ pPortList s' = []
    /\ errno s' = EADDRNOTAVAIL
    /\ EFI_INVALID_PARAMETER <> EFI_NETWORK_UNREACHABLE
    /\ EADDRNOTAVAIL <> ENETUNREACH.
Proof.
  eexists; split; [simpl; lia|].
  split; [vm_compute; reflexivity|].
  repeat split; discriminate.
Qed.

(** Connect to 10.1.2.3 on a socket that was never bound, with two working
    adapters registered. *)
Lemma C8_witness :
  sizeof_sockaddr_in - sizeof_sin_zero <= 16
  /\ length (pPortList (snd (EslIp4Connect
                               (EslSocketBind_Ip4 [ex_service; ex_service])
                               ex_unbound ex_remote 16))) = 2%nat
  /\ Forall (fun p => DestinationAddress p
                      = {| Addr0 := 10; Addr1 := 1; Addr2 := 2; Addr3 := 3 |})
       (pPortList (snd (EslIp4Connect
                          (EslSocketBind_Ip4 [ex_service; ex_service])
                          ex_unbound ex_remote 16)))
  /\ fst (EslIp4Connect (EslSocketBind_Ip4 [ex_service; ex_service])
            ex_unbound ex_remote 16) = EFI_SUCCESS
  /\ errno (snd (EslIp4Connect (EslSocketBind_Ip4 [ex_service; ex_service])
                   ex_unbound ex_remote 16)) = errno_0.
Proof.
  assert (H : sizeof_sockaddr_in - sizeof_sin_zero <= 16) by (simpl; lia).
  split; [exact H|].
  destruct (C8_connect (EslSocketBind_Ip4 [ex_service; ex_service])
              ex_unbound ex_remote 16 H) as (_ & _ & _ & A & B & _).
  split; [vm_compute; reflexivity|].
  split; [exact A|].
  apply B; vm_compute; discriminate.
Defined.

(** Connect to 10.1.2.3 with one working adapter, then ask for the remote
    address. *)
Lemma C9_witness :
  0 <= sin_addr ex_remote < 2 ^ 32
  /\ sizeof_sockaddr_in - sizeof_sin_zero <= 16
  /\ sizeof_sockaddr_in <= 16
  /\ exists p s2 out,
       pPortList (snd (EslIp4Connect (EslSocketBind_Ip4 [ex_service])
                         ex_unbound ex_remote 16)) = [p]
       /\ EslIp4GetRemoteAddress
            (snd (EslIp4Connect (EslSocketBind_Ip4 [ex_service])
                    ex_unbound ex_remote 16)) ex_buffer 16
          = (EFI_SUCCESS, s2, out)
       /\ sin_addr out = sin_addr ex_remote.
Proof.
  assert (H1 : 0 <= sin_addr ex_remote < 2 ^ 32) by (simpl; lia).
  assert (H2 : sizeof_sockaddr_in - sizeof_sin_zero <= 16) by (simpl; lia).
  assert (H3 : sizeof_sockaddr_in <= 16) by (simpl; lia).
  repeat (split; [assumption|]).
  eassert (E : pPortList (snd (EslIp4Connect (EslSocketBind_Ip4 [ex_service])
                                 ex_unbound ex_remote 16)) = [_])
    by (vm_compute; reflexivity).
  destruct (C9_address_round_trip (EslSocketBind_Ip4 [ex_service])
              ex_unbound ex_remote 16 _ ex_buffer 16 H1 H2 E H3)
    as (_ & s2 & out & A & _ & _ & B).
  eexists _, s2, out; split; [exact E|]; split; [exact A | exact B].
Defined.

(** A bind to the wildcard address with two working adapters registered
    gives the socket two ports, and both address queries then fail. *)
Lemma C10_witness :
  length (pPortList (snd (EslIp4Bind [ex_service; ex_service] ex_unbound
                            ex_any 16))) = 2%nat
  /\ fst (fst (EslIp4GetLocalAddress
                 (snd (EslIp4Bind [ex_service; ex_service] ex_unbound
                         ex_any 16)) ex_buffer 16)) = EFI_NOT_STARTED
  /\ EslIp4GetRemoteAddress
       (snd (EslIp4Bind [ex_service; ex_service] ex_unbound ex_any 16))
       ex_buffer 16
     = (EFI_NOT_STARTED,
        set_errno ENOTCONN
          (snd (EslIp4Bind [ex_service; ex_service] ex_unbound ex_any 16)),
        ex_buffer).
Proof.
  destruct (C10_address_queries_need_one_port ex_unbound ex_buffer 16)
    as (_ & _ & _ & Hbind).
  assert (Hok : Forall Service_ok [ex_service; ex_service])
    by (repeat (apply Forall_cons; [repeat split|]); apply Forall_nil).
  assert (H2 : length (pPortList (snd (EslIp4Bind [ex_service; ex_service]
                                         ex_unbound ex_any 16))) = 2%nat)
    by (apply (Hbind _ ex_any 16 Hok eq_refl); simpl; lia).
  destruct (C10_address_queries_need_one_port
              (snd (EslIp4Bind [ex_service; ex_service] ex_unbound ex_any 16))
              ex_buffer 16) as (Hfail & _).
  destruct Hfail as (A & B & _); [rewrite H2; discriminate|].
  split; [exact H2|]. split; [rewrite A; reflexivity | exact B].
Defined.

End AddressExamples.

(** * Further properties of Ip4.c *)

Section ReceiveLedger.

Context {h : Socket_h}.

#[local] Arguments Z.add _ _ : simpl never.
#[local] Arguments Z.sub _ _ : simpl never.
#[local] Arguments Z.opp _ : simpl never.

(** ** Buffers and packets of the receive engine *)

Lemma Recycled_snoc calls c :
  Recycled (calls ++ [c])
  = Recycled calls
    ++ match c with Call_SignalEvent e => [e] | _ => [] end.
Proof.
  unfold Recycled; rewrite flat_map_app; simpl; rewrite app_nil_r; reflexivity.
Qed.

Lemma Packets_freed_snoc calls c :
  Packets_freed (calls ++ [c])
  = Packets_freed calls + match c with Call_PacketFree _ => 1 | _ => 0 end.
Proof.
  unfold Packets_freed; rewrite map_app, sumZ_app; simpl; lia.
Qed.

Lemma Rx_allocated_snoc calls c :
  Rx_allocated (calls ++ [c])
  = Rx_allocated calls
    + match c with
      | Call_PacketAllocate_Rx Status => if EFI_ERROR Status then 0 else 1
      | _ => 0
      end.
Proof.
  unfold Rx_allocated; rewrite map_app, sumZ_app; simpl; lia.
Qed.

Lemma Queued_buffers_snoc q p :
  flat_map Packet_buffer (q ++ [p]) = flat_map Packet_buffer q ++ Packet_buffer p.
Proof.
  rewrite flat_map_app; simpl; rewrite app_nil_r; reflexivity.
Qed.

Ltac ledger :=
  simpl; rewrite ?Recycled_snoc, ?Packets_freed_snoc, ?Rx_allocated_snoc;
  simpl; rewrite ?app_nil_r.

(** What [EslIp4RxStart] does to the ledger: it signals no event and frees
    no packet, and a packet it allocates ends up pending or on the free
    list. *)
Lemma RxStart_ledger io s p s' p' :
  EslIp4RxStart io s p = (s', p') ->
  Recycled (Calls s') = Recycled (Calls s)
  /\ Packets_freed (Calls s') = Packets_freed (Calls s)
  /\ Z.of_nat (length (pRxFree s')) + Pending_count p'
     - Rx_allocated (Calls s')
     = Z.of_nat (length (pRxFree s)) + Pending_count p
       - Rx_allocated (Calls s).
Proof.
  unfold EslIp4RxStart, Pending_count; intros H.
  destruct (EFI_ERROR (RxError s)) eqn:He; simpl in H; [inv H; auto|].
  destruct (pReceivePending p) eqn:Hp; simpl in H; [inv H; rewrite Hp; auto|].
  destruct (PORT_STATE_CLOSE_STARTED >? Port_State p);
    [|inv H; rewrite Hp; auto].
  destruct (pRxFree s) as [|pkt free] eqn:Hfree.
  - destruct (EFI_ERROR (io_Allocate io)) eqn:Ha;
      destruct (EFI_ERROR (io_Receive io)) eqn:Hr; simpl in H;
      rewrite ?He in H; simpl in H; inv H; ledger;
      rewrite ?Ha, ?Hp, ?Hfree; simpl; repeat split; lia.
  - destruct (EFI_ERROR (io_Receive io)); simpl in H; rewrite ?He in H;
      inv H; simpl; repeat split; lia.
Qed.

(** What [EslIp4RxComplete] does to the ledger. *)
Lemma RxComplete_ledger io s p s' p' :
  EslIp4RxComplete io s p = Some (s', p') ->
  Z.of_nat (length (pRxFree s')) + Z.of_nat (length (pRxPacketList s'))
  + Pending_count p' + Packets_freed (Calls s') - Rx_allocated (Calls s')
  = Z.of_nat (length (pRxFree s)) + Z.of_nat (length (pRxPacketList s))
    + Pending_count p + Packets_freed (Calls s) - Rx_allocated (Calls s)
  /\ (bRxDisable s = false ->
      Permutation
        (flat_map Packet_buffer (pRxPacketList s') ++ Recycled (Calls s'))
        (flat_map Packet_buffer (pRxPacketList s) ++ Recycled (Calls s)
         ++ if EFI_ERROR (RxToken_Status p) then []
            else match RxToken_RxData p with
                 | Some d => [RecycleSignal d]
                 | None => []
                 end)).
Proof.
  unfold EslIp4RxComplete; intros H.
  destruct (pReceivePending p) as [pkt|] eqn:Hp; [|discriminate].
  assert (Hc : Pending_count p = 1) by (unfold Pending_count; rewrite Hp; auto).
  rewrite Hc; clear Hc.
  cbn [RxToken_Status RxToken_RxData set_pReceivePending Port_State] in H.
  destruct (negb (EFI_ERROR (RxToken_Status p)) && negb (bRxDisable s))
    eqn:Hc.
  - apply andb_prop in Hc; destruct Hc as [He Hb].
    apply negb_true_iff in He; rewrite He.
    destruct (RxToken_RxData p) as [d|] eqn:Hd; [|discriminate].
    destruct (PORT_STATE_CLOSE_STARTED >=? Port_State p).
    + (* queued *)
      assert (Hs : exists s1 p1,
        s1 = set_RxBytes (to_size_t (RxBytes s + RxData_bytes d))
               (set_pRxPacketList (pRxPacketList s ++ [Ip4Rx (Some d)]) s)
        /\ p1 = set_pReceivePending None p
        /\ ((s1, p1) = (s', p') \/ EslIp4RxStart io s1 p1 = (s', p'))).
      { eexists _, _; split; [reflexivity|]; split; [reflexivity|].
        simpl in H; break_if; inv H; auto. }
      destruct Hs as (s1 & p1 & Es & Ep & [E | E]).
      * inv E; ledger; rewrite length_app; simpl.
        split; [unfold Pending_count; simpl; lia|].
        intros _; rewrite Queued_buffers_snoc; simpl.
        rewrite <- !app_assoc; apply Permutation_app_head, Permutation_app_comm.
      * destruct (RxStart_ledger _ _ _ _ _ E) as (L1 & L2 & L3).
        destruct (RxStart_frame _ _ _ _ _ E) as (_ & _ & _ & _ & F & _).
        rewrite L1, L2, F; subst s1 p1; ledger.
        simpl in L3; unfold Pending_count in L3 at 2; simpl in L3.
        rewrite length_app; simpl.
        split; [lia|].
        intros _; rewrite Queued_buffers_snoc; simpl.
        rewrite <- !app_assoc; apply Permutation_app_head, Permutation_app_comm.
    + (* the port is closing: recycled at once *)
      inv H; ledger; unfold Pending_count; simpl.
      split; [lia | intros _; reflexivity].
  - (* the completion failed, or the receive side is disabled *)
    assert (Hs : exists p1,
      (EslSocketPacketFree pkt s, p1) = (s', p')
      \/ (set_RxError (RxToken_Status p) (EslSocketPacketFree pkt s), p1)
         = (s', p')
      \/ (EslSocketPortCloseRxDone (EslSocketPacketFree pkt s), p1) = (s', p')
      \/ (EslSocketPortCloseRxDone
            (set_RxError (RxToken_Status p) (EslSocketPacketFree pkt s)), p1)
         = (s', p')).
    { repeat break_if; inv H; eauto 6. }
    assert (Hq : pReceivePending p' = None) by (repeat break_if; inv H; auto).
    unfold Pending_count; rewrite Hq.
    assert (Hh : bRxDisable s = false ->
                 EFI_ERROR (RxToken_Status p) = true).
    { intros Hb; rewrite Hb, andb_true_r in Hc.
      apply negb_false_iff in Hc; exact Hc. }
    destruct Hs as (p1 & [E | [E | [E | E]]]); inv E; ledger;
      (split; [lia | intros Hb; rewrite (Hh Hb), ?app_nil_r; reflexivity]).
Qed.

(** What [EslIp4Receive] does to the ledger. *)
Lemma Receive_ledger fuel io s Flags B a al r :
  EslIp4Receive fuel io s Flags B a al = Some r ->
  Rx_pool (rr_Socket r) + Packets_freed (Calls (rr_Socket r))
  - Rx_allocated (Calls (rr_Socket r))
  = Rx_pool s + Packets_freed (Calls s) - Rx_allocated (Calls s)
  /\ Permutation
       (Queued_buffers (rr_Socket r) ++ Recycled (Calls (rr_Socket r)))
       (Queued_buffers s ++ Recycled (Calls s))
  /\ bRxDisable (rr_Socket r) = bRxDisable s.
Proof.
  unfold EslIp4Receive, Rx_pool, Queued_buffers; simpl; intros H.
  destruct ((SOCKET_STATE_CONNECTED =? State s)
            || (PORT_STATE_RX_ERROR =? State s)); [|inv H; simpl; auto].
  destruct (pPortList s) as [|p rest] eqn:Hp; [inv H; simpl; rewrite Hp; auto|].
  destruct (pRxPacketList s) as [|pkt q] eqn:Hq.
  - destruct (EFI_ERROR (RxError s)); inv H; simpl; rewrite Hp, Hq; auto.
  - destruct (negb a || negb (is_NULL al));
      [|inv H; simpl; rewrite Hp, Hq; auto].
    destruct pkt as [[d|]|]; try discriminate.
    destruct (Receive_copy fuel d B) as [[L out]|]; [|discriminate].
    destruct (Z.land Flags MSG_PEEK =? 0);
      [|inv H; simpl; rewrite Hp, Hq; auto].
    assert (Hperm : forall R,
      Permutation (flat_map Packet_buffer q ++ R ++ [RecycleSignal d])
        (flat_map Packet_buffer (Ip4Rx (Some d) :: q) ++ R)).
    { intros R; simpl.
      change (RecycleSignal d :: flat_map Packet_buffer q ++ R)
        with ([RecycleSignal d] ++ flat_map Packet_buffer q ++ R).
      rewrite app_assoc; apply Permutation_app_comm. }
    destruct (is_NULL (pReceivePending p) && _).
    + match type of H with
      | context [EslIp4RxStart ?i ?x ?y] =>
          destruct (EslIp4RxStart i x y) as [s1 p1] eqn:E
      end.
      destruct (RxStart_ledger _ _ _ _ _ E) as (L1 & L2 & L3).
      destruct (RxStart_frame _ _ _ _ _ E) as (_ & _ & _ & _ & F & Fb & _).
      inv H; simpl; rewrite L1, L2, F, Fb.
      simpl in L3; revert L3; ledger; intros L3.
      split; [lia|]. split; [apply Hperm | reflexivity].
    + inv H; ledger; rewrite Hp; simpl.
      split; [lia|]. split; [apply Hperm | reflexivity].
Qed.

Lemma Pending_count_set_RxToken St d k p :
  Pending_count (set_RxToken St d (set_Ip4_RxTokens k p)) = Pending_count p.
Proof. reflexivity. Qed.

(** One operation of the receive engine, on the ledger. *)
Lemma Rx_step_ledger op s s' :
  Rx_step op s = Some s' ->
  Rx_pool s' + Packets_freed (Calls s') - Rx_allocated (Calls s')
  = Rx_pool s + Packets_freed (Calls s) - Rx_allocated (Calls s)
  /\ bRxDisable s' = bRxDisable s
  /\ (bRxDisable s = false ->
      Permutation (Queued_buffers s' ++ Recycled (Calls s'))
        (Queued_buffers s ++ Recycled (Calls s) ++ Rx_handed op)).
Proof.
  intros H; destruct op as [n io | n Status RxData io | a]; simpl in H.
  - apply with_port_Some in H.
    destruct H as (p & s1 & p1 & Hn & Hf & ->).
    inv Hf.
    match goal with E : EslIp4RxStart _ _ _ = _ |- _ =>
      destruct (RxStart_ledger _ _ _ _ _ E) as (L1 & L2 & L3);
      destruct (RxStart_frame _ _ _ _ _ E) as (F1 & _ & _ & _ & F2 & F3 & _)
    end.
    unfold Rx_pool, Queued_buffers; simpl.
    rewrite F1, F2, F3, L1, L2, (sumZ_replace_port _ _ _ _ _ Hn), app_nil_r.
    split; [lia|]. split; [reflexivity | intros _; reflexivity].
  - apply with_port_Some in H.
    destruct H as (p & s1 & p1 & Hn & Hf & ->).
    destruct (Ip4_RxTokens p) as [|k]; [discriminate|].
    destruct (RxComplete_ledger _ _ _ _ _ Hf) as (L1 & L2).
    destruct (RxComplete_frame _ _ _ _ _ Hf) as (F1 & _ & _ & F2).
    rewrite Pending_count_set_RxToken in L1.
    unfold Rx_pool, Queued_buffers; simpl.
    rewrite F1, F2, (sumZ_replace_port _ _ _ _ _ Hn).
    split; [lia|]. split; [reflexivity|].
    intros Hb; specialize (L2 Hb); simpl in L2.
    destruct RxData as [d|]; [exact L2|].
    destruct (EFI_ERROR Status); exact L2.
  - unfold Receive_call in H.
    destruct (EslIp4Receive _ _ _ _ _ _ _) as [r|] eqn:E; [|discriminate].
    inv H. destruct (Receive_ledger _ _ _ _ _ _ _ _ E) as (L1 & L2 & L3).
    split; [exact L1|]. split; [exact L3|].
    intros _; simpl; rewrite app_nil_r; exact L2.
Qed.

Lemma Rx_run_ledger ops : forall s s',
  Rx_run ops s = Some s' ->
  Rx_pool s' + Packets_freed (Calls s') - Rx_allocated (Calls s')
  = Rx_pool s + Packets_freed (Calls s) - Rx_allocated (Calls s)
  /\ bRxDisable s' = bRxDisable s
  /\ (bRxDisable s = false ->
      Permutation (Queued_buffers s' ++ Recycled (Calls s'))
        (Queued_buffers s ++ Recycled (Calls s) ++ flat_map Rx_handed ops)).
Proof.
  induction ops as [|op ops IH]; simpl; intros s s' H.
  - inv H; rewrite app_nil_r; auto.
  - destruct (Rx_step op s) as [s1|] eqn:E; [|discriminate].
    destruct (Rx_step_ledger _ _ _ E) as (A1 & A2 & A3).
    destruct (IH _ _ H) as (B1 & B2 & B3).
    split; [lia|]. split; [congruence|].
    intros Hb. rewrite <- A2 in Hb.
    eapply Permutation_trans; [apply (B3 Hb)|].
    rewrite A2 in Hb; specialize (A3 Hb).
    rewrite !app_assoc; apply Permutation_app_tail.
    rewrite <- app_assoc; exact A3.
Qed.

(** X1.  No receive buffer of the IPv4 driver is lost and none is returned
    twice: on a socket whose receive side is not disabled, after every
    sequence of RxStart, receive completions and Receive calls, the
    buffers in the receive queue together with the recycle events
    signalled so far are, up to order, those before the run and the
    buffers of the receives the driver completed without error. *)
Theorem Rx_buffers_conserved (ops : list Rx_op) (s s' : ESL_SOCKET) :
  bRxDisable s = false ->
  Rx_run ops s = Some s' ->
  Permutation (Queued_buffers s' ++ Recycled (Calls s'))
    (Queued_buffers s ++ Recycled (Calls s) ++ flat_map Rx_handed ops).
Proof.
  intros Hb H; destruct (Rx_run_ledger ops s s' H) as (_ & _ & P); auto.
Qed.

(** X2.  The receive packets are accounted for: over every sequence of
    RxStart, receive completions and Receive calls, the packets the socket
    holds (free list, receive queue, pending receives) change by exactly
    the packets obtained from EslSocketPacketAllocate less the packets
    given to EslSocketPacketFree. *)
Theorem Rx_packets_accounted (ops : list Rx_op) (s s' : ESL_SOCKET) :
  Rx_run ops s = Some s' ->
  Rx_pool s' - Rx_pool s
  = (Rx_allocated (Calls s') - Rx_allocated (Calls s))
    - (Packets_freed (Calls s') - Packets_freed (Calls s)).
Proof.
  intros H; destruct (Rx_run_ledger ops s s' H) as (E & _); lia.
Qed.

(** ** What a Receive call delivers *)

(** X3.  A peek consumes nothing: a successful EslIp4Receive with MSG_PEEK
    set changes nothing in the socket but errno, which it clears, and the
    next EslIp4Receive with the same buffer and address arguments, peek or
    not, succeeds and delivers the same length, bytes and address. *)
Theorem Receive_peek_then_read (fuel : nat) (io io2 : RxStart_io)
    (s : ESL_SOCKET) (Flags Flags2 B : Z) (a : bool) (al : option Z)
    (r : Receive_result) :
  Z.land Flags MSG_PEEK <> 0 ->
  EslIp4Receive fuel io s Flags B a al = Some r ->
  rr_Status r = EFI_SUCCESS ->
  rr_Socket r = set_errno errno_0 s
  /\ exists r2,
       EslIp4Receive fuel io2 (rr_Socket r) Flags2 B a al = Some r2
       /\ rr_Status r2 = EFI_SUCCESS
       /\ rr_DataLength r2 = rr_DataLength r
       /\ rr_Buffer r2 = rr_Buffer r
       /\ rr_Address r2 = rr_Address r.
Proof.
  intros Hpeek H HS.
  apply Z.eqb_neq in Hpeek.
  unfold EslIp4Receive in H; simpl in H.
  destruct ((SOCKET_STATE_CONNECTED =? State s)
            || (PORT_STATE_RX_ERROR =? State s)) eqn:Hst;
    [|inv H; discriminate].
  destruct (pPortList s) as [|p rest] eqn:Hp; [inv H; discriminate|].
  destruct (pRxPacketList s) as [|pkt q] eqn:Hq.
  { destruct (EFI_ERROR (RxError s)) eqn:E; inv H; simpl in HS;
      [rewrite HS in E|]; discriminate. }
  destruct (negb a || negb (is_NULL al)) eqn:Ha; [|inv H; discriminate].
  destruct pkt as [[d|]|]; try discriminate.
  destruct (Receive_copy fuel d B) as [[L out]|] eqn:Hc; [|discriminate].
  rewrite Hpeek in H; inv H; simpl.
  split; [reflexivity|].
  unfold EslIp4Receive; simpl; rewrite Hst, Hp, Hq, Ha, Hc.
  destruct (Z.land Flags2 MSG_PEEK =? 0); [|eexists; simpl; eauto].
  destruct (is_NULL (pReceivePending p) && _); [|eexists; simpl; eauto].
  match goal with
  | |- context [EslIp4RxStart ?i ?x ?y] => destruct (EslIp4RxStart i x y)
  end.
  eexists; simpl; eauto.
Qed.

(** X4.  A Receive call that does not succeed delivers nothing and
    consumes nothing: no length, no bytes and no address are handed back,
    and queue, byte counter, free list, ports, state and call log of the
    socket are as before (only errno and the latched receive error may
    change). *)
Theorem Receive_failure_frame (fuel : nat) (io : RxStart_io) (s : ESL_SOCKET)
    (Flags B : Z) (a : bool) (al : option Z) (r : Receive_result) :
  EslIp4Receive fuel io s Flags B a al = Some r ->
  rr_Status r <> EFI_SUCCESS ->
  rr_DataLength r = None /\ rr_Buffer r = [] /\ rr_Address r = None
  /\ pRxPacketList (rr_Socket r) = pRxPacketList s
  /\ RxBytes (rr_Socket r) = RxBytes s
  /\ pRxFree (rr_Socket r) = pRxFree s
  /\ pPortList (rr_Socket r) = pPortList s
  /\ State (rr_Socket r) = State s
  /\ Calls (rr_Socket r) = Calls s.
Proof.
  unfold EslIp4Receive; simpl; intros H HS.
  destruct ((SOCKET_STATE_CONNECTED =? State s)
            || (PORT_STATE_RX_ERROR =? State s));
    [|inv H; simpl; tauto].
  destruct (pPortList s) as [|p rest] eqn:Hp; [inv H; simpl; tauto|].
  destruct (pRxPacketList s) as [|pkt q] eqn:Hq.
  - destruct (EFI_ERROR (RxError s)); inv H; simpl; tauto.
  - destruct (negb a || negb (is_NULL al)); [|inv H; simpl; tauto].
    destruct pkt as [[d|]|]; try discriminate.
    destruct (Receive_copy fuel d B) as [[L out]|]; [|discriminate].
    inv H; simpl in HS; congruence.
Qed.

(** The first [k] bytes of repeated copies of a fragment do not depend on
    the number of copies, once there are [k] of them. *)
Lemma copy_fragments_content frag B :
  frag <> [] ->
  forall fuel L out m,
    L <= B -> (Z.to_nat (B - L) <= fuel)%nat -> (Z.to_nat (B - L) <= m)%nat ->
    copy_fragments fuel frag B L out
    = Some (B, out ++ firstn (Z.to_nat (B - L)) (concat (repeat frag m))).
Proof.
  intros Hf.
  assert (Hlen : (0 < length frag)%nat)
    by (destruct frag; [congruence | simpl; lia]).
  induction fuel as [|fuel IH]; intros L out m HL Hfuel Hm.
  - assert (L = B) by lia; subst L.
    simpl; rewrite Z.gtb_ltb, Z.ltb_irrefl, Z.sub_diag; simpl.
    rewrite app_nil_r; reflexivity.
  - simpl. destruct (B >? L) eqn:Hgt.
    + apply Z.gtb_lt in Hgt.
      destruct m as [|m]; [lia|].
      simpl; rewrite firstn_app.
      destruct (B - L <? Z.of_nat (length frag)) eqn:Hlt.
      * apply Z.ltb_lt in Hlt.
        rewrite (IH _ _ m) by lia.
        replace (B - (L + (B - L))) with 0 by lia.
        replace (Z.to_nat (B - L) - length frag)%nat with 0%nat by lia.
        simpl; rewrite !app_nil_r; reflexivity.
      * apply Z.ltb_ge in Hlt.
        rewrite (IH _ _ m) by lia.
        rewrite Nat2Z.id, firstn_all, <- app_assoc.
        rewrite (firstn_all2 frag) by lia.
        replace (Z.to_nat (B - (L + Z.of_nat (length frag))))
          with (Z.to_nat (B - L) - length frag)%nat by lia.
        reflexivity.
    + rewrite Z.gtb_ltb in Hgt; apply Z.ltb_ge in Hgt.
      assert (L = B) by lia; subst L.
      rewrite Z.sub_diag; simpl; rewrite app_nil_r; reflexivity.
Qed.

(** X5.  What EslIp4Receive copies to the caller: for a datagram as the
    driver builds it, whose header memory holds HeaderLength bytes, the
    copy returns the smaller of the buffer length and the datagram length,
    and the bytes are that many of the header followed by copies of the
    first fragment; the other fragments of FragmentTable are never read.
    When the first fragment holds all DataLength bytes, these are the
    first bytes of header and data. *)
Theorem Receive_copy_content (d : EFI_IP4_RECEIVE_DATA) (B : Z) (fuel : nat) :
  RxData_ok d ->
  length (Header_bytes d) = Z.to_nat (HeaderLength d) ->
  0 <= B -> (Z.to_nat B <= fuel)%nat ->
  Receive_copy fuel d B
  = Some (Z.min B (RxData_length d),
          firstn (Z.to_nat B)
            (Header_bytes d
             ++ firstn (Z.to_nat (DataLength d))
                  (concat (repeat (nth 0 (FragmentTable d) [])
                             (Z.to_nat (DataLength d))))))
  /\ (length (nth 0 (FragmentTable d) []) = Z.to_nat (DataLength d) ->
      Receive_copy fuel d B
      = Some (Z.min B (RxData_length d),
              firstn (Z.to_nat B)
                (Header_bytes d ++ nth 0 (FragmentTable d) []))).
Proof.
  intros Hd Hh HB Hfuel.
  set (frag := nth 0 (FragmentTable d) []).
  assert (Hmain : Receive_copy fuel d B
    = Some (Z.min B (RxData_length d),
            firstn (Z.to_nat B)
              (Header_bytes d
               ++ firstn (Z.to_nat (DataLength d))
                    (concat (repeat frag (Z.to_nat (DataLength d))))))).
  { unfold Receive_copy, RxData_length; fold frag.
    rewrite (RxData_bytes_ok d Hd).
    destruct Hd as (H1 & H2 & H3 & H4); fold frag in H4.
    set (B' := if HeaderLength d + DataLength d <? B
               then HeaderLength d + DataLength d else B).
    assert (HB' : B' = Z.min B (HeaderLength d + DataLength d)).
    { unfold B'; destruct (Z.ltb_spec (HeaderLength d + DataLength d) B); lia. }
    set (Hb := if HeaderLength d >? B' then B' else HeaderLength d).
    assert (HHb : Hb = Z.min (HeaderLength d) B').
    { unfold Hb; rewrite Z.gtb_ltb;
        destruct (Z.ltb_spec B' (HeaderLength d)); lia. }
    rewrite <- HB', firstn_app, Hh, firstn_firstn.
    destruct (Z.eq_dec Hb B') as [E | E].
    - rewrite E.
      replace (copy_fragments fuel frag B' B'
                 (firstn (Z.to_nat B') (Header_bytes d)))
        with (Some (B', firstn (Z.to_nat B') (Header_bytes d)))
        by (destruct fuel; simpl; rewrite Z.gtb_ltb, Z.ltb_irrefl; reflexivity).
      destruct (Z.le_gt_cases B (HeaderLength d)).
      + replace B' with B by lia.
        replace (Z.to_nat B - Z.to_nat (HeaderLength d))%nat with 0%nat by lia.
        simpl; rewrite app_nil_r; reflexivity.
      + assert (DataLength d = 0) by lia.
        replace (Nat.min (Z.to_nat B - Z.to_nat (HeaderLength d))
                   (Z.to_nat (DataLength d))) with 0%nat by lia.
        simpl; rewrite app_nil_r.
        rewrite !firstn_all2 by lia; reflexivity.
    - assert (Hb = HeaderLength d) by lia.
      rewrite (copy_fragments_content frag B') with (m := Z.to_nat (DataLength d));
        try lia; [|apply H4; lia].
      rewrite (firstn_all2 (n := Z.to_nat Hb)) by lia.
      rewrite (firstn_all2 (n := Z.to_nat B)) by lia.
      replace (Z.to_nat (B' - Hb))
        with (Nat.min (Z.to_nat B - Z.to_nat (HeaderLength d))
                (Z.to_nat (DataLength d))) by lia.
      reflexivity. }
  split; [exact Hmain|].
  intros Hfrag; rewrite Hmain; repeat f_equal.
  destruct (Z.to_nat (DataLength d)) as [|n] eqn:Hn.
  - destruct frag; [reflexivity | discriminate].
  - rewrite ?Hn in Hfrag; cbn [repeat concat].
    rewrite firstn_app, Hfrag, Nat.sub_diag, firstn_O, app_nil_r, <- Hfrag.
    apply firstn_all.
Qed.





(** ** Datagrams that are dropped or freed *)


Lemma PortClosePacketFree_all_spec queue : forall RxBytes0,
  Forall Rx_packet_ok queue ->
  exists RxBytes1,
    PortClosePacketFree_all queue RxBytes0
    = Some (RxBytes1, flat_map Packet_buffer queue)
    /\ to_size_t RxBytes1
       = to_size_t (RxBytes0
                    - (sumZ (map Rx_packet_bytes queue)
                       - sumZ (map Rx_packet_header queue)))
    /\ (queue <> [] -> to_size_t RxBytes1 = RxBytes1).
Proof.
  induction queue as [|pkt q IH]; intros R Hq.
  - exists R; simpl; repeat split; [f_equal; lia | congruence].
  - inversion Hq as [|? ? Hpkt Hq']; subst.
    destruct pkt as [[d|]|]; try contradiction.
    cbn [PortClosePacketFree_all EslIp4PortClosePacketFree].
    cbn [map flat_map Packet_buffer Rx_packet_bytes Rx_packet_header].
    rewrite (RxData_bytes_ok d Hpkt).
    destruct (IH (to_size_t (R - DataLength d)) Hq') as (R1 & E & E1 & E2).
    rewrite E; exists R1; split; [reflexivity|].
    rewrite to_size_t_sub_l in E1.
    split.
    + rewrite E1; cbn [sumZ fold_right]; f_equal; unfold sumZ; lia.
    + intros _; destruct q as [|pkt' q']; [|apply E2; discriminate].
      simpl in E; inv E.
      unfold to_size_t; apply Z.mod_mod; lia.
Qed.

(** X8.  Freeing the queued datagrams at close leaves the header bytes in
    the counter: EslIp4RxComplete adds HeaderLength + DataLength for every
    datagram it queues, EslIp4PortClosePacketFree subtracts DataLength
    only.  Starting from a counter that accounts for the queue, running it
    on every queued packet signals each recycle event once, in queue
    order, and ends with the sum of the header lengths in the counter. *)
Theorem PortClosePacketFree_leaves_headers (s : ESL_SOCKET) :
  Rx_accounted s ->
  Forall Rx_packet_ok (pRxPacketList s) ->
  PortClosePacketFree_all (pRxPacketList s) (RxBytes s)
  = Some (to_size_t (sumZ (map Rx_packet_header (pRxPacketList s))),
          Queued_buffers s).
Proof.
  intros Ha Hq.
  destruct (PortClosePacketFree_all_spec _ (RxBytes s) Hq) as (R1 & E & E1 & E2).
  rewrite E; unfold Queued_buffers; f_equal; f_equal.
  rewrite Ha, to_size_t_sub_l in E1.
  destruct (pRxPacketList s) as [|pkt q] eqn:Hl.
  - simpl in E; inv E; rewrite Ha, Hl; reflexivity.
  - rewrite <- E2 by discriminate.
    rewrite E1; f_equal; lia.
Qed.

End ReceiveLedger.

Section ReceiveLedgerExamples.

#[local] Existing Instance Socket_h_example.

(** Two datagrams arrive on [ex_socket] and the first is read: the buffer
    of the second is in the queue, that of the first went back to the
    driver. *)
Lemma Rx_buffers_conserved_witness :
  exists s',
    Rx_run ex_traffic ex_socket = Some s'
    /\ Queued_buffers s' = [9%nat] /\ Recycled (Calls s') = [7%nat]
    /\ Permutation (Queued_buffers s' ++ Recycled (Calls s'))
         (Queued_buffers ex_socket ++ Recycled (Calls ex_socket)
          ++ flat_map Rx_handed ex_traffic).
Proof.
  run_to E (Rx_run ex_traffic ex_socket).
  eexists; split; [exact E|].
  split; [reflexivity|]. split; [reflexivity|].
  apply (Rx_buffers_conserved ex_traffic ex_socket _ eq_refl E).
Defined.

Lemma Rx_packets_accounted_witness :
  exists s',
    Rx_run ex_traffic ex_socket = Some s'
    /\ Rx_pool ex_socket = 1 /\ Rx_pool s' = 3
    /\ Rx_pool s' - Rx_pool ex_socket
       = (Rx_allocated (Calls s') - Rx_allocated (Calls ex_socket))
         - (Packets_freed (Calls s') - Packets_freed (Calls ex_socket)).
Proof.
  run_to E (Rx_run ex_traffic ex_socket).
  eexists; split; [exact E|].
  split; [reflexivity|]. split; [reflexivity|].
  apply (Rx_packets_accounted ex_traffic ex_socket _ E).
Defined.

(** A peek at the datagram that arrived, then a plain read. *)
Lemma Receive_peek_then_read_witness :
  exists s1 r r2,
    Rx_run ex_arrival ex_socket = Some s1
    /\ Z.land 2 MSG_PEEK <> 0
    /\ EslIp4Receive 200 io_ok s1 2 200 true (Some 16) = Some r
    /\ rr_Status r = EFI_SUCCESS
    /\ rr_Socket r = set_errno errno_0 s1
    /\ EslIp4Receive 200 io_ok (rr_Socket r) 0 200 true (Some 16) = Some r2
    /\ rr_DataLength r2 = Some 140
    /\ rr_Buffer r2 = rr_Buffer r.
Proof.
  run_to E1 (Rx_run ex_arrival ex_socket).
  assert (Hpeek : Z.land 2 MSG_PEEK <> 0) by (simpl; discriminate).
  match type of E1 with
  | _ = Some ?s1 =>
      run_to E2 (EslIp4Receive 200 io_ok s1 2 200 true (Some 16))
  end.
  match type of E2 with
  | _ = Some ?r =>
      assert (HS : rr_Status r = EFI_SUCCESS) by reflexivity;
      destruct (Receive_peek_then_read 200 io_ok io_ok _ 2 0 200 true
                  (Some 16) r Hpeek E2 HS)
        as (A & r2 & B & _ & C & D & _)
  end.
  eexists _, _, r2.
  split; [exact E1|]. split; [exact Hpeek|]. split; [exact E2|].
  split; [reflexivity|]. split; [exact A|]. split; [exact B|].
  split; [rewrite C; reflexivity | exact D].
Defined.

(** A read on [ex_socket], whose queue is empty. *)
Lemma Receive_failure_frame_witness :
  exists r,
    EslIp4Receive 200 io_ok ex_socket 0 200 true (Some 16) = Some r
    /\ rr_Status r = EFI_NOT_READY
    /\ rr_Buffer r = []
    /\ pRxPacketList (rr_Socket r) = pRxPacketList ex_socket
    /\ pPortList (rr_Socket r) = pPortList ex_socket
    /\ Calls (rr_Socket r) = Calls ex_socket.
Proof.
  run_to E (EslIp4Receive 200 io_ok ex_socket 0 200 true (Some 16)).
  match type of E with
  | _ = Some ?r =>
      assert (HS : rr_Status r <> EFI_SUCCESS) by discriminate;
      destruct (Receive_failure_frame 200 io_ok ex_socket 0 200 true
                  (Some 16) r E HS)
        as (_ & A & _ & B & _ & _ & C & _ & D)
  end.
  eexists; split; [exact E|].
  split; [reflexivity|]. split; [exact A|]. split; [exact B|].
  split; [exact C | exact D].
Defined.

(** The first 50 bytes of the example datagram: its 40 header bytes and
    10 bytes of data. *)
Lemma Receive_copy_content_witness :
  Receive_copy 50 (ex_datagram 7) 50
  = Some (50, repeat 69 40 ++ repeat 7 10).
Proof.
  destruct (Receive_copy_content (ex_datagram 7) 50 50) as [_ H];
    [apply ex_datagram_ok | reflexivity | lia | simpl; lia |].
  rewrite H by reflexivity.
  vm_compute; reflexivity.
Defined.



(** Two datagrams of 40 header bytes and 100 data bytes each are queued
    on [ex_socket] and freed at close: 80 bytes stay in the counter. *)
Lemma PortClosePacketFree_leaves_headers_witness :
  exists s1,
    Rx_run (Rx_completions 0 ex_two) ex_socket = Some s1
    /\ RxBytes s1 = 280
    /\ PortClosePacketFree_all (pRxPacketList s1) (RxBytes s1)
       = Some (80, [7%nat; 9%nat]).
Proof.
  run_to E (Rx_run (Rx_completions 0 ex_two) ex_socket).
  match type of E with
  | _ = Some ?s1 =>
      assert (Ha : Rx_accounted s1) by (vm_compute; reflexivity);
      assert (Hq : Forall Rx_packet_ok (pRxPacketList s1))
        by (repeat (apply Forall_cons; [apply ex_datagram_ok|]);
            apply Forall_nil);
      pose proof (PortClosePacketFree_leaves_headers s1 Ha Hq) as H
  end.
  eexists; split; [exact E|]. split; [reflexivity|].
  rewrite H; vm_compute; reflexivity.
Defined.

End ReceiveLedgerExamples.

Section TransmitOrder.

Context {h : Socket_h}.

(** ** Order and content of the transmitted packets *)

Lemma Tx_sent_snoc calls c :
  Tx_sent (calls ++ [c])
  = Tx_sent calls
    ++ match c with Call_Ip4_Transmit p _ => [p] | _ => [] end.
Proof.
  unfold Tx_sent; rewrite flat_map_app; simpl; rewrite app_nil_r; reflexivity.
Qed.

(** The transmit pump moves the head of the queue to the driver. *)
Lemma TxStart_order st s p s' p' :
  EslSocketTxStart st s p = (s', p') ->
  Tx_sent (Calls s') ++ pTxPacketList s'
  = Tx_sent (Calls s) ++ pTxPacketList s
  /\ DestinationAddress p' = DestinationAddress p
  /\ pPortList s' = pPortList s /\ TxError s' = TxError s
  /\ errno s' = errno s.
Proof.
  unfold EslSocketTxStart; intros H.
  destruct (pTxPacketList s) as [|pkt q] eqn:Hq; [inv H; rewrite Hq; auto|].
  destruct (pTxFree p) as [|pIo free]; [inv H; rewrite Hq; auto|].
  inv H; simpl; rewrite Tx_sent_snoc, <- app_assoc; auto.
Qed.

(** A successful [EslIp4TxBuffer]. *)
Lemma TxBuffer_success io s Flags B buf addr len St n s' :
  EslIp4TxBuffer io s Flags B buf addr len = (St, n, s') ->
  EFI_ERROR St = false ->
  exists p rest d,
    pPortList s = p :: rest /\ n = B
    /\ Tx_sent (Calls s') ++ pTxPacketList s'
       = (Tx_sent (Calls s) ++ pTxPacketList s) ++ [Ip4Tx d]
    /\ Tx_Buffer d = firstn (Z.to_nat B) buf
    /\ TxData_TotalDataLength d = to_UINT32 B
    /\ TxData_DestinationAddress d
       = match addr with
         | Some a => bytes_of_UINT32 (sin_addr a)
         | None => DestinationAddress p
         end
    /\ (addr = None -> TxData_OverrideData d = None)
    /\ map DestinationAddress (pPortList s')
       = map DestinationAddress (pPortList s)
    /\ TxBytes s' = to_size_t (TxBytes s + B)
    /\ errno s' = ENOTCONN.
Proof.
  unfold EslIp4TxBuffer; simpl; intros H HS.
  destruct (SOCKET_STATE_CONNECTED =? State s); [|inv H; discriminate].
  destruct (pPortList s) as [|p rest] eqn:Hp; [inv H; discriminate|].
  destruct (MaxTxBuf s >? TxBytes s); [|inv H; discriminate].
  destruct (EFI_ERROR (io_TxAllocate io)) eqn:Ha; simpl in H;
    [inv H; congruence|].
  destruct (EFI_ERROR (TxError s)) eqn:He; simpl in H;
    [inv H; congruence|].
  exists p, rest.
  destruct (pTxFree p) as [|pIo free] eqn:Hfree.
  - inv H; eexists; simpl.
    rewrite Tx_sent_snoc, ?Hp, app_nil_r, app_assoc.
    repeat split; try reflexivity.
    destruct addr; [discriminate | reflexivity].
  - match type of H with
    | context [EslSocketTxStart ?st ?x ?y] =>
        destruct (EslSocketTxStart st x y) as [s1 p1] eqn:E
    end.
    destruct (TxStart_order _ _ _ _ _ E) as (O1 & O2 & O3 & O4 & O5).
    inv H; eexists; simpl.
    rewrite O1; simpl; rewrite Tx_sent_snoc, ?Hp, ?O2, app_nil_r, app_assoc.
    assert (T : TxBytes s1 = to_size_t (TxBytes s + n)).
    { unfold EslSocketTxStart in E; simpl in E; rewrite Hfree in E.
      destruct (pTxPacketList s); inv E; reflexivity. }
    repeat split; try reflexivity; auto.
    destruct addr; [discriminate | reflexivity].
Qed.

(** A failed [EslIp4TxBuffer]. *)
Lemma TxBuffer_failure io s Flags B buf addr len St n s' :
  EslIp4TxBuffer io s Flags B buf addr len = (St, n, s') ->
  EFI_ERROR St = true ->
  n = 0 /\ pTxPacketList s' = pTxPacketList s /\ TxBytes s' = TxBytes s
  /\ pPortList s' = pPortList s /\ TxError s' = TxError s
  /\ State s' = State s
  /\ Tx_sent (Calls s') = Tx_sent (Calls s).
Proof.
  unfold EslIp4TxBuffer; simpl; intros H HS.
  destruct (SOCKET_STATE_CONNECTED =? State s); [|inv H; simpl; tauto].
  destruct (pPortList s) as [|p rest] eqn:Hp; [inv H; simpl; tauto|].
  destruct (MaxTxBuf s >? TxBytes s); [|inv H; simpl; tauto].
  destruct (EFI_ERROR (io_TxAllocate io)) eqn:Ha; simpl in H.
  - inv H; simpl; rewrite Tx_sent_snoc, app_nil_r; tauto.
  - destruct (EFI_ERROR (TxError s)) eqn:He; simpl in H.
    + inv H; simpl; rewrite !Tx_sent_snoc, !app_nil_r; tauto.
    + exfalso.
      destruct (pTxFree p);
        [|destruct (EslSocketTxStart _ _ _)]; inv H; congruence.
Qed.

Lemma Tx_step_order op s s' :
  Tx_step op s = Some s' ->
  exists l,
    Tx_sent (Calls s') ++ pTxPacketList s'
    = (Tx_sent (Calls s) ++ pTxPacketList s) ++ l.
Proof.
  destruct op as [io Flags B buf addr len | n k St Tst]; simpl; intros H.
  - inv H.
    destruct (EslIp4TxBuffer io s Flags B buf addr len) as [[St n] s'] eqn:E.
    simpl. destruct (EFI_ERROR St) eqn:HS.
    + destruct (TxBuffer_failure _ _ _ _ _ _ _ _ _ _ E HS)
        as (_ & A & _ & _ & _ & _ & B').
      exists []; rewrite A, B', app_nil_r; reflexivity.
    + destruct (TxBuffer_success _ _ _ _ _ _ _ _ _ _ E HS)
        as (p & rest & d & _ & _ & A & _).
      exists [Ip4Tx d]; exact A.
  - apply with_port_Some in H.
    destruct H as (p & s1 & p1 & Hn & Hf & ->); simpl.
    unfold EslIp4TxComplete in Hf.
    destruct (nth_error _ k) as [pIo|] eqn:Hk; [|discriminate].
    destruct (pPacket pIo) as [[|d]|] eqn:Hpkt; try discriminate.
    inv Hf. unfold EslSocketTxComplete in *.
    match goal with
    | H : context [nth_error ?l k] |- _ => rewrite Hk in H
    end.
    match goal with
    | H : EslSocketTxStart _ _ _ = _ |- _ =>
        destruct (TxStart_order _ _ _ _ _ H) as (O1 & _)
    end.
    exists []; rewrite O1, app_nil_r, Hpkt; simpl.
    rewrite Tx_sent_snoc, app_nil_r.
    destruct (EFI_ERROR (Token_Ip4Tx_Status pIo)
              && negb (EFI_ERROR (TxError s))); reflexivity.
Qed.

(** X9.  Packets leave in the order they were buffered: over every
    sequence of EslIp4TxBuffer calls and transmit completions, the packets
    handed to the driver's Transmit followed by the packets still queued
    form a sequence that only grows at its end.  No queued packet is
    dropped, overtaken or sent twice. *)
Theorem Tx_order_preserved (ops : list Tx_op) : forall s s' : ESL_SOCKET,
  Tx_run ops s = Some s' ->
  exists l,
    Tx_sent (Calls s') ++ pTxPacketList s'
    = (Tx_sent (Calls s) ++ pTxPacketList s) ++ l.
Proof.
  induction ops as [|op ops IH]; simpl; intros s s' H.
  - inv H; exists []; rewrite app_nil_r; reflexivity.
  - destruct (Tx_step op s) as [s1|] eqn:E; [|discriminate].
    destruct (Tx_step_order _ _ _ E) as (l1 & H1).
    destruct (IH _ _ H) as (l2 & H2).
    exists (l1 ++ l2); rewrite H2, H1, app_assoc; reflexivity.
Qed.

(** X10.  What a successful EslIp4TxBuffer buffers: it reports
    BufferLength bytes, adds them to the transmit counter and appends one
    packet behind everything sent or queued so far; the packet holds the
    first BufferLength bytes of the caller's buffer and is addressed to
    the four bytes of the given address or, without one, to the
    destination of the first port, with no override data.  The
    destinations of the ports are unchanged, and errno is left at
    ENOTCONN. *)
Theorem TxBuffer_buffers_packet (io : TxBuffer_io) (s s' : ESL_SOCKET)
    (Flags B len n : Z) (buf : list Z) (addr : option sockaddr_in)
    (St : EFI_STATUS) :
  EslIp4TxBuffer io s Flags B buf addr len = (St, n, s') ->
  EFI_ERROR St = false ->
  exists p rest d,
    pPortList s = p :: rest /\ n = B
    /\ Tx_sent (Calls s') ++ pTxPacketList s'
       = (Tx_sent (Calls s) ++ pTxPacketList s) ++ [Ip4Tx d]
    /\ Tx_Buffer d = firstn (Z.to_nat B) buf
    /\ TxData_TotalDataLength d = to_UINT32 B
    /\ TxData_DestinationAddress d
       = match addr with
         | Some a => bytes_of_UINT32 (sin_addr a)
         | None => DestinationAddress p
         end
    /\ (addr = None -> TxData_OverrideData d = None)
    /\ map DestinationAddress (pPortList s')
       = map DestinationAddress (pPortList s)
    /\ TxBytes s' = to_size_t (TxBytes s + B)
    /\ errno s' = ENOTCONN.
Proof. apply TxBuffer_success. Qed.

(** X11.  A failed EslIp4TxBuffer buffers nothing: whatever the reason
    (socket not connected, no port, counter at its maximum, allocation
    failure, latched transmit error), it reports 0 bytes, and the transmit
    queue, the counter, the ports, the latched error and the packets
    handed to the driver are as before. *)
Theorem TxBuffer_failure_frame (io : TxBuffer_io) (s s' : ESL_SOCKET)
    (Flags B len n : Z) (buf : list Z) (addr : option sockaddr_in)
    (St : EFI_STATUS) :
  EslIp4TxBuffer io s Flags B buf addr len = (St, n, s') ->
  EFI_ERROR St = true ->
  n = 0 /\ pTxPacketList s' = pTxPacketList s /\ TxBytes s' = TxBytes s
  /\ pPortList s' = pPortList s /\ TxError s' = TxError s
  /\ State s' = State s
  /\ Tx_sent (Calls s') = Tx_sent (Calls s).
Proof. apply TxBuffer_failure. Qed.

(** X12.  Connect, then send: after EslIp4Connect to a remote address, a
    successful EslIp4TxBuffer without an address buffers a packet for the
    four bytes of that remote address; with an address of its own it
    buffers a packet for that address instead, and the ports keep the
    connected destination. *)
Theorem Connect_then_send
    (EslSocketBind : ESL_SOCKET -> sockaddr_in -> Z -> EFI_STATUS * ESL_SOCKET)
    (s0 s' : ESL_SOCKET) (a : sockaddr_in) (len0 : Z) (io : TxBuffer_io)
    (Flags B len n : Z) (buf : list Z) (addr : option sockaddr_in)
    (St : EFI_STATUS) :
  sizeof_sockaddr_in - sizeof_sin_zero <= len0 ->
  EslIp4TxBuffer io (snd (EslIp4Connect EslSocketBind s0 a len0)) Flags B buf
    addr len = (St, n, s') ->
  EFI_ERROR St = false ->
  exists d,
    Tx_sent (Calls s') ++ pTxPacketList s'
    = (Tx_sent (Calls (snd (EslIp4Connect EslSocketBind s0 a len0)))
       ++ pTxPacketList (snd (EslIp4Connect EslSocketBind s0 a len0)))
      ++ [Ip4Tx d]
    /\ TxData_DestinationAddress d
       = bytes_of_UINT32 (sin_addr match addr with Some b => b | None => a end)
    /\ Forall (fun p => DestinationAddress p = bytes_of_UINT32 (sin_addr a))
         (pPortList s').
Proof.
  intros Hlen H HS.
  destruct (TxBuffer_success _ _ _ _ _ _ _ _ _ _ H HS)
    as (p & rest & d & Hp & _ & A & _ & _ & B' & _ & C & _).
  destruct (Connect_destinations EslSocketBind s0 a len0 Hlen) as [_ Hd].
  exists d; split; [exact A|]. split.
  - rewrite B'; destruct addr; [reflexivity|].
    rewrite Hp in Hd; inversion Hd; auto.
  - apply Forall_forall; intros x Hx.
    apply (in_map DestinationAddress) in Hx; rewrite C in Hx.
    apply in_map_iff in Hx; destruct Hx as (y & <- & Hy).
    eapply Forall_forall in Hd; eauto.
Qed.

End TransmitOrder.

Section TransmitOrderExamples.

#[local] Existing Instance Socket_h_example.

(** The three sends of [ex_sends] reach the driver in the order 64, 1000
    and 10 bytes. *)
Lemma Tx_order_preserved_witness :
  exists s' l,
    Tx_run ex_sends ex_socket = Some s'
    /\ map Tx_length (Tx_sent (Calls s')) = [64; 1000; 10]
    /\ Tx_sent (Calls s') ++ pTxPacketList s'
       = (Tx_sent (Calls ex_socket) ++ pTxPacketList ex_socket) ++ l.
Proof.
  run_to E (Tx_run ex_sends ex_socket).
  destruct (Tx_order_preserved ex_sends ex_socket _ E) as (l & H).
  eexists _, l; split; [exact E|]. split; [reflexivity | exact H].
Defined.

(** A send of 64 bytes on [ex_socket], taken from a buffer of 100. *)
Lemma TxBuffer_buffers_packet_witness :
  exists St s' d,
    EslIp4TxBuffer tx_io_ok ex_socket 0 64 (repeat 1 100) None 0
    = (St, 64, s')
    /\ EFI_ERROR St = false
    /\ Tx_sent (Calls s') ++ pTxPacketList s' = [Ip4Tx d]
    /\ Tx_Buffer d = repeat 1 64
    /\ errno s' = ENOTCONN.
Proof.
  destruct (EslIp4TxBuffer tx_io_ok ex_socket 0 64 (repeat 1 100) None 0)
    as [[St n] s'] eqn:E.
  assert (HS : EFI_ERROR St = false) by (vm_compute in E; inv E; reflexivity).
  destruct (TxBuffer_buffers_packet tx_io_ok ex_socket s' 0 64 0 n
              (repeat 1 100) None St E HS)
    as (p & rest & d & _ & -> & A & B & _ & _ & _ & _ & _ & C).
  exists St, s', d.
  split; [reflexivity|]. split; [exact HS|]. split; [exact A|].
  split; [exact B | exact C].
Defined.

(** A send on [ex_tx_full], whose counter is at the maximum. *)
Lemma TxBuffer_failure_frame_witness :
  exists St n s',
    EslIp4TxBuffer tx_io_ok ex_tx_full 0 64 (repeat 1 64) None 0 = (St, n, s')
    /\ EFI_ERROR St = true
    /\ n = 0
    /\ pTxPacketList s' = pTxPacketList ex_tx_full
    /\ TxBytes s' = TxBytes ex_tx_full.
Proof.
  destruct (EslIp4TxBuffer tx_io_ok ex_tx_full 0 64 (repeat 1 64) None 0)
    as [[St n] s'] eqn:E.
  assert (HS : EFI_ERROR St = true) by (vm_compute in E; inv E; reflexivity).
  destruct (TxBuffer_failure_frame tx_io_ok ex_tx_full s' 0 64 0 n
              (repeat 1 64) None St E HS) as (A & B & C & _).
  exists St, n, s'.
  split; [reflexivity|]. split; [exact HS|]. split; [exact A|].
  split; [exact B | exact C].
Defined.

(** [ex_socket] is connected to 10.1.2.3; a send without an address goes
    there. *)
Lemma Connect_then_send_witness :
  exists St n s' d,
    sizeof_sockaddr_in - sizeof_sin_zero <= 16
    /\ EslIp4TxBuffer tx_io_ok
         (snd (EslIp4Connect (EslSocketBind_Ip4 [ex_service]) ex_socket
                 ex_remote 16))
         0 64 (repeat 1 64) None 0 = (St, n, s')
    /\ EFI_ERROR St = false
    /\ Tx_sent (Calls s') ++ pTxPacketList s' = [Ip4Tx d]
    /\ TxData_DestinationAddress d
       = {| Addr0 := 10; Addr1 := 1; Addr2 := 2; Addr3 := 3 |}.
Proof.
  assert (Hlen : sizeof_sockaddr_in - sizeof_sin_zero <= 16) by (simpl; lia).
  destruct (EslIp4TxBuffer tx_io_ok
              (snd (EslIp4Connect (EslSocketBind_Ip4 [ex_service]) ex_socket
                      ex_remote 16))
              0 64 (repeat 1 64) None 0) as [[St n] s'] eqn:E.
  assert (HS : EFI_ERROR St = false) by (vm_compute in E; inv E; reflexivity).
  destruct (Connect_then_send (EslSocketBind_Ip4 [ex_service]) ex_socket s'
              ex_remote 16 tx_io_ok 0 64 0 n (repeat 1 64) None St Hlen E HS)
    as (d & A & B & _).
  exists St, n, s', d.
  split; [exact Hlen|]. split; [reflexivity|]. split; [exact HS|].
  split; [exact A | exact B].
Defined.

End TransmitOrderExamples.

Section BindPorts.

Context {h : Socket_h}.

(** ** The ports [EslIp4Bind] creates *)

Lemma Children_created_snoc calls c :
  Children_created (calls ++ [c])
  = Children_created calls
    + match c with
      | Call_CreateChild Status => if EFI_ERROR Status then 0 else 1
      | _ => 0
      end.
Proof.
  unfold Children_created; rewrite map_app, sumZ_app; simpl; lia.
Qed.

Lemma Children_destroyed_snoc calls c :
  Children_destroyed (calls ++ [c])
  = Children_destroyed calls
    + match c with Call_DestroyChild => 1 | _ => 0 end.
Proof.
  unfold Children_destroyed; rewrite map_app, sumZ_app; simpl; lia.
Qed.

(** The port is bound to the address it was asked for: the wildcard
    address is the address of four zero bytes. *)
Lemma PortAllocate_ConfigData_station s ip :
  StationAddress (PortAllocate_ConfigData s ip) = ip.
Proof.
  unfold PortAllocate_ConfigData; cbn [StationAddress].
  destruct ip as [a0 a1 a2 a3]; cbn [Addr0 Addr1 Addr2 Addr3].
  destruct (0 =? a0) eqn:E0; [|reflexivity].
  destruct (0 =? a1) eqn:E1; [|reflexivity].
  destruct (0 =? a2) eqn:E2; [|reflexivity].
  destruct (0 =? a3) eqn:E3; [|reflexivity].
  apply Z.eqb_eq in E0, E1, E2, E3; subst; reflexivity.
Qed.

(** One round of the walk over the services. *)
Lemma Bind_services_cons svc l ip St s :
  exists s1,
    Bind_services (svc :: l) ip St s = Bind_services l ip (Service_status svc) s1
    /\ Children_created (Calls s1) - Children_destroyed (Calls s1)
       = Children_created (Calls s) - Children_destroyed (Calls s)
         + (if Service_up svc then 1 else 0)
    /\ if Service_up svc then
         exists p,
           pPortList s1 = p :: pPortList s
           /\ StationAddress (ConfigData p) = ip
           /\ pReceivePending p = None /\ Ip4_RxTokens p = 0%nat
           /\ DestinationAddress p = Ip4_zero
           /\ length (pTxFree p) = TxIoNormal svc
       else pPortList s1 = pPortList s.
Proof.
  unfold Service_up, Service_status; cbn [Bind_services].
  destruct (EFI_ERROR (svc_CreateChild svc)) eqn:E1; cbn [negb andb].
  { eexists; split; [reflexivity|]; simpl.
    rewrite Children_created_snoc, Children_destroyed_snoc, E1; simpl.
    split; [lia | reflexivity]. }
  unfold EslIp4PortAllocate.
  destruct (EFI_ERROR (svc_AllocatePool svc)) eqn:E2; cbn [negb andb].
  { rewrite E2; eexists; split; [reflexivity|]; simpl.
    rewrite !Children_created_snoc, !Children_destroyed_snoc, E1; simpl.
    split; [lia | reflexivity]. }
  destruct (EFI_ERROR (svc_CreateEvent svc)) eqn:E3; cbn [negb andb].
  { rewrite E3; eexists; split; [reflexivity|]; simpl.
    rewrite !Children_created_snoc, !Children_destroyed_snoc, E1; simpl.
    split; [lia | reflexivity]. }
  destruct (EFI_ERROR (svc_IoInit svc)) eqn:E4; cbn [negb andb].
  { rewrite E4; eexists; split; [reflexivity|]; simpl.
    rewrite !Children_created_snoc, !Children_destroyed_snoc, E1; simpl.
    split; [lia | reflexivity]. }
  destruct (EFI_ERROR (svc_OpenProtocol svc)) eqn:E5; cbn [negb andb].
  { rewrite E5; eexists; split; [reflexivity|]; simpl.
    rewrite !Children_created_snoc, !Children_destroyed_snoc, E1; simpl.
    split; [lia | reflexivity]. }
  rewrite E5; eexists; split; [reflexivity|]; simpl.
  rewrite !Children_created_snoc, !Children_destroyed_snoc, E1; simpl.
  split; [lia|].
  eexists; split; [reflexivity|].
  cbn [ConfigData pReceivePending Ip4_RxTokens DestinationAddress pTxFree].
  rewrite PortAllocate_ConfigData_station.
  unfold EslSocketIoInit; rewrite repeat_length; auto.
Qed.

Lemma Bind_services_spec l : forall ip St s,
  exists new,
    pPortList (snd (Bind_services l ip St s)) = new ++ pPortList s
    /\ map (fun p => length (pTxFree p)) new
       = rev (map TxIoNormal (filter Service_up l))
    /\ Forall (fun p => StationAddress (ConfigData p) = ip
                        /\ pReceivePending p = None
                        /\ Ip4_RxTokens p = 0%nat
                        /\ DestinationAddress p = Ip4_zero) new
    /\ Children_created (Calls (snd (Bind_services l ip St s)))
       - Children_destroyed (Calls (snd (Bind_services l ip St s)))
       = Children_created (Calls s) - Children_destroyed (Calls s)
         + Z.of_nat (length new).
Proof.
  induction l as [|svc l IH]; intros ip St s.
  - exists []; simpl; repeat split; auto; lia.
  - destruct (Bind_services_cons svc l ip St s) as (s1 & E & C & P).
    rewrite E.
    destruct (IH ip (Service_status svc) s1) as (new & A1 & A2 & A3 & A4).
    cbn [filter]; destruct (Service_up svc).
    + destruct P as (p & P1 & P2 & P3 & P4 & P5 & P6).
      exists (new ++ [p]).
      rewrite A1, P1, <- app_assoc; split; [reflexivity|].
      rewrite map_app, A2; simpl; rewrite P6.
      split; [reflexivity|].
      split; [apply Forall_app; split; auto|].
      rewrite A4, length_app; simpl; lia.
    + exists new; rewrite A1, P.
      repeat split; auto; lia.
Qed.

Lemma Bind_services_status l svc : forall ip St s,
  fst (Bind_services (l ++ [svc]) ip St s) = Service_status svc.
Proof.
  induction l as [|svc' l IH]; intros ip St s.
  - destruct (Bind_services_cons svc [] ip St s) as (s1 & E & _).
    simpl app; rewrite E; reflexivity.
  - destruct (Bind_services_cons svc' (l ++ [svc]) ip St s) as (s1 & E & _).
    simpl app; rewrite E; apply IH.
Qed.

Lemma Bind_unfold pIp4List s a len :
  sizeof_sockaddr_in - sizeof_sin_zero <= len ->
  pPortList (snd (EslIp4Bind pIp4List s a len))
  = pPortList (snd (Bind_services pIp4List (bytes_of_UINT32 (sin_addr a))
                      EFI_SUCCESS (set_errno errno_0 s)))
  /\ Calls (snd (EslIp4Bind pIp4List s a len))
     = Calls (snd (Bind_services pIp4List (bytes_of_UINT32 (sin_addr a))
                     EFI_SUCCESS (set_errno errno_0 s)))
  /\ fst (EslIp4Bind pIp4List s a len)
     = match pPortList (snd (EslIp4Bind pIp4List s a len)) with
       | [] => EFI_INVALID_PARAMETER
       | _ :: _ =>
           fst (Bind_services pIp4List (bytes_of_UINT32 (sin_addr a))
                  EFI_SUCCESS (set_errno errno_0 s))
       end
  /\ (pPortList (snd (EslIp4Bind pIp4List s a len)) = [] ->
      errno (snd (EslIp4Bind pIp4List s a len)) = EADDRNOTAVAIL).
Proof.
  intros Hlen; unfold EslIp4Bind.
  replace (len >=? sizeof_sockaddr_in - sizeof_sin_zero) with true
    by (symmetry; apply Z.geb_le; exact Hlen).
  destruct (Bind_services _ _ _ _) as [St sb]; simpl.
  destruct (pPortList sb) eqn:E; simpl; rewrite ?E; auto.
  repeat split; auto; discriminate.
Qed.

(** X13.  The ports of a bind: EslIp4Bind leaves the ports the socket had
    in place and puts in front of them one new port for every registered
    adapter on which the port creation succeeds, the port of the last
    adapter first; every new port is bound to the four bytes of the
    requested address (all zero for the wildcard), has no destination, no
    receive pending and no token at the driver, and as many free transmit
    slots as its adapter allows. *)
Theorem Bind_creates_ports (pIp4List : list ESL_SERVICE) (s : ESL_SOCKET)
    (a : sockaddr_in) (len : Z) :
  sizeof_sockaddr_in - sizeof_sin_zero <= len ->
  exists new,
    pPortList (snd (EslIp4Bind pIp4List s a len)) = new ++ pPortList s
    /\ map (fun p => length (pTxFree p)) new
       = rev (map TxIoNormal (filter Service_up pIp4List))
    /\ Forall (fun p => StationAddress (ConfigData p)
                        = bytes_of_UINT32 (sin_addr a)
                        /\ pReceivePending p = None
                        /\ Ip4_RxTokens p = 0%nat
                        /\ DestinationAddress p = Ip4_zero) new.
Proof.
  intros Hlen.
  destruct (Bind_unfold pIp4List s a len Hlen) as (E & _).
  destruct (Bind_services_spec pIp4List (bytes_of_UINT32 (sin_addr a))
              EFI_SUCCESS (set_errno errno_0 s)) as (new & A & B & C & _).
  exists new; rewrite E; auto.
Qed.

(** X14.  The status of a bind is that of the last adapter: when the
    socket owns a port afterwards, EslIp4Bind returns the status the port
    creation had on the last registered adapter, whatever happened on the
    adapters before it; when it owns none, EslIp4Bind returns
    EFI_INVALID_PARAMETER with errno EADDRNOTAVAIL. *)
Theorem Bind_status_of_last_service (pIp4List : list ESL_SERVICE)
    (svc : ESL_SERVICE) (s : ESL_SOCKET) (a : sockaddr_in) (len : Z) :
  sizeof_sockaddr_in - sizeof_sin_zero <= len ->
  (pPortList (snd (EslIp4Bind (pIp4List ++ [svc]) s a len)) <> [] ->
   fst (EslIp4Bind (pIp4List ++ [svc]) s a len) = Service_status svc)
  /\ (pPortList (snd (EslIp4Bind (pIp4List ++ [svc]) s a len)) = [] ->
      fst (EslIp4Bind (pIp4List ++ [svc]) s a len) = EFI_INVALID_PARAMETER
      /\ errno (snd (EslIp4Bind (pIp4List ++ [svc]) s a len))
         = EADDRNOTAVAIL).
Proof.
  intros Hlen.
  destruct (Bind_unfold (pIp4List ++ [svc]) s a len Hlen) as (_ & _ & E & F).
  rewrite E, Bind_services_status.
  destruct (pPortList (snd (EslIp4Bind (pIp4List ++ [svc]) s a len)));
    split; auto; congruence.
Qed.

(** X15.  No child of a service binding is left over: across EslIp4Bind,
    the children created through CreateChild less the children destroyed
    through DestroyChild are exactly the ports the socket gained. *)
Theorem Bind_children_balanced (pIp4List : list ESL_SERVICE) (s : ESL_SOCKET)
    (a : sockaddr_in) (len : Z) :
  (Children_created (Calls (snd (EslIp4Bind pIp4List s a len)))
   - Children_created (Calls s))
  - (Children_destroyed (Calls (snd (EslIp4Bind pIp4List s a len)))
     - Children_destroyed (Calls s))
  = Z.of_nat (length (pPortList (snd (EslIp4Bind pIp4List s a len))))
    - Z.of_nat (length (pPortList s)).
Proof.
  destruct (Z.le_gt_cases (sizeof_sockaddr_in - sizeof_sin_zero) len)
    as [Hlen | Hlen].
  - destruct (Bind_unfold pIp4List s a len Hlen) as (E1 & E2 & _).
    destruct (Bind_services_spec pIp4List (bytes_of_UINT32 (sin_addr a))
                EFI_SUCCESS (set_errno errno_0 s)) as (new & A & _ & _ & B).
    rewrite E1, E2, A, length_app; simpl in B.
    change (pPortList (set_errno errno_0 s)) with (pPortList s); lia.
  - unfold EslIp4Bind.
    replace (len >=? sizeof_sockaddr_in - sizeof_sin_zero) with false
      by (symmetry; rewrite Z.geb_leb; apply Z.leb_gt; lia).
    simpl; lia.
Qed.

(** X16.  Bind, then ask for the local address: after EslIp4Bind of a
    socket without ports to an address whose s_addr is any 32-bit value,
    when the socket then owns a single port, EslIp4GetLocalAddress with a
    buffer of at least sizeof (struct sockaddr_in) bytes succeeds and
    returns an AF_INET address with the same s_addr and port 0, whatever
    port number was bound. *)
Theorem Bind_then_GetLocalAddress (pIp4List : list ESL_SERVICE)
    (s : ESL_SOCKET) (a : sockaddr_in) (len : Z) (p : ESL_PORT)
    (buf : sockaddr_in) (blen : Z) :
  0 <= sin_addr a < 2 ^ 32 ->
  sizeof_sockaddr_in - sizeof_sin_zero <= len ->
  pPortList s = [] ->
  pPortList (snd (EslIp4Bind pIp4List s a len)) = [p] ->
  sizeof_sockaddr_in <= blen ->
  exists s2 out,
    EslIp4GetLocalAddress (snd (EslIp4Bind pIp4List s a len)) buf blen
    = (EFI_SUCCESS, s2, out)
    /\ errno s2 = errno_0
    /\ sin_family out = AF_INET
    /\ sin_port out = 0
    /\ sin_addr out = sin_addr a.
Proof.
  intros Ha Hlen Hs Hp Hb.
  destruct (Bind_unfold pIp4List s a len Hlen) as (E & _).
  destruct (Bind_services_spec pIp4List (bytes_of_UINT32 (sin_addr a))
              EFI_SUCCESS (set_errno errno_0 s)) as (new & A & _ & C & _).
  rewrite <- E, Hp in A; simpl in A; rewrite Hs, app_nil_r in A; subst new.
  inversion C as [|? ? (C1 & _) _]; subst.
  unfold EslIp4GetLocalAddress; rewrite Hp.
  replace (sizeof_sockaddr_in <=? blen) with true
    by (symmetry; apply Z.leb_le; exact Hb).
  eexists _, _; split; [reflexivity|]; simpl.
  rewrite C1, UINT32_bytes_round_trip; auto.
Qed.

End BindPorts.

Section BindPortsExamples.

#[local] Existing Instance Socket_h_example.

(** A bind to 10.1.2.3 with a working adapter, one that is down and
    another working one: two ports, both bound to 10.1.2.3. *)
Lemma Bind_creates_ports_witness :
  exists new,
    sizeof_sockaddr_in - sizeof_sin_zero <= 16
    /\ pPortList (snd (EslIp4Bind [ex_service; ex_service_down; ex_service]
                         ex_unbound ex_remote 16)) = new
    /\ length new = 2%nat
    /\ Forall (fun p => StationAddress (ConfigData p)
                        = {| Addr0 := 10; Addr1 := 1; Addr2 := 2; Addr3 := 3 |})
         new.
Proof.
  assert (Hlen : sizeof_sockaddr_in - sizeof_sin_zero <= 16) by (simpl; lia).
  destruct (Bind_creates_ports [ex_service; ex_service_down; ex_service]
              ex_unbound ex_remote 16 Hlen) as (new & A & B & C).
  exists new; split; [exact Hlen|].
  split; [rewrite A; apply app_nil_r|].
  split; [apply (f_equal (@length nat)) in B; rewrite length_map in B; exact B|].
  eapply Forall_impl; [|exact C]; intros p (H1 & _); exact H1.
Defined.

(** The last adapter is down: the bind reports its failure although the
    first adapter gave the socket a port. *)
Lemma Bind_status_of_last_service_witness :
  sizeof_sockaddr_in - sizeof_sin_zero <= 16
  /\ length (pPortList (snd (EslIp4Bind ([ex_service] ++ [ex_service_down])
                               ex_unbound ex_any 16))) = 1%nat
  /\ fst (EslIp4Bind ([ex_service] ++ [ex_service_down]) ex_unbound ex_any 16)
     = EFI_OUT_OF_RESOURCES.
Proof.
  assert (Hlen : sizeof_sockaddr_in - sizeof_sin_zero <= 16) by (simpl; lia).
  destruct (Bind_status_of_last_service [ex_service] ex_service_down
              ex_unbound ex_any 16 Hlen) as (A & _).
  split; [exact Hlen|]. split; [vm_compute; reflexivity|].
  rewrite A; [reflexivity | vm_compute; discriminate].
Defined.

(** A bind to 10.1.2.3 with one working adapter, then the query. *)
Lemma Bind_then_GetLocalAddress_witness :
  exists s2 out,
    EslIp4GetLocalAddress (snd (EslIp4Bind [ex_service] ex_unbound ex_remote 16))
      ex_buffer 16 = (EFI_SUCCESS, s2, out)
    /\ sin_addr out = sin_addr ex_remote.
Proof.
  assert (H1 : 0 <= sin_addr ex_remote < 2 ^ 32) by (simpl; lia).
  assert (H2 : sizeof_sockaddr_in - sizeof_sin_zero <= 16) by (simpl; lia).
  assert (H3 : sizeof_sockaddr_in <= 16) by (simpl; lia).
  eassert (E : pPortList (snd (EslIp4Bind [ex_service] ex_unbound
                                 ex_remote 16)) = [_])
    by (vm_compute; reflexivity).
  destruct (Bind_then_GetLocalAddress [ex_service] ex_unbound ex_remote 16 _
              ex_buffer 16 H1 H2 eq_refl E H3)
    as (s2 & out & A & _ & _ & _ & B).
  exists s2, out; split; [exact A | exact B].
Defined.

End BindPortsExamples.

Section Configuration.

Context {h : Socket_h} {c : Libc_h}.

(** ** Options *)

(** X17.  The header-include option: EslIp4OptionSet of IP_HDRINCL at level
    IPPROTO_IP with an option length of 4 succeeds with errno 0 and stores
    TRUE for every non-zero value and FALSE for zero, and the
    EslIp4OptionGet that follows succeeds and hands back that flag (1 or
    0, in place of a pointer to it) with length 1; with any other option
    length the call fails with EFI_INVALID_PARAMETER and errno EINVAL,
    with any other level or option name with EFI_UNSUPPORTED and errno
    ENOTSUP, and the option keeps its value. *)
Theorem Option_set_then_get (s : ESL_SOCKET) (f : ESL_SOCKET_CONFIG)
    (level OptionName v len : Z) :
  (len = 4 ->
   exists s1 f1,
     EslIp4OptionSet s f IPPROTO_IP IP_HDRINCL v len = (EFI_SUCCESS, s1, f1)
     /\ errno s1 = errno_0
     /\ bIncludeHeader f1 = negb (v =? 0)
     /\ bConfigured f1 = bConfigured f
     /\ EslIp4OptionGet s1 f1 IPPROTO_IP IP_HDRINCL
        = (EFI_SUCCESS, set_errno errno_0 s1,
           Some ((if v =? 0 then 0 else 1), 1)))
  /\ (len <> 4 ->
      EslIp4OptionSet s f IPPROTO_IP IP_HDRINCL v len
      = (EFI_INVALID_PARAMETER, set_errno EINVAL s, f))
  /\ (level <> IPPROTO_IP \/ OptionName <> IP_HDRINCL ->
      EslIp4OptionSet s f level OptionName v len
      = (EFI_UNSUPPORTED, set_errno ENOTSUP (set_errno EINVAL s), f)
      /\ EslIp4OptionGet s f level OptionName
         = (EFI_UNSUPPORTED, set_errno ENOTSUP (set_errno errno_0 s), None)).
Proof.
  unfold EslIp4OptionSet, EslIp4OptionGet.
  split; [|split].
  - intros ->; rewrite !Z.eqb_refl; simpl.
    eexists _, _; split; [reflexivity|]; simpl.
    destruct v; auto.
  - intros Hlen; rewrite !Z.eqb_refl.
    replace (4 =? len) with false by (symmetry; apply Z.eqb_neq; lia).
    destruct (0 <=? len); reflexivity.
  - intros Hn.
    destruct (level =? IPPROTO_IP) eqn:E1.
    + destruct (OptionName =? IP_HDRINCL) eqn:E2.
      * apply Z.eqb_eq in E1, E2; destruct Hn; congruence.
      * destruct (0 <=? len); auto.
    + destruct (0 <=? len); auto.
Qed.

(** ** Configuration *)

Lemma Configure_port_spec io inc s p flag St s1 p1 flag1 :
  Configure_port io inc s p flag = (St, s1, p1, flag1) ->
  pPortList s1 = pPortList s
  /\ (Rx_single p -> Rx_single p1)
  /\ (St = io_Configure io \/ St = io_GetModeData io)
  /\ (EFI_ERROR St = false -> State s1 = SOCKET_STATE_CONNECTED)
  /\ (State s = SOCKET_STATE_CONNECTED -> State s1 = SOCKET_STATE_CONNECTED).
Proof.
  unfold Configure_port; intros H.
  set (p0 := if inc then set_ConfigData (set_RawData true (ConfigData p)) p
             else p) in *.
  assert (H0 : Rx_single p -> Rx_single p0)
    by (unfold p0; destruct inc; auto).
  destruct (EFI_ERROR (io_Configure io)) eqn:E1; cbn [negb] in H.
  - rewrite E1 in H; inv H; simpl.
    repeat split; auto; congruence.
  - destruct (EFI_ERROR (io_GetModeData io)) eqn:E2.
    + inv H; simpl; repeat split; auto; congruence.
    + destruct (EslIp4RxStart _ _ _) as [s2 p2] eqn:E.
      pose proof (RxStart_single (io_RxStart io) s
                    (set_ConfigData (io_ModeData io) p0)) as Hs.
      rewrite E in Hs; simpl in Hs.
      destruct (RxStart_frame _ _ _ _ _ E) as (F & _).
      inv H; simpl; repeat split; auto.
Qed.

Lemma Configure_ports_spec io inc ports :
  forall n flags St s St1 s1 ports1 flags1,
  Configure_ports io n inc ports flags St s = (St1, s1, ports1, flags1) ->
  pPortList s1 = pPortList s
  /\ length ports1 = length ports
  /\ (Forall Rx_single ports -> Forall Rx_single ports1)
  /\ (ports = [] -> St1 = St /\ s1 = s)
  /\ (ports <> [] ->
      (exists k, St1 = io_Configure (io k) \/ St1 = io_GetModeData (io k))
      /\ (EFI_ERROR St1 = false -> State s1 = SOCKET_STATE_CONNECTED))
  /\ (State s = SOCKET_STATE_CONNECTED -> State s1 = SOCKET_STATE_CONNECTED).
Proof.
  induction ports as [|p ports IH]; intros n flags St s St1 s1 ports1 flags1 H.
  - inv H; repeat split; auto; congruence.
  - cbn [Configure_ports] in H.
    destruct (Configure_port (io n) inc s p (hd false flags))
      as [[[St2 s2] p2] fl2] eqn:E.
    destruct (Configure_ports io (S n) inc ports (tl flags) St2 s2)
      as [[[St3 s3] ports3] fl3] eqn:E'.
    inv H.
    destruct (Configure_port_spec _ _ _ _ _ _ _ _ _ E)
      as (A1 & A2 & A3 & A4 & A5).
    destruct (IH _ _ _ _ _ _ _ _ E') as (B1 & B2 & B3 & B4 & B5 & B6).
    split; [congruence|].
    split; [simpl; congruence|].
    split; [intros HF; inv HF; constructor; auto|].
    split; [discriminate|].
    split; [|auto].
    intros _. destruct ports as [|q ports].
    + destruct (B4 eq_refl) as [-> ->].
      split; [exists n; exact A3 | exact A4].
    + apply B5; discriminate.
Qed.

(** [EslIp4SocketIsConfigured] on a socket that is not configured yet. *)
Lemma IsConfigured_first pIp4List io s f St s' f' :
  bConfigured f = false ->
  EslIp4SocketIsConfigured pIp4List io s f = (St, s', f') ->
  (bConfigured f' = negb (is_NULL (hd_error (pPortList s'))))
  /\ (EFI_ERROR St = false ->
      St = EFI_SUCCESS /\ bConfigured f' = true
      /\ State s' = SOCKET_STATE_CONNECTED)
  /\ (Forall Rx_single (pPortList s) -> Forall Rx_single (pPortList s'))
  /\ (St = EFI_NOT_STARTED ->
      exists k, io_Configure (io k) = EFI_NOT_STARTED
                \/ io_GetModeData (io k) = EFI_NOT_STARTED)
  /\ bIncludeHeader f' = bIncludeHeader f.
Proof.
  unfold EslIp4SocketIsConfigured; intros Hf H.
  rewrite Hf in H; cbn [negb] in H.
  set (bound :=
         match pPortList s with
         | [] =>
             EslIp4Bind pIp4List s
               {| sin_len := to_UINT8 sizeof_sockaddr_in;
                  sin_family := AF_INET; sin_port := 0; sin_addr := 0 |}
               (sin_len
                  {| sin_len := to_UINT8 sizeof_sockaddr_in;
                     sin_family := AF_INET; sin_port := 0; sin_addr := 0 |})
         | _ :: _ => (EFI_SUCCESS, s)
         end) in *.
  assert (Hb : (pPortList (snd bound) = [] ->
                fst bound = EFI_INVALID_PARAMETER)
               /\ (Forall Rx_single (pPortList s) ->
                   Forall Rx_single (pPortList (snd bound)))).
  { unfold bound; destruct (pPortList s) eqn:Hp.
    - unfold EslIp4Bind.
      destruct (_ >=? _); [|simpl; rewrite Hp; split; auto].
      pose proof (Bind_services_single pIp4List
                    (bytes_of_UINT32 0) EFI_SUCCESS (set_errno errno_0 s))
        as Hs.
      destruct (Bind_services _ _ _ _) as [St0 sb]; simpl in *.
      assert (Hs' : Forall Rx_single (pPortList sb))
        by (apply Hs; rewrite Hp; constructor).
      destruct (pPortList sb) eqn:Hsb; simpl; rewrite ?Hsb;
        split; auto; discriminate.
    - split; [simpl; rewrite Hp; discriminate | simpl; rewrite Hp; auto]. }
  destruct bound as [St0 sb]; cbn [fst snd] in Hb.
  destruct Hb as [Hb1 Hb2].
  destruct (Configure_ports io 0 (bIncludeHeader f) (pPortList sb)
              (Port_bConfigured f) St0 sb)
    as [[[St1 s1] ports1] flags1] eqn:E.
  destruct (Configure_ports_spec _ _ _ _ _ _ _ _ _ _ _ E)
    as (A1 & A2 & A3 & A4 & A5 & _).
  inv H; cbn [bConfigured bIncludeHeader pPortList set_pPortList State].
  destruct ports1 as [|p1 ports1]; cbn [hd_error is_NULL negb].
  - (* no port at all *)
    assert (Hsb : pPortList sb = [])
      by (destruct (pPortList sb); [reflexivity | discriminate]).
    destruct (A4 Hsb) as [-> ->].
    rewrite (Hb1 Hsb); cbn [EFI_ERROR negb].
    repeat split; auto; discriminate.
  - assert (Hsb : pPortList sb <> [])
      by (destruct (pPortList sb); [discriminate | discriminate]).
    destruct (A5 Hsb) as ((k & Hk) & Hc).
    destruct (EFI_ERROR St1) eqn:He; cbn [negb].
    + repeat split; auto; try congruence.
      intros ->; exists k; destruct Hk as [Hk | Hk]; auto.
    + repeat split; auto; discriminate.
Qed.

(** X18.  Configuration is attempted once: on a socket that is marked
    configured EslIp4SocketIsConfigured returns EFI_SUCCESS and changes
    nothing; and whenever a call on a socket that is not yet configured
    leaves the socket with a port, the socket is marked configured, so
    that the next call returns EFI_SUCCESS without configuring anything,
    also when the first call reported a failure. *)
Theorem IsConfigured_once (pIp4List : list ESL_SERVICE)
    (io io2 : nat -> Configure_io) (s s' : ESL_SOCKET)
    (f f' : ESL_SOCKET_CONFIG) (St : EFI_STATUS) :
  (bConfigured f = true ->
   EslIp4SocketIsConfigured pIp4List io s f = (EFI_SUCCESS, s, f))
  /\ (EslIp4SocketIsConfigured pIp4List io s f = (St, s', f') ->
      pPortList s' <> [] ->
      bConfigured f' = true
      /\ EslIp4SocketIsConfigured pIp4List io2 s' f' = (EFI_SUCCESS, s', f')).
Proof.
  assert (Hdone : forall i x g, bConfigured g = true ->
            EslIp4SocketIsConfigured pIp4List i x g = (EFI_SUCCESS, x, g)).
  { intros i x g Hg; unfold EslIp4SocketIsConfigured.
    rewrite Hg; simpl; rewrite Hg; reflexivity. }
  split; [apply Hdone|].
  intros H Hp.
  assert (Hf' : bConfigured f' = true).
  { destruct (bConfigured f) eqn:Hf.
    - rewrite (Hdone io s f Hf) in H; inv H; exact Hf.
    - destruct (IsConfigured_first _ _ _ _ _ _ _ Hf H) as (A & _).
      rewrite A; destruct (pPortList s'); [congruence | reflexivity]. }
  split; [exact Hf' | apply Hdone; exact Hf'].
Qed.

(** X19.  What the status of the first configuration tells: when
    EslIp4SocketIsConfigured, on a socket not yet configured, returns a
    status that is not an error, that status is EFI_SUCCESS, the socket is
    marked configured and its state is SOCKET_STATE_CONNECTED; the socket
    is marked configured exactly when it owns a port afterwards; and
    EFI_NOT_STARTED is returned only if the driver's Configure or
    GetModeData answered it. *)
Theorem IsConfigured_first_call (pIp4List : list ESL_SERVICE)
    (io : nat -> Configure_io) (s s' : ESL_SOCKET)
    (f f' : ESL_SOCKET_CONFIG) (St : EFI_STATUS) :
  bConfigured f = false ->
  EslIp4SocketIsConfigured pIp4List io s f = (St, s', f') ->
  (EFI_ERROR St = false ->
   St = EFI_SUCCESS /\ bConfigured f' = true
   /\ State s' = SOCKET_STATE_CONNECTED)
  /\ (bConfigured f' = true <-> pPortList s' <> [])
  /\ (St = EFI_NOT_STARTED ->
      exists k, io_Configure (io k) = EFI_NOT_STARTED
                \/ io_GetModeData (io k) = EFI_NOT_STARTED).
Proof.
  intros Hf H.
  destruct (IsConfigured_first _ _ _ _ _ _ _ Hf H) as (A & B & _ & D & _).
  split; [exact B|]. split; [|exact D].
  rewrite A; destruct (pPortList s'); simpl; split; congruence.
Qed.

(** X20.  Configuration keeps the single pending receive: when every port
    of the socket agrees with the driver on its pending receive before
    EslIp4SocketIsConfigured, every port does so afterwards, the ports
    created by the implicit bind and the ports on which the first receive
    was started included. *)
Theorem IsConfigured_single_pending (pIp4List : list ESL_SERVICE)
    (io : nat -> Configure_io) (s s' : ESL_SOCKET)
    (f f' : ESL_SOCKET_CONFIG) (St : EFI_STATUS) :
  Forall Rx_single (pPortList s) ->
  EslIp4SocketIsConfigured pIp4List io s f = (St, s', f') ->
  Forall Rx_single (pPortList s').
Proof.
  intros HF H.
  destruct (bConfigured f) eqn:Hf.
  - unfold EslIp4SocketIsConfigured in H; rewrite Hf in H; simpl in H.
    inv H; exact HF.
  - destruct (IsConfigured_first _ _ _ _ _ _ _ Hf H) as (_ & _ & C & _); auto.
Qed.

(** ** Cancel *)

(** [EslIp4RxCancel] reports [EFI_NOT_FOUND] exactly when the first port
    of the socket has no receive pending; the other ports are not looked
    at. *)
Lemma RxCancel_not_found Cancel s :
  EslIp4RxCancel Cancel s = EFI_NOT_FOUND
  <-> match pPortList s with
      | p :: _ => pReceivePending p = None
      | [] => True
      end.
Proof.
  unfold EslIp4RxCancel.
  destruct (pPortList s) as [|p rest]; [tauto|].
  destruct (pReceivePending p); [|tauto].
  destruct Cancel; split; intros; discriminate.
Qed.

End Configuration.

Section ConfigurationExamples.

#[local] Existing Instance Socket_h_example.
#[local] Existing Instance Libc_h_example.

(** The option is set to 5 and read back as 1. *)
Lemma Option_set_then_get_witness :
  exists s1 f1,
    EslIp4OptionSet ex_unbound ex_config IPPROTO_IP IP_HDRINCL 5 4
    = (EFI_SUCCESS, s1, f1)
    /\ bIncludeHeader f1 = true
    /\ EslIp4OptionGet s1 f1 IPPROTO_IP IP_HDRINCL
       = (EFI_SUCCESS, set_errno errno_0 s1, Some (1, 1)).
Proof.
  destruct (Option_set_then_get ex_unbound ex_config 0 0 5 4) as (H & _).
  destruct (H eq_refl) as (s1 & f1 & A & _ & B & _ & C).
  exists s1, f1; split; [exact A|]. split; [exact B | exact C].
Defined.

(** The first configuration of a socket fails on its only port because
    the driver has no address mapping; the socket has a port, is marked
    configured and is not connected, and the next call reports success. *)
Lemma IsConfigured_once_witness :
  exists s' f',
    EslIp4SocketIsConfigured [ex_service] ex_configure_fails ex_unbound
      ex_config = (EFI_NO_MAPPING, s', f')
    /\ length (pPortList s') = 1%nat
    /\ State s' <> SOCKET_STATE_CONNECTED
    /\ bConfigured f' = true
    /\ EslIp4SocketIsConfigured [ex_service] ex_configure_ok s' f'
       = (EFI_SUCCESS, s', f').
Proof.
  destruct (EslIp4SocketIsConfigured [ex_service] ex_configure_fails
              ex_unbound ex_config) as [[St s'] f'] eqn:E.
  assert (HS : St = EFI_NO_MAPPING) by (vm_compute in E; inv E; reflexivity).
  assert (Hl : length (pPortList s') = 1%nat)
    by (vm_compute in E; inv E; reflexivity).
  assert (Hc : State s' <> SOCKET_STATE_CONNECTED)
    by (vm_compute in E; inv E; discriminate).
  assert (Hp : pPortList s' <> [])
    by (destruct (pPortList s'); [discriminate Hl | discriminate]).
  destruct (IsConfigured_once [ex_service] ex_configure_fails ex_configure_ok
              ex_unbound s' ex_config f' St) as (_ & H).
  destruct (H E Hp) as (A & B).
  subst St; exists s', f'.
  split; [reflexivity|]. split; [exact Hl|]. split; [exact Hc|].
  split; [exact A | exact B].
Defined.

(** The first configuration of a socket with a working adapter and a
    working driver. *)
Lemma IsConfigured_first_call_witness :
  exists s' f',
    EslIp4SocketIsConfigured [ex_service] ex_configure_ok ex_unbound ex_config
    = (EFI_SUCCESS, s', f')
    /\ bConfigured f' = true
    /\ State s' = SOCKET_STATE_CONNECTED.
Proof.
  destruct (EslIp4SocketIsConfigured [ex_service] ex_configure_ok ex_unbound
              ex_config) as [[St s'] f'] eqn:E.
  assert (HS : EFI_ERROR St = false) by (vm_compute in E; inv E; reflexivity).
  destruct (IsConfigured_first_call [ex_service] ex_configure_ok ex_unbound
              s' ex_config f' St eq_refl E) as (H & _).
  destruct (H HS) as (-> & A & B).
  exists s', f'; split; [reflexivity|]. split; [exact A | exact B].
Defined.

(** After that configuration the port has its first receive with the
    driver. *)
Lemma IsConfigured_single_pending_witness :
  exists St s' f' p,
    EslIp4SocketIsConfigured [ex_service] ex_configure_ok ex_unbound ex_config
    = (St, s', f')
    /\ pPortList s' = [p]
    /\ pReceivePending p = Some (Ip4Rx None)
    /\ Forall Rx_single (pPortList s').
Proof.
  destruct (EslIp4SocketIsConfigured [ex_service] ex_configure_ok ex_unbound
              ex_config) as [[St s'] f'] eqn:E.
  pose proof (IsConfigured_single_pending [ex_service] ex_configure_ok
                ex_unbound s' ex_config f' St (Forall_nil _) E) as H.
  eassert (Hp : pPortList s' = [_])
    by (vm_compute in E; inv E; reflexivity).
  eexists St, s', f', _.
  split; [reflexivity|]. split; [exact Hp|]. split; [reflexivity | exact H].
Defined.

End ConfigurationExamples.

Section ServiceList.

(** ** The list of IPv4 services *)

Lemma store_same {A : Type} a (v : A) f : store a v f a = v.
Proof. unfold store; rewrite Nat.eqb_refl; reflexivity. Qed.

Lemma store_other {A : Type} a b (v : A) f : b <> a -> store a v f b = f b.
Proof.
  intros H; unfold store.
  destruct (Nat.eqb_spec b a); [contradiction | reflexivity].
Qed.

Lemma Linked_store pNext a v l : forall p,
  ~ In a l -> Linked pNext p l -> Linked (store a v pNext) p l.
Proof.
  induction l as [|b l IH]; intros p Hn H; [exact H|].
  destruct H as [-> H]; split; [reflexivity|].
  rewrite store_other by (intros ->; apply Hn; left; reflexivity).
  apply IH; [intros Hin; apply Hn; right; exact Hin | exact H].
Qed.

Lemma is_service_spec a p : is_service a p = true <-> p = Some a.
Proof.
  destruct p as [q|]; simpl; [|split; discriminate].
  rewrite Nat.eqb_eq; split; congruence.
Qed.

Lemma Shutdown_unlink_NULL fuel a pNext :
  Shutdown_unlink fuel a None pNext = Some pNext.
Proof. destruct fuel; reflexivity. Qed.

Lemma Shutdown_unlink_spec a l : forall fuel b pNext,
  Linked pNext (Some b) (b :: l) -> NoDup (b :: l) -> b <> a ->
  (length (b :: l) <= fuel)%nat ->
  exists pNext',
    Shutdown_unlink fuel a (Some b) pNext = Some pNext'
    /\ Linked pNext' (Some b) (b :: remove Nat.eq_dec a l)
    /\ (forall x, ~ In x (b :: l) -> pNext' x = pNext x).
Proof.
  induction l as [|b' l IH]; intros fuel b pNext [_ H] Hnd Hb Hfuel;
    (destruct fuel as [|fuel]; [simpl in Hfuel; lia|]).
  - simpl in H; cbn [Shutdown_unlink]; rewrite H; simpl.
    exists pNext; split; [apply Shutdown_unlink_NULL|].
    repeat split; auto.
  - destruct H as [Hnext H].
    inversion Hnd as [|? ? Hnb Hnd']; subst.
    cbn [Shutdown_unlink]; rewrite Hnext.
    simpl remove. destruct (Nat.eq_dec a b') as [<- | Hne].
    + (* the next service is the one to remove *)
      replace (is_service a (Some a)) with true
        by (symmetry; apply is_service_spec; reflexivity).
      inversion Hnd' as [|? ? Hna _]; subst.
      rewrite notin_remove by exact Hna.
      eexists; split; [reflexivity|]. split.
      * split; [reflexivity|].
        rewrite store_same.
        apply Linked_store; [|exact H].
        intros Hin; apply Hnb; right; exact Hin.
      * intros x Hx; apply store_other.
        intros ->; apply Hx; left; reflexivity.
    + replace (is_service a (Some b')) with false
        by (symmetry; apply not_true_is_false; rewrite is_service_spec;
            congruence).
      destruct (IH fuel b' pNext) as (pNext' & E & L & F);
        [split; auto | exact Hnd' | congruence | simpl in *; lia |].
      exists pNext'; split; [exact E|]. split.
      * split; [reflexivity|].
        rewrite F by exact Hnb; rewrite Hnext; exact L.
      * intros x Hx; apply F; intros Hin; apply Hx; right; exact Hin.
Qed.

(** X21.  EslIp4Shutdown unlinks exactly its service: when the services
    linked from mEslLayer.pIp4List are the distinct services l, the
    routine returns and the list then links the services of l without the
    one shut down, in their order, wherever in the list it was (and the
    same services when it was not in the list); the port list of the
    service shut down is empty and those of the other services are
    untouched. *)
Theorem Shutdown_unlinks_service (fuel pService : nat) (pLayer : ESL_LAYER)
    (l : list nat) :
  Linked (Service_pNext pLayer) (Layer_pIp4List pLayer) l ->
  NoDup l -> (length l <= fuel)%nat ->
  exists pLayer',
    EslIp4Shutdown fuel pService pLayer = Some pLayer'
    /\ Linked (Service_pNext pLayer') (Layer_pIp4List pLayer')
         (remove Nat.eq_dec pService l)
    /\ Service_pPortList pLayer' pService = []
    /\ (forall b, b <> pService ->
        Service_pPortList pLayer' b = Service_pPortList pLayer b).
Proof.
  revert pService pLayer; intros a L HL Hnd Hfuel; unfold EslIp4Shutdown.
  destruct l as [|b l].
  - simpl in HL; rewrite HL; simpl; rewrite Shutdown_unlink_NULL.
    eexists; split; [reflexivity|]; simpl.
    split; [reflexivity|]. split; [apply store_same|].
    intros b Hb; apply store_other; exact Hb.
  - destruct HL as [Hhead HL]; rewrite Hhead.
    inversion Hnd as [|? ? Hnb Hnd']; subst.
    simpl remove; destruct (Nat.eq_dec a b) as [<- | Hne].
    + replace (is_service a (Some a)) with true
        by (symmetry; apply is_service_spec; reflexivity).
      rewrite notin_remove by exact Hnb.
      eexists; split; [reflexivity|]; simpl.
      split; [exact HL|]. split; [apply store_same|].
      intros b Hb; apply store_other; exact Hb.
    + replace (is_service a (Some b)) with false
        by (symmetry; apply not_true_is_false; rewrite is_service_spec;
            congruence).
      destruct (Shutdown_unlink_spec a l fuel b (Service_pNext L))
        as (pNext' & E & A & _); [split; auto | exact Hnd | congruence
                                 | exact Hfuel |].
      rewrite E; eexists; split; [reflexivity|]; simpl.
      split; [exact A|]. split; [apply store_same|].
      intros x Hx; apply store_other; exact Hx.
Qed.

(** X22.  Registration and its undoing: EslIp4Initialize succeeds and
    links a service that is not yet in the list in front of the services
    already linked, and the EslIp4Shutdown of that service that follows
    restores the list, with no search needed: the head pointer and the
    services linked are as before. *)
Theorem Initialize_then_Shutdown (fuel pService : nat) (pLayer : ESL_LAYER)
    (l : list nat) :
  Linked (Service_pNext pLayer) (Layer_pIp4List pLayer) l ->
  ~ In pService l ->
  fst (EslIp4Initialize pService pLayer) = EFI_SUCCESS
  /\ Linked (Service_pNext (snd (EslIp4Initialize pService pLayer)))
       (Layer_pIp4List (snd (EslIp4Initialize pService pLayer)))
       (pService :: l)
  /\ exists pLayer',
       EslIp4Shutdown fuel pService (snd (EslIp4Initialize pService pLayer))
       = Some pLayer'
       /\ Layer_pIp4List pLayer' = Layer_pIp4List pLayer
       /\ Linked (Service_pNext pLayer') (Layer_pIp4List pLayer') l.
Proof.
  intros HL Hn; unfold EslIp4Initialize, EslIp4Shutdown; simpl.
  rewrite Nat.eqb_refl, store_same.
  assert (H : Linked (store pService (Layer_pIp4List pLayer)
                        (Service_pNext pLayer)) (Layer_pIp4List pLayer) l)
    by (apply Linked_store; assumption).
  split; [reflexivity|]. split; [split; [reflexivity | exact H]|].
  eexists; split; [reflexivity|]; simpl; split; [reflexivity | exact H].
Qed.

End ServiceList.

Section ServiceListExamples.

Lemma ex_layer_linked :
  Linked (Service_pNext ex_layer) (Layer_pIp4List ex_layer)
    [3%nat; 2%nat; 1%nat].
Proof. repeat split. Qed.

(** The service in the middle of [ex_layer] is shut down. *)
Lemma Shutdown_unlinks_service_witness :
  exists pLayer',
    EslIp4Shutdown 3 2 ex_layer = Some pLayer'
    /\ Linked (Service_pNext pLayer') (Layer_pIp4List pLayer')
         [3%nat; 1%nat]
    /\ Service_pPortList pLayer' 2%nat = [].
Proof.
  assert (Hnd : NoDup [3%nat; 2%nat; 1%nat]).
  { repeat (apply NoDup_cons; [simpl; lia|]); apply NoDup_nil. }
  destruct (Shutdown_unlinks_service 3 2 ex_layer [3%nat; 2%nat; 1%nat]
              ex_layer_linked Hnd (le_n 3)) as (L' & A & B & C & _).
  exists L'; split; [exact A|]. split; [exact B | exact C].
Defined.

(** A fourth service is registered with [ex_layer] and shut down again. *)
Lemma Initialize_then_Shutdown_witness :
  Linked (Service_pNext (snd (EslIp4Initialize 4 ex_layer)))
    (Layer_pIp4List (snd (EslIp4Initialize 4 ex_layer)))
    [4%nat; 3%nat; 2%nat; 1%nat]
  /\ exists pLayer',
       EslIp4Shutdown 0 4 (snd (EslIp4Initialize 4 ex_layer)) = Some pLayer'
       /\ Layer_pIp4List pLayer' = Layer_pIp4List ex_layer
       /\ Linked (Service_pNext pLayer') (Layer_pIp4List pLayer')
            [3%nat; 2%nat; 1%nat].
Proof.
  assert (Hn : ~ In 4%nat [3%nat; 2%nat; 1%nat]) by (simpl; lia).
  destruct (Initialize_then_Shutdown 0 4 ex_layer [3%nat; 2%nat; 1%nat]
              ex_layer_linked Hn) as (_ & A & B).
  split; [exact A | exact B].
Defined.

End ServiceListExamples.

(** * Properties of NorFlashFvbDxe.c *)

Section FirmwareVolumeBlock.

Context {n : NorFlashDxe_h}.

(** ** Read and Write *)




Lemma Fvb_spans_rejects Offset N BS :
  BS <= Offset \/ BS < N -> Fvb_spans Offset N BS = true.
Proof.
  unfold Fvb_spans; intros [H | H].
  - replace (Offset >=? BS) with true
      by (symmetry; apply Z.geb_le; exact H); reflexivity.
  - replace (N >? BS) with true by (symmetry; apply Z.gtb_lt; exact H).
    apply orb_true_iff; left; apply orb_true_r.
Qed.


(** The third test of the guard: the sum, as UINTN arithmetic computes it,
    is behind the end of the block. *)
Lemma Fvb_spans_sum Offset N BS :
  BS < to_UINTN (Offset + N) -> Fvb_spans Offset N BS = true.
Proof.
  unfold Fvb_spans; intros H.
  replace (to_UINTN (Offset + N) >? BS) with true
    by (symmetry; apply Z.gtb_lt; exact H).
  apply orb_true_r.
Qed.





(** ** EraseBlocks *)

Lemma EraseBlocks_check_args LastBlock ranges : forall rest,
  Forall (fun r => fst r <> EFI_LBA_LIST_TERMINATOR) ranges ->
  EraseBlocks_check LastBlock
    (flat_map (fun r => [fst r; snd r]) ranges
     ++ EFI_LBA_LIST_TERMINATOR :: rest)
  = Some (forallb (Range_ok LastBlock) ranges).
Proof.
  induction ranges as [|r ranges IH]; intros rest HF.
  - simpl; rewrite Z.eqb_refl; reflexivity.
  - inversion HF as [|? ? Hr HF']; subst.
    cbn [flat_map app EraseBlocks_check forallb].
    replace (fst r =? EFI_LBA_LIST_TERMINATOR) with false
      by (symmetry; apply Z.eqb_neq; exact Hr).
    unfold Range_ok at 1, Range_count.
    destruct ((to_UINTN (to_UINT32 (snd r)) =? 0)
              || (to_UINT64 (fst r + to_UINTN (to_UINT32 (snd r)) - 1)
                  >? LastBlock)); cbn [negb andb]; [reflexivity|].
    apply IH; exact HF'.
Qed.

Lemma Blocks_from_length Lba count : length (Blocks_from Lba count) = count.
Proof.
  revert Lba; induction count as [|c IH]; intros Lba; simpl; auto.
Qed.

(** The status a run of erases ends with: that of the last one. *)
Lemma last_status_cons (l : list EFI_STATUS) (x d : EFI_STATUS) :
  last (x :: l) d = last l x.
Proof.
  revert x d; induction l as [|y l IH]; intros x d; [reflexivity|].
  change (last (x :: y :: l) d) with (last (y :: l) d).
  rewrite (IH y d), (IH y x); reflexivity.
Qed.

Lemma last_status_app (l1 l2 : list EFI_STATUS) (d : EFI_STATUS) :
  last (l1 ++ l2) d = last l2 (last l1 d).
Proof.
  revert d; induction l1 as [|x l1 IH]; intros d; [reflexivity|].
  rewrite <- app_comm_cons, !last_status_cons; apply IH.
Qed.

Lemma last_status_ok (io : nat -> EFI_STATUS) count : forall first St,
  (forall j, (j < count)%nat -> EFI_ERROR (io (first + j)%nat) = false) ->
  EFI_ERROR St = false ->
  EFI_ERROR (last (map io (seq first count)) St) = false.
Proof.
  induction count as [|count IH]; intros first St H HS; [exact HS|].
  cbn [seq map]; rewrite last_status_cons.
  apply IH.
  - intros j Hj; replace (S first + j)%nat with (first + S j)%nat by lia.
    apply H; lia.
  - rewrite <- (Nat.add_0_r first); apply H; lia.
Qed.

(** The loop over one range when every erase succeeds: it erases the
    blocks of the range in ascending order and leaves the loop at its
    end, with the status of the last erase. *)
Lemma Erase_range_completes io I count : forall Lba St calls,
  (forall j, (j < count)%nat ->
             EFI_ERROR (io (length calls + j)%nat) = false) ->
  Erase_range io I count Lba St calls
  = (false, last (map io (seq (length calls) count)) St,
     calls ++ map (Erase_call I) (Blocks_from Lba count)).
Proof.
  unfold Erase_call.
  induction count as [|count IH]; intros Lba St calls H.
  - simpl; rewrite app_nil_r; reflexivity.
  - cbn [Erase_range Blocks_from seq map].
    assert (H0 : EFI_ERROR (io (length calls)) = false)
      by (rewrite <- (Nat.add_0_r (length calls)); apply H; lia).
    rewrite H0, last_status_cons, IH.
    + rewrite length_app, <- app_assoc; cbn [length app].
      rewrite Nat.add_1_r; reflexivity.
    + intros j Hj; rewrite length_app; cbn [length].
      replace (length calls + 1 + j)%nat with (length calls + S j)%nat by lia.
      apply H; lia.
Qed.

(** The loop over one range when the erase of its block number [k] is the
    first that fails: that block is the last one the loop touches, and the
    loop is left with EFI_DEVICE_ERROR. *)
Lemma Erase_range_stops io I count : forall Lba St calls k,
  (k < count)%nat ->
  (forall j, (j < k)%nat -> EFI_ERROR (io (length calls + j)%nat) = false) ->
  EFI_ERROR (io (length calls + k)%nat) = true ->
  Erase_range io I count Lba St calls
  = (true, EFI_DEVICE_ERROR,
     calls ++ map (Erase_call I) (firstn (S k) (Blocks_from Lba count))).
Proof.
  unfold Erase_call.
  induction count as [|count IH]; intros Lba St calls k Hk H He; [lia|].
  cbn [Erase_range Blocks_from].
  destruct k as [|k].
  - rewrite Nat.add_0_r in He; rewrite He; reflexivity.
  - assert (H0 : EFI_ERROR (io (length calls)) = false)
      by (rewrite <- (Nat.add_0_r (length calls)); apply H; lia).
    rewrite H0, (IH _ _ _ k).
    + rewrite <- app_assoc; reflexivity.
    + lia.
    + intros j Hj; rewrite length_app; cbn [length].
      replace (length calls + 1 + j)%nat with (length calls + S j)%nat by lia.
      apply H; lia.
    + rewrite length_app; cbn [length].
      replace (length calls + 1 + k)%nat with (length calls + S k)%nat by lia.
      exact He.
Qed.

Lemma Range_blocks_length r :
  length (Range_blocks r) = Z.to_nat (Range_count r).
Proof. unfold Range_blocks; apply Blocks_from_length. Qed.

(** The second walk when every erase succeeds: every block of every range
    is erased, in the order of the list. *)
Lemma Erase_ranges_completes io I ranges : forall St calls,
  Forall (fun r => fst r <> EFI_LBA_LIST_TERMINATOR) ranges ->
  (forall j, (j < length (flat_map Range_blocks ranges))%nat ->
             EFI_ERROR (io (length calls + j)%nat) = false) ->
  Erase_ranges io I (Erase_args ranges) St calls
  = Some (last (map io (seq (length calls)
                          (length (flat_map Range_blocks ranges)))) St,
          calls ++ map (Erase_call I) (flat_map Range_blocks ranges)).
Proof.
  unfold Erase_args.
  induction ranges as [|r ranges IH]; intros St calls HF H.
  - simpl; rewrite Z.eqb_refl, app_nil_r; reflexivity.
  - inversion HF as [|? ? Hr HF']; subst.
    cbn [flat_map app Erase_ranges].
    replace (fst r =? EFI_LBA_LIST_TERMINATOR) with false
      by (symmetry; apply Z.eqb_neq; exact Hr).
    fold (Range_count r).
    cbn [flat_map] in H.
    rewrite length_app, Range_blocks_length in H |- *.
    rewrite Erase_range_completes by (intros j Hj; apply H; lia).
    fold (Range_blocks r).
    rewrite IH; [|exact HF'|].
    + rewrite length_app, length_map, Range_blocks_length.
      rewrite seq_app, !map_app, last_status_app, <- app_assoc.
      reflexivity.
    + intros j Hj.
      rewrite length_app, length_map, Range_blocks_length, <- Nat.add_assoc.
      apply H; lia.
Qed.

(** The second walk when erase number [k] is the first that fails: the
    walk ends there with EFI_DEVICE_ERROR, after the first [k + 1] blocks
    of the list. *)
Lemma Erase_ranges_stops io I ranges : forall St calls k,
  Forall (fun r => fst r <> EFI_LBA_LIST_TERMINATOR) ranges ->
  (k < length (flat_map Range_blocks ranges))%nat ->
  (forall j, (j < k)%nat -> EFI_ERROR (io (length calls + j)%nat) = false) ->
  EFI_ERROR (io (length calls + k)%nat) = true ->
  Erase_ranges io I (Erase_args ranges) St calls
  = Some (EFI_DEVICE_ERROR,
          calls ++ map (Erase_call I)
                     (firstn (S k) (flat_map Range_blocks ranges))).
Proof.
  unfold Erase_args.
  induction ranges as [|r ranges IH]; intros St calls k HF Hk H He;
    [simpl in Hk; lia|].
  inversion HF as [|? ? Hr HF']; subst.
  cbn [flat_map app Erase_ranges].
  replace (fst r =? EFI_LBA_LIST_TERMINATOR) with false
    by (symmetry; apply Z.eqb_neq; exact Hr).
  fold (Range_count r).
  cbn [flat_map] in Hk; rewrite length_app, Range_blocks_length in Hk.
  rewrite firstn_app, Range_blocks_length.
  destruct (Nat.lt_ge_cases k (Z.to_nat (Range_count r))) as [Hlt | Hge].
  - rewrite (Erase_range_stops io I _ _ _ _ k) by assumption.
    fold (Range_blocks r).
    replace (S k - Z.to_nat (Range_count r))%nat with 0%nat by lia.
    cbn [firstn]; rewrite app_nil_r; reflexivity.
  - rewrite Erase_range_completes by (intros j Hj; apply H; lia).
    fold (Range_blocks r).
    rewrite (IH _ _ (k - Z.to_nat (Range_count r))%nat); [|exact HF'|lia| |].
    + rewrite (firstn_all2 (n := S k) (Range_blocks r))
        by (rewrite Range_blocks_length; lia).
      replace (S k - Z.to_nat (Range_count r))%nat
        with (S (k - Z.to_nat (Range_count r))) by lia.
      rewrite map_app, <- app_assoc; reflexivity.
    + intros j Hj.
      rewrite length_app, length_map, Range_blocks_length, <- Nat.add_assoc.
      apply H; lia.
    + rewrite length_app, length_map, Range_blocks_length, <- Nat.add_assoc.
      replace (Z.to_nat (Range_count r) + (k - Z.to_nat (Range_count r)))%nat
        with k by lia.
      exact He.
Qed.

Lemma Blocks_from_range count : forall Lba,
  0 <= Lba -> Lba + Z.of_nat count <= 2 ^ 64 ->
  Forall (fun b => Lba <= b < Lba + Z.of_nat count) (Blocks_from Lba count).
Proof.
  induction count as [|c IH]; intros Lba H0 H1; [constructor|].
  cbn [Blocks_from]; constructor; [lia|].
  destruct c as [|c]; [constructor|].
  assert (E : to_UINT64 (Lba + 1) = Lba + 1)
    by (unfold to_UINT64; apply Z.mod_small; lia).
  rewrite E.
  eapply Forall_impl; [|apply IH; lia].
  intros b Hb; simpl in Hb; lia.
Qed.

(** The count of a range as the routine reads it, from 32 bits. *)
Lemma Range_count_bounds r : 0 <= Range_count r < 2 ^ 32.
Proof.
  unfold Range_count, to_UINTN, to_UINT32.
  assert (H : 0 <= snd r mod 2 ^ 32 < 2 ^ 32)
    by (apply Z.mod_pos_bound; lia).
  destruct (Z.le_gt_cases 0 UINTN_bits) as [Hb | Hb].
  - assert (Hp : 0 < 2 ^ UINTN_bits) by (apply Z.pow_pos_nonneg; lia).
    pose proof (Z.mod_pos_bound (snd r mod 2 ^ 32) _ Hp).
    pose proof (Z.mod_le (snd r mod 2 ^ 32) _ (proj1 H) Hp); lia.
  - rewrite (Z.pow_neg_r 2 UINTN_bits) by lia.
    rewrite Z.mod_0_r; exact H.
Qed.

Lemma Range_count_small r :
  32 <= UINTN_bits -> 0 <= snd r < 2 ^ 32 -> Range_count r = snd r.
Proof.
  intros Hb Hr; unfold Range_count, to_UINTN, to_UINT32.
  assert (Hpow : 2 ^ 32 <= 2 ^ UINTN_bits) by (apply Z.pow_le_mono_r; lia).
  rewrite (Z.mod_small _ (2 ^ 32)) by lia.
  apply Z.mod_small; lia.
Qed.

(** The test of the first walk on a range that does not wrap around
    2^64: it fails exactly when the range is empty or ends behind the last
    block. *)
Lemma Range_ok_false LastBlock r :
  32 <= UINTN_bits ->
  0 <= fst r -> 0 <= snd r < 2 ^ 32 -> fst r + snd r <= 2 ^ 64 ->
  snd r = 0 \/ LastBlock < fst r + snd r - 1 ->
  Range_ok LastBlock r = false.
Proof.
  intros Hb H0 Hc Hw Hbad; unfold Range_ok.
  rewrite (Range_count_small r Hb Hc).
  apply negb_false_iff, orb_true_iff.
  destruct (Z.eq_dec (snd r) 0) as [E | E];
    [left; apply Z.eqb_eq; exact E|].
  right; apply Z.gtb_lt.
  unfold to_UINT64; rewrite Z.mod_small by lia.
  destruct Hbad; [congruence | assumption].
Qed.

(** X26.  FvbEraseBlocks checks its whole argument list before it erases
    anything: on a read-only device it returns EFI_ACCESS_DENIED; on a
    writable device, when some range of the list, wherever in the list it
    is, has a count of 0, or ends behind the last block without wrapping
    around 2^64, it returns EFI_INVALID_PARAMETER; in both cases no block
    is erased.  A range that does wrap around 2^64 is outside this
    guarantee: the check computes the end of a range modulo 2^64, and lets
    such a range pass when its wrapped end is not behind the last block. *)
Theorem EraseBlocks_checks_first (io : nat -> EFI_STATUS)
    (Instance : NOR_FLASH_INSTANCE) (ranges : list (Z * Z)) (args : list Z) :
  (Media_ReadOnly Instance = true ->
   FvbEraseBlocks io Instance args = Some (EFI_ACCESS_DENIED, []))
  /\ (Media_ReadOnly Instance = false ->
      32 <= UINTN_bits ->
      Forall (fun r => fst r <> EFI_LBA_LIST_TERMINATOR) ranges ->
      forall r,
        In r ranges ->
        0 <= fst r -> 0 <= snd r < 2 ^ 32 -> fst r + snd r <= 2 ^ 64 ->
        snd r = 0 \/ Media_LastBlock Instance < fst r + snd r - 1 ->
        FvbEraseBlocks io Instance (Erase_args ranges)
        = Some (EFI_INVALID_PARAMETER, []))
  /\ (forall r,
        0 <= fst r < 2 ^ 64 -> 0 < Range_count r ->
        2 ^ 64 <= fst r + Range_count r - 1 ->
        fst r + Range_count r - 1 - 2 ^ 64 <= Media_LastBlock Instance ->
        Range_ok (Media_LastBlock Instance) r = true).
Proof.
  unfold FvbEraseBlocks; split; [|split].
  - intros ->; reflexivity.
  - intros -> Hb HF r Hin H0 Hc Hw Hbad; unfold Erase_args.
    rewrite EraseBlocks_check_args by exact HF.
    replace (forallb (Range_ok (Media_LastBlock Instance)) ranges)
      with false; [reflexivity|].
    symmetry; apply not_true_is_false; intros Hall.
    rewrite forallb_forall in Hall.
    specialize (Hall r Hin).
    rewrite Range_ok_false in Hall by assumption; discriminate.
  - intros r H0 Hc Hw Hend; unfold Range_ok.
    pose proof (Range_count_bounds r) as Hr.
    apply negb_true_iff, orb_false_iff; split.
    + apply Z.eqb_neq; lia.
    + rewrite Z.gtb_ltb; apply Z.ltb_ge.
      unfold to_UINT64.
      replace (fst r + Range_count r - 1)
        with (fst r + Range_count r - 1 - 2 ^ 64 + 1 * 2 ^ 64) by lia.
      rewrite Z_mod_plus_full, Z.mod_small; lia.
Qed.

(** [FvbEraseBlocks] on a list that passes the check: all the blocks
    when every erase succeeds, the blocks up to the first failing erase
    otherwise. *)
Lemma EraseBlocks_ok io Instance ranges :
  Media_ReadOnly Instance = false ->
  Forall (fun r => fst r <> EFI_LBA_LIST_TERMINATOR) ranges ->
  forallb (Range_ok (Media_LastBlock Instance)) ranges = true ->
  ((forall j, (j < length (flat_map Range_blocks ranges))%nat ->
              EFI_ERROR (io j) = false) ->
   FvbEraseBlocks io Instance (Erase_args ranges)
   = Some (last (map io (seq 0 (length (flat_map Range_blocks ranges))))
             EFI_SUCCESS,
           map (Erase_call Instance) (flat_map Range_blocks ranges)))
  /\ (forall k,
        (k < length (flat_map Range_blocks ranges))%nat ->
        (forall j, (j < k)%nat -> EFI_ERROR (io j) = false) ->
        EFI_ERROR (io k) = true ->
        FvbEraseBlocks io Instance (Erase_args ranges)
        = Some (EFI_DEVICE_ERROR,
                map (Erase_call Instance)
                  (firstn (S k) (flat_map Range_blocks ranges)))).
Proof.
  intros Hro HF Hok.
  unfold FvbEraseBlocks; rewrite Hro.
  unfold Erase_args at 1 3; rewrite EraseBlocks_check_args by exact HF.
  rewrite Hok; fold (Erase_args ranges); split.
  - intros H; rewrite Erase_ranges_completes; auto.
  - intros k Hk H He; rewrite (Erase_ranges_stops _ _ _ _ _ k); auto.
Qed.

(** The blocks of ranges that pass the check and do not wrap around 2^64
    lie between 0 and the last block. *)
Lemma Range_blocks_inside LastBlock ranges :
  forallb (Range_ok LastBlock) ranges = true ->
  Forall (fun r => 0 <= fst r /\ fst r + Range_count r <= 2 ^ 64) ranges ->
  Forall (fun Lba => 0 <= Lba <= LastBlock) (flat_map Range_blocks ranges).
Proof.
  induction ranges as [|r ranges IH]; intros Hok Hw; [constructor|].
  inversion Hw as [|? ? [Hr0 Hr1] Hw']; subst.
  cbn [forallb] in Hok; apply andb_prop in Hok; destruct Hok as [Hr Hok].
  cbn [flat_map]; apply Forall_app; split; [|apply IH; auto].
  unfold Range_ok in Hr; apply negb_true_iff in Hr.
  apply orb_false_iff in Hr; destruct Hr as [Hc Hl].
  apply Z.eqb_neq in Hc.
  rewrite Z.gtb_ltb in Hl; apply Z.ltb_ge in Hl.
  pose proof (Range_count_bounds r) as Hpos.
  unfold to_UINT64 in Hl; rewrite Z.mod_small in Hl by lia.
  unfold Range_blocks.
  eapply Forall_impl; [|apply Blocks_from_range; lia].
  intros b Hb; simpl in Hb; lia.
Qed.

(** X27.  What FvbEraseBlocks erases: on a writable device, when every
    range of the list passes the check, the routine erases the blocks of
    the ranges one by one, in the order of the list and in ascending order
    inside a range, and nothing else.  When every erase succeeds it erases
    all of them and returns the status of the last erase (EFI_SUCCESS for
    an empty list), which is not an error.  When erase number k is the
    first that fails, it stops there: it has erased, or tried to, the
    first k + 1 blocks only, and returns EFI_DEVICE_ERROR.  When no range
    wraps around 2^64, all these blocks lie between 0 and the last
    block. *)
Theorem EraseBlocks_erases_ranges (io : nat -> EFI_STATUS)
    (Instance : NOR_FLASH_INSTANCE) (ranges : list (Z * Z)) :
  Media_ReadOnly Instance = false ->
  Forall (fun r => fst r <> EFI_LBA_LIST_TERMINATOR) ranges ->
  forallb (Range_ok (Media_LastBlock Instance)) ranges = true ->
  ((forall j, (j < length (flat_map Range_blocks ranges))%nat ->
              EFI_ERROR (io j) = false) ->
   FvbEraseBlocks io Instance (Erase_args ranges)
   = Some (last (map io (seq 0 (length (flat_map Range_blocks ranges))))
             EFI_SUCCESS,
           map (Erase_call Instance) (flat_map Range_blocks ranges))
   /\ EFI_ERROR (last (map io (seq 0 (length (flat_map Range_blocks ranges))))
                   EFI_SUCCESS) = false)
  /\ (forall k,
        (k < length (flat_map Range_blocks ranges))%nat ->
        (forall j, (j < k)%nat -> EFI_ERROR (io j) = false) ->
        EFI_ERROR (io k) = true ->
        FvbEraseBlocks io Instance (Erase_args ranges)
        = Some (EFI_DEVICE_ERROR,
                map (Erase_call Instance)
                  (firstn (S k) (flat_map Range_blocks ranges))))
  /\ (Forall (fun r => 0 <= fst r /\ fst r + Range_count r <= 2 ^ 64) ranges ->
      Forall (fun Lba => 0 <= Lba <= Media_LastBlock Instance)
        (flat_map Range_blocks ranges)).
Proof.
  intros Hro HF Hok.
  destruct (EraseBlocks_ok io Instance ranges Hro HF Hok) as [Hall Hstop].
  split; [|split; [exact Hstop|]].
  - intros H; split; [apply Hall; exact H|].
    apply last_status_ok; [exact H | reflexivity].
  - apply Range_blocks_inside; exact Hok.
Qed.

(** X28.  The block count of FvbGetBlockSize is a valid erase range: when
    FvbGetBlockSize succeeds for Lba, on a device of fewer than 2^32 - 1
    blocks, the number of blocks it reports is the distance to the last
    block, and FvbEraseBlocks called with Lba and that number passes the
    check.  When every erase succeeds it erases the blocks from Lba to the
    last block, in ascending order, and returns the status of the last
    erase; when erase number k is the first that fails it stops there,
    after the first k + 1 of these blocks, and returns
    EFI_DEVICE_ERROR. *)
Theorem GetBlockSize_then_EraseBlocks (io : nat -> EFI_STATUS)
    (Instance : NOR_FLASH_INSTANCE) (Lba BlockSize NumberOfBlocks : Z) :
  32 <= UINTN_bits ->
  0 <= Lba -> Media_LastBlock Instance < 2 ^ 32 - 1 ->
  Lba <> EFI_LBA_LIST_TERMINATOR ->
  Media_ReadOnly Instance = false ->
  FvbGetBlockSize Instance Lba
  = (EFI_SUCCESS, Some (BlockSize, NumberOfBlocks)) ->
  Lba + NumberOfBlocks - 1 = Media_LastBlock Instance
  /\ Forall (fun b => Lba <= b <= Media_LastBlock Instance)
       (Blocks_from Lba (Z.to_nat NumberOfBlocks))
  /\ ((forall j, (j < Z.to_nat NumberOfBlocks)%nat ->
                 EFI_ERROR (io j) = false) ->
      FvbEraseBlocks io Instance (Erase_args [(Lba, NumberOfBlocks)])
      = Some (last (map io (seq 0 (Z.to_nat NumberOfBlocks))) EFI_SUCCESS,
              map (Erase_call Instance)
                (Blocks_from Lba (Z.to_nat NumberOfBlocks))))
  /\ (forall k,
        (k < Z.to_nat NumberOfBlocks)%nat ->
        (forall j, (j < k)%nat -> EFI_ERROR (io j) = false) ->
        EFI_ERROR (io k) = true ->
        FvbEraseBlocks io Instance (Erase_args [(Lba, NumberOfBlocks)])
        = Some (EFI_DEVICE_ERROR,
                map (Erase_call Instance)
                  (firstn (S k) (Blocks_from Lba (Z.to_nat NumberOfBlocks))))).
Proof.
  intros Hbits H0 Hlast Hterm Hro H.
  unfold FvbGetBlockSize in H.
  destruct (Lba >? Media_LastBlock Instance) eqn:Hgt; [discriminate|].
  rewrite Z.gtb_ltb in Hgt; apply Z.ltb_ge in Hgt.
  assert (Hpow : 2 ^ 32 <= 2 ^ UINTN_bits)
    by (apply Z.pow_le_mono_r; lia).
  assert (Hnb : NumberOfBlocks = Media_LastBlock Instance - Lba + 1).
  { inv H; unfold to_UINTN, to_UINT64.
    rewrite (Z.mod_small _ (2 ^ 64)) by lia.
    apply Z.mod_small; lia. }
  assert (Hc : Range_count (Lba, NumberOfBlocks) = NumberOfBlocks)
    by (apply Range_count_small; cbn [snd]; lia).
  split; [lia|]. split.
  - eapply Forall_impl; [|apply Blocks_from_range; lia].
    intros b Hb; simpl in Hb; lia.
  - destruct (EraseBlocks_ok io Instance [(Lba, NumberOfBlocks)] Hro)
      as (A & B).
    + constructor; [exact Hterm | constructor].
    + cbn [forallb]; unfold Range_ok; rewrite Hc; cbn [fst].
      replace (NumberOfBlocks =? 0) with false
        by (symmetry; apply Z.eqb_neq; lia).
      replace (to_UINT64 (Lba + NumberOfBlocks - 1)
               >? Media_LastBlock Instance) with false; [reflexivity|].
      symmetry; rewrite Z.gtb_ltb; apply Z.ltb_ge.
      unfold to_UINT64; rewrite Z.mod_small by lia; lia.
    + cbn [flat_map] in A, B; rewrite app_nil_r in A, B.
      unfold Range_blocks in A, B; rewrite Hc in A, B; cbn [fst] in A, B.
      rewrite Blocks_from_length in A, B.
      split; [exact A | exact B].
Qed.

End FirmwareVolumeBlock.

Section FirmwareVolumeBlockExamples.

#[local] Existing Instance NorFlashDxe_h_example.




(** The second of two ranges ends behind block 7, the last block of
    [ex_flash]: nothing is erased. *)
Lemma EraseBlocks_checks_first_witness :
  Media_LastBlock ex_flash < 6 + 3 - 1
  /\ FvbEraseBlocks (fun _ => EFI_SUCCESS) ex_flash
       (Erase_args [(0, 2); (6, 3)])
     = Some (EFI_INVALID_PARAMETER, []).
Proof.
  assert (Hbad : Media_LastBlock ex_flash < 6 + 3 - 1) by (simpl; lia).
  split; [exact Hbad|].
  destruct (EraseBlocks_checks_first (fun _ => EFI_SUCCESS) ex_flash
              [(0, 2); (6, 3)] []) as (_ & H & _).
  apply (H eq_refl) with (r := (6, 3)); cbn [fst snd]; try lia.
  - vm_compute; discriminate.
  - repeat (apply Forall_cons; [vm_compute; discriminate|]); apply Forall_nil.
  - right; left; reflexivity.
Defined.

(** Blocks 0, 1 and 5, 6, 7 of [ex_flash] are erased when every erase
    succeeds; when the third erase fails, blocks 6 and 7 are not
    touched. *)
Lemma EraseBlocks_erases_ranges_witness :
  FvbEraseBlocks (fun _ => EFI_SUCCESS) ex_flash (Erase_args [(0, 2); (5, 3)])
  = Some (EFI_SUCCESS,
          map Call_EraseSingleBlock [4096; 4112; 4176; 4192; 4208])
  /\ FvbEraseBlocks ex_erase_fails ex_flash (Erase_args [(0, 2); (5, 3)])
     = Some (EFI_DEVICE_ERROR, map Call_EraseSingleBlock [4096; 4112; 4176]).
Proof.
  assert (HF : Forall (fun r => fst r <> EFI_LBA_LIST_TERMINATOR)
                 [(0, 2); (5, 3)])
    by (repeat (apply Forall_cons; [vm_compute; discriminate|]);
        apply Forall_nil).
  split.
  - destruct (EraseBlocks_erases_ranges (fun _ => EFI_SUCCESS) ex_flash
                [(0, 2); (5, 3)] eq_refl HF eq_refl) as (A & _).
    destruct A as [E _]; [reflexivity|].
    rewrite E; reflexivity.
  - destruct (EraseBlocks_erases_ranges ex_erase_fails ex_flash
                [(0, 2); (5, 3)] eq_refl HF eq_refl) as (_ & B & _).
    rewrite (B 2%nat); [reflexivity | simpl; lia | | reflexivity].
    intros j Hj; destruct j as [|[|j]]; [reflexivity | reflexivity | lia].
Defined.

(** From block 5 of [ex_flash] three blocks are left, and they are erased
    when every erase succeeds; from block 3 five blocks are left, and when
    the erase of the third of them, block 5, fails, blocks 6 and 7 are not
    touched. *)
Lemma GetBlockSize_then_EraseBlocks_witness :
  FvbGetBlockSize ex_flash 5 = (EFI_SUCCESS, Some (16, 3))
  /\ FvbEraseBlocks (fun _ => EFI_SUCCESS) ex_flash (Erase_args [(5, 3)])
     = Some (EFI_SUCCESS, map (Erase_call ex_flash) [5; 6; 7])
  /\ FvbGetBlockSize ex_flash 3 = (EFI_SUCCESS, Some (16, 5))
  /\ FvbEraseBlocks ex_erase_fails ex_flash (Erase_args [(3, 5)])
     = Some (EFI_DEVICE_ERROR, map (Erase_call ex_flash) [3; 4; 5]).
Proof.
  assert (E : FvbGetBlockSize ex_flash 5 = (EFI_SUCCESS, Some (16, 3)))
    by reflexivity.
  assert (E3 : FvbGetBlockSize ex_flash 3 = (EFI_SUCCESS, Some (16, 5)))
    by reflexivity.
  split; [exact E|]. split; [|split; [exact E3|]].
  - destruct (GetBlockSize_then_EraseBlocks (fun _ => EFI_SUCCESS) ex_flash
                5 16 3) as (_ & _ & A & _);
      [vm_compute; discriminate | lia | simpl; lia | vm_compute; discriminate
      | reflexivity | exact E |].
    rewrite A; [reflexivity | intros; reflexivity].
  - destruct (GetBlockSize_then_EraseBlocks ex_erase_fails ex_flash
                3 16 5) as (_ & _ & _ & B);
      [vm_compute; discriminate | lia | simpl; lia | vm_compute; discriminate
      | reflexivity | exact E3 |].
    rewrite (B 2%nat); [reflexivity | simpl; lia | | reflexivity].
    intros j Hj; destruct j as [|[|j]]; [reflexivity | reflexivity | lia].
Defined.

End FirmwareVolumeBlockExamples.
